(** * libzet: Zettel documents, their attribute map and the two text codecs

    A shallow embedding of [libzet/Attributes.py], [libzet/Zettel.py],
    [libzet/parsing.py] and the loading, saving and deleting functions of
    [libzet/editing.py], with the Python built-ins they rely on, followed by
    the properties of the specification that concern them and by further
    properties of the code.

    Conventions.
    - A Python [str] is a list of characters; a character is one of the code
      points U+0000..U+00FF (Rocq's [ascii]).  Literals are written in
      [py_scope], where the two-character sequences backslash-n,
      backslash-t and backslash-backslash denote a newline, a tab and a
      backslash, as in a Python literal.
    - A Python [dict] is an association list in insertion order.
    - A call that may raise returns a [result]; exceptions are named after
      the Python exception classes.
    - The third-party packages (PyYAML, superdate), the clock and the
      reading side of the file system are the fields of the class
      [Services]; the writing side of the file system is the class [Disk],
      whose state is passed explicitly. *)

From Stdlib Require Import List Ascii Bool Arith ZArith Lia.
From Stdlib Require Import Permutation Sorted.
From Stdlib Require Import Strings.Byte.
Import ListNotations.

Set Implicit Arguments.

(* ================================================================== *)
(** * Python strings *)
(* ================================================================== *)

Definition str := list ascii.

Inductive literal := LNil | LCons (c : ascii) (r : literal).

Fixpoint unescape (bs : list byte) : literal :=
  match bs with
  | [] => LNil
  | x5c :: x6e :: r => LCons "010"%char (unescape r)
  | x5c :: x74 :: r => LCons "009"%char (unescape r)
  | x5c :: x5c :: r => LCons "\"%char (unescape r)
  | b :: r => LCons (ascii_of_byte b) (unescape r)
  end.

Fixpoint escape (s : literal) : list byte :=
  match s with
  | LNil => []
  | LCons c r =>
      if Ascii.eqb c "010" then x5c :: x6e :: escape r
      else if Ascii.eqb c "009" then x5c :: x74 :: escape r
      else if Ascii.eqb c "\" then x5c :: x5c :: escape r
      else byte_of_ascii c :: escape r
  end.

Declare Scope py_scope.
Delimit Scope py_scope with py.
Bind Scope py_scope with str.
#[warnings="-via-type-mismatch,-via-type-remapping"]
String Notation str unescape escape
  (via literal mapping [[nil] => LNil, [cons] => LCons]) : py_scope.
Open Scope py_scope.
Open Scope list_scope.

Definition NL : ascii := "010"%char.
Definition SP : ascii := " "%char.

Module PyStr.

(** [c.isspace()] for a code point below 256: TAB..CR, FS..US, space,
    NEL and the no-break space. *)
Definition isspace (c : ascii) : bool :=
  let n := nat_of_ascii c in
  ((9 <=? n) && (n <=? 13)) || ((28 <=? n) && (n <=? 32))
  || (n =? 133) || (n =? 160).

(** The line boundaries of [str.splitlines] below 256: LF, VT, FF, CR,
    FS, GS, RS and NEL. *)
Definition is_linebreak (c : ascii) : bool :=
  let n := nat_of_ascii c in
  ((10 <=? n) && (n <=? 13)) || ((28 <=? n) && (n <=? 30)) || (n =? 133).

(** [s.lstrip()], [s.rstrip()], [s.strip()] *)
Fixpoint lstrip (s : str) : str :=
  match s with
  | [] => []
  | c :: r => if isspace c then lstrip r else s
  end.

Definition rstrip (s : str) : str := rev (lstrip (rev s)).

Definition strip (s : str) : str := rstrip (lstrip s).

(** [s.startswith(p)], [s.endswith(p)] *)
Fixpoint startswith (s p : str) {struct p} : bool :=
  match p, s with
  | [], _ => true
  | _ :: _, [] => false
  | c :: p', d :: s' => Ascii.eqb c d && startswith s' p'
  end.

Definition endswith (s p : str) : bool := startswith (rev s) (rev p).

(** [sub in s] *)
Fixpoint contains (s sub : str) : bool :=
  startswith s sub ||
  match s with
  | [] => false
  | _ :: r => contains r sub
  end.

(** [sep.join(l)] *)
Fixpoint join (sep : str) (l : list str) : str :=
  match l with
  | [] => []
  | [x] => x
  | x :: r => x ++ sep ++ join sep r
  end.

(** [s.split(sep)] for a non-empty separator (every call of the source
    passes a literal one): the occurrences of [sep] are found from left to
    right and do not overlap.  [skip] counts the characters of a matched
    separator that are still to be passed over. *)
Fixpoint split_from (sep s : str) (skip : nat) : list str :=
  match s with
  | [] => [[]]
  | c :: r =>
      match skip with
      | S k => split_from sep r k
      | O =>
          if startswith s sep then [] :: split_from sep r (length sep - 1)
          else match split_from sep r 0 with
               | p :: ps => (c :: p) :: ps
               | [] => [[c]]
               end
      end
  end.

Definition split (s sep : str) : list str := split_from sep s 0.

(** [s.split()]: the maximal runs of non-whitespace characters.
    [words_from s] is the run [s] starts with (possibly empty) and the
    runs after it. *)
Fixpoint words_from (s : str) : str * list str :=
  match s with
  | [] => ([], [])
  | c :: r =>
      let (w, ws) := words_from r in
      if isspace c then ([], match w with [] => ws | _ => w :: ws end)
      else (c :: w, ws)
  end.

Definition split_ws (s : str) : list str :=
  let (w, ws) := words_from s in
  match w with [] => ws | _ => w :: ws end.

(** [s.splitlines()]: a line ends at a line boundary, CR LF counts as
    one boundary, and no empty line follows a final boundary.
    [after_cr] tells that the previous character was a CR. *)
Fixpoint splitlines_from (after_cr : bool) (s : str) : list str :=
  match s with
  | [] => []
  | c :: r =>
      if after_cr && Ascii.eqb c NL then splitlines_from false r
      else if is_linebreak c
      then [] :: splitlines_from (Ascii.eqb c "013") r
      else match splitlines_from false r with
           | [] => [[c]]
           | l :: ls => (c :: l) :: ls
           end
  end.

Definition splitlines (s : str) : list str := splitlines_from false s.

(** [s.lower()] below 256: A..Z and the Latin-1 capitals U+00C0..U+00DE
    (the multiplication sign U+00D7 apart) move up by 32. *)
Definition lower_char (c : ascii) : ascii :=
  let n := nat_of_ascii c in
  if ((65 <=? n) && (n <=? 90))
     || ((192 <=? n) && (n <=? 222) && negb (n =? 215))
  then ascii_of_nat (n + 32) else c.

Definition lower (s : str) : str := map lower_char s.

(** [c * n] for a one-character string [c] *)
Definition times (c : ascii) (n : nat) : str := repeat c n.

(** [a == b], [a < b] and [a <= b] on strings: by code point, then by
    length. *)
Fixpoint eqb (a b : str) : bool :=
  match a, b with
  | [], [] => true
  | c :: a', d :: b' => Ascii.eqb c d && eqb a' b'
  | _, _ => false
  end.

Fixpoint ltb (a b : str) : bool :=
  match a, b with
  | _, [] => false
  | [], _ :: _ => true
  | c :: a', d :: b' =>
      (nat_of_ascii c <? nat_of_ascii d)
      || ((nat_of_ascii c =? nat_of_ascii d) && ltb a' b')
  end.

Definition leb (a b : str) : bool := negb (ltb b a).

(** [x in l] for a list of strings *)
Definition mem (x : str) (l : list str) : bool := existsb (eqb x) l.

(** [sorted(l)] for a list of strings.  Python's sort is stable and
    compares with [<] only; so does this insertion sort. *)
Fixpoint insert_sorted (x : str) (l : list str) : list str :=
  match l with
  | [] => [x]
  | y :: r => if ltb y x then y :: insert_sorted x r else x :: l
  end.

Definition sorted (l : list str) : list str :=
  fold_right insert_sorted [] l.

End PyStr.

(* ================================================================== *)
(** * Exceptions *)
(* ================================================================== *)

Inductive exn :=
| KeyError | ValueError | TypeError | AttributeError | IndexError
| YAMLError | OSError.

Inductive result (A : Type) :=
| Ok (a : A)
| Raise (e : exn).

Arguments Ok {A} a.
Arguments Raise {A} e.

Definition bind {A B} (r : result A) (k : A -> result B) : result B :=
  match r with
  | Ok a => k a
  | Raise e => Raise e
  end.

Notation "x <- r ;; k" := (bind r (fun x => k))
  (at level 61, r at next level, right associativity).

(** A list comprehension or a [for] loop whose body may raise: the first
    exception ends it. *)
Fixpoint mapM {A B} (f : A -> result B) (l : list A) : result (list B) :=
  match l with
  | [] => Ok []
  | x :: r => y <- f x ;; ys <- mapM f r ;; Ok (y :: ys)
  end.

Fixpoint foldM {A S} (f : S -> A -> result S) (l : list A) (s : S)
  : result S :=
  match l with
  | [] => Ok s
  | x :: r => s' <- f s x ;; foldM f r s'
  end.

(* ================================================================== *)
(** * Python dictionaries and lists *)
(* ================================================================== *)

Module PyDict.
Section Dict.
Variable V : Type.

Definition dict := list (str * V).

(** [d.get(k)] *)
Fixpoint get (d : dict) (k : str) : option V :=
  match d with
  | [] => None
  | (k', v) :: r => if PyStr.eqb k k' then Some v else get r k
  end.

(** [k in d] *)
Definition has (d : dict) (k : str) : bool :=
  match get d k with Some _ => true | None => false end.

(** [d[k] = v]: a stored key keeps its place, a new one goes last. *)
Fixpoint set (d : dict) (k : str) (v : V) : dict :=
  match d with
  | [] => [(k, v)]
  | (k', v') :: r =>
      if PyStr.eqb k k' then (k, v) :: r else (k', v') :: set r k v
  end.

(** [del d[k]] for a stored key *)
Fixpoint del (d : dict) (k : str) : dict :=
  match d with
  | [] => []
  | (k', v') :: r => if PyStr.eqb k k' then r else (k', v') :: del r k
  end.

(** [d.update(other)] of the built-in [dict] *)
Definition update (d other : dict) : dict :=
  fold_left (fun acc kv => set acc (fst kv) (snd kv)) other d.

(** [list(d)], [list(d.keys())] *)
Definition keys (d : dict) : list str := map fst d.

(** [{k: v for k, v in items}] and [dict(items)] *)
Definition of_items (items : list (str * V)) : dict := update [] items.

(** Two dictionaries compare equal ([==]) when they store the same value
    under every key, whatever the insertion order. *)
Definition equiv (d1 d2 : dict) : Prop := forall k, get d1 k = get d2 k.

End Dict.
End PyDict.

(** [l[a:b]] and [l[i]] with Python's reading of negative and
    out-of-range bounds. *)
Definition clamp_index (len i : Z) : Z :=
  if (i <? 0)%Z then Z.max 0 (i + len) else Z.min i len.

Definition slice {A} (l : list A) (a b : Z) : list A :=
  let n := Z.of_nat (length l) in
  let a' := clamp_index n a in
  let b' := clamp_index n b in
  firstn (Z.to_nat (b' - a')) (skipn (Z.to_nat a') l).

Definition index {A} (l : list A) (i : Z) : result A :=
  let n := Z.of_nat (length l) in
  let j := if (i <? 0)%Z then (i + n)%Z else i in
  if ((0 <=? j) && (j <? n))%Z then
    match nth_error l (Z.to_nat j) with
    | Some x => Ok x
    | None => Raise IndexError
    end
  else Raise IndexError.

(** [enumerate(l)] *)
Definition enumerate {A} (l : list A) : list (Z * A) :=
  combine (map Z.of_nat (seq 0 (length l))) l.

(* ================================================================== *)
(** * Attribute values *)
(* ================================================================== *)

(** What a [SuperDate] wraps in its [_date] field: a [datetime.date] or a
    [datetime.datetime]. *)
Inductive DateVal :=
| Date (y m d : Z)
| DateTime (y m d hh mm : Z).

(** The values an attribute may hold.  [VDate] is a [SuperDate] object,
    [VNoCompare] the object a failed lookup returns.  Dictionary keys are
    strings. *)
#[warnings="-register-all"]
Inductive PyValue :=
| VNone
| VBool (b : bool)
| VInt (z : Z)
| VStr (s : str)
| VDate (d : DateVal)
| VDict (kvs : list (str * PyValue))
| VList (xs : list PyValue)
| VNoCompare.

(** [bool(v)].  A [SuperDate] and a [NoCompare] define neither [__bool__]
    nor [__len__] that the source relies on; they are true as every plain
    object is. *)
Definition truthy (v : PyValue) : bool :=
  match v with
  | VNone => false
  | VBool b => b
  | VInt z => negb (z =? 0)%Z
  | VStr s => match s with [] => false | _ => true end
  | VDate _ => true
  | VDict kvs => match kvs with [] => false | _ => true end
  | VList xs => match xs with [] => false | _ => true end
  | VNoCompare => true
  end.

(** [dict(v)], as [Attributes.update] calls it on its argument: a mapping
    is copied, a sequence must consist of two-element sequences.  The
    keys of a mapping are strings in this development.  A pair whose
    first element is no string is refused with [TypeError], which is what
    [Attributes.__setitem__] raises for such a key when it comes with a
    true value (at ['date' in key]); with a false value Python stores the
    key, a case that maps with string keys leave out. *)
Definition pair_of (v : PyValue) : result (str * PyValue) :=
  match v with
  | VList [VStr k; x] => Ok (k, x)
  | VList [_; _] => Raise TypeError
  | VList _ => Raise ValueError
  | VStr [a; b] => Ok ([a], VStr [b])
  | VStr _ => Raise ValueError
  | VDict [(k1, _); (k2, _)] => Ok (k1, VStr k2)
  | VDict _ => Raise ValueError
  | _ => Raise TypeError
  end.

Definition py_dict (v : PyValue) : result (PyDict.dict PyValue) :=
  match v with
  | VDict kvs => Ok (PyDict.of_items kvs)
  | VList xs => items <- mapM pair_of xs ;; Ok (PyDict.of_items items)
  | VStr [] => Ok []
  | VStr _ => Raise ValueError
  | _ => Raise TypeError
  end.

(* ================================================================== *)
(** * The collaborators of the library *)
(* ================================================================== *)

Class Services := {
  (** [os.path.exists(p)] and [open(p).read()] *)
  os_path_exists : str -> bool;
  read_file : str -> result str;
  (** [yaml.safe_load(s)] and [yaml.dump(v)] *)
  yaml_safe_load : str -> result PyValue;
  yaml_dump : PyValue -> str;
  (** [superdate.SuperDate(v)], [superdate.parse_date(s)] and
      [d.strftime(fmt)] *)
  SuperDate : PyValue -> result DateVal;
  parse_date : str -> result DateVal;
  strftime : DateVal -> str -> str
}.

(** The disk [save_zettels] and [delete_zettels] write to.  An operation
    leaves the disk in a new state and may raise as well:
    [open(path, 'w')], which creates or empties the file; [f.write(text)]
    followed by the close of the file; the close alone, when no text was
    written; [os.remove(path)].  The path is the value stored under
    [_loadpath], whatever it is. *)
Class Disk := {
  disk : Type;
  disk_open_w : disk -> PyValue -> disk * option exn;
  disk_write : disk -> PyValue -> str -> disk * option exn;
  disk_close : disk -> PyValue -> disk;
  disk_remove : disk -> PyValue -> disk * option exn
}.

Section Libzet.
Context {svc : Services}.

(* ================================================================== *)
(** * libzet/Attributes.py *)
(* ================================================================== *)

Definition Attributes := PyDict.dict PyValue.

Definition dtfields : list str :=
  ["event_begin"; "event_end"; "recurring_stop"].

(** [key in dtfields or 'date' in key] *)
Definition is_date_key (key : str) : bool :=
  PyStr.mem key dtfields || PyStr.contains key "date".

(** [Attributes.__getitem__] *)
Definition Attributes_getitem (self : Attributes) (key : str) : PyValue :=
  match PyDict.get self key with
  | Some v => v
  | None => VNoCompare
  end.

(** [Attributes.__setitem__] *)
Definition Attributes_setitem (self : Attributes) (key : str) (val : PyValue)
  : result Attributes :=
  val' <- (if truthy val && is_date_key key
           then d <- SuperDate val ;; Ok (VDate d)
           else Ok val) ;;
  Ok (PyDict.set self key val').

(** [Attributes.update] *)
Definition Attributes_update (self : Attributes) (arg : PyValue)
  : result Attributes :=
  d <- py_dict arg ;;
  foldM (fun a kv => Attributes_setitem a (fst kv) (snd kv)) d self.

(** [Attributes.toYamlDict] *)
Definition yaml_value (k : str) (v : PyValue) : result PyValue :=
  if truthy v && is_date_key k then
    match v with
    | VDate (Date _ _ _ as d) => Ok (VStr (strftime d "%Y-%m-%d, %a"))
    | VDate (DateTime _ _ _ _ _ as d) =>
        Ok (VStr (strftime d "%Y-%m-%d, %a, %H:%M"))
    | _ => Raise AttributeError
    end
  else Ok v.

Definition Attributes_toYamlDict (self : Attributes)
  : result (PyDict.dict PyValue) :=
  mapM (fun kv => v <- yaml_value (fst kv) (snd kv) ;; Ok (fst kv, v))
       (PyDict.update [] self).

(** [Attributes.__str__] *)
Definition Attributes_str (self : Attributes) : result str :=
  d <- Attributes_toYamlDict self ;;
  Ok ("---\n" ++ yaml_dump (VDict d)).

(** [Attributes.fromYaml]; the file that is read is the one the argument
    names. *)
Definition Attributes_fromYaml (s : str) : result Attributes :=
  d <- yaml_safe_load s ;;
  d <- (match d with
        | VStr _ => s' <- read_file s ;; yaml_safe_load s'
        | _ => Ok d
        end) ;;
  Attributes_update [] d.

(* ================================================================== *)
(** * libzet/Zettel.py *)
(* ================================================================== *)

Definition _is_rst_heading (s : str) : bool :=
  let s := PyStr.strip s in
  PyStr.startswith s "=" && PyStr.endswith s "=".

Definition _is_md_heading (s : str) : bool :=
  let s := PyStr.lstrip s in
  PyStr.startswith s "## ".

Record Zettel := {
  title : str;
  headings : PyDict.dict str;
  attrs : Attributes
}.

(** The attribute part of [Zettel.__init__]: [attrs or dict()], the
    update of a fresh [Attributes], and the two defaults. *)
Definition init_attrs (attrs : PyValue) : result Attributes :=
  let attrs := if truthy attrs then attrs else VDict [] in
  a <- Attributes_update [] attrs ;;
  a <- (if PyDict.has a "creation_date" then Ok a
        else d <- parse_date "today" ;;
             Attributes_setitem a "creation_date" (VDate d)) ;;
  if PyDict.has a "zlinks" then Ok a
  else Attributes_setitem a "zlinks" (VDict []).

(** [Zettel.__init__(title, headings, attrs)]; [None] for [headings] is
    the empty dictionary, [None] for [attrs] is [VNone]. *)
Definition Zettel_init (title : str) (headings : PyDict.dict str)
  (attrs : PyValue) : result Zettel :=
  let hs := PyDict.of_items headings in
  a <- init_attrs attrs ;;
  Ok {| title := title; headings := hs; attrs := a |}.

(** The text a decoder works on: its argument, or the content of the file
    the argument names. *)
Definition input_text (arg : str) : result str :=
  if os_path_exists arg then read_file arg else Ok arg.

(** The split at the attribute marker: [md = md.split(attr_header)], the
    appended [''], and the pair of [attr_header.join(md[:-1])] and
    [md[-1]]. *)
Definition split_attributes (text attr_header : str) : str * str :=
  let md := PyStr.split text attr_header in
  let md := if length md =? 1 then md ++ [""] else md in
  (PyStr.join attr_header (removelast md), last md "").

(** The loop over [range(len(heading_pts) - 1)] of both decoders: the
    heading is named by the line at [heading_pts[ptr]], its content starts
    [delta] lines further and ends before [heading_pts[ptr + 1]]. *)
Definition scan_headings (name_of : str -> str) (delta : Z)
  (lines : list str) (heading_pts : list Z) (headings : PyDict.dict str)
  : result (PyDict.dict str) :=
  foldM (fun hs ptr =>
           pt <- index heading_pts (Z.of_nat ptr) ;;
           content_end <- index heading_pts (Z.of_nat ptr + 1) ;;
           line <- index lines pt ;;
           Ok (PyDict.set hs (name_of line)
                 (PyStr.join "\n" (slice lines (pt + delta) content_end))))
        (seq 0 (length heading_pts - 1)) headings.

(** [headings['_notes'] = ...] followed by the [del] of an empty one *)
Definition notes_headings (lines : list str) (heading_pts : list Z)
  : result (PyDict.dict str) :=
  stop <- index heading_pts 0 ;;
  let notes := PyStr.join "\n" (slice lines 0 stop) in
  Ok (match notes with
      | [] => []
      | _ => PyDict.set [] "_notes" notes
      end).

Definition md_heading_name (line : str) : str :=
  PyStr.strip (PyStr.join "" (tl (PyStr.split line "## "))).

(** The title and the headings out of the lines before the attribute
    marker, Markdown. *)
Definition md_body (md : list str) : result (str * PyDict.dict str) :=
  let '(title, md) :=
    match md with
    | l0 :: rest =>
        if PyStr.startswith (PyStr.strip l0) "# "
        then (PyStr.join " " (tl (PyStr.split_ws l0)), rest)
        else ("", md)
    | [] => ("", md)
    end in
  let heading_pts :=
    map fst (filter (fun xy => _is_md_heading (snd xy)) (enumerate md))
    ++ [Z.of_nat (length md)] in
  hs <- notes_headings md heading_pts ;;
  hs <- scan_headings md_heading_name 1 md heading_pts hs ;;
  Ok (title, hs).

(** [Zettel.createFromMd] *)
Definition createFromMd (md : str) : result Zettel :=
  md <- input_text md ;;
  let md := PyStr.strip md in
  match md with
  | [] => Zettel_init "" [] (VDict [])
  | _ =>
      let '(body, blob) := split_attributes md "<!--- attributes --->" in
      attributes <- yaml_safe_load (PyStr.strip blob) ;;
      th <- md_body (PyStr.splitlines body) ;;
      Zettel_init (fst th) (snd th) attributes
  end.

(** The title and the headings out of the lines before the attribute
    marker, RST. *)
Definition rst_body (rst : list str) : result (str * PyDict.dict str) :=
  let '(title, rst) :=
    match rst with
    | l0 :: l1 :: l2 :: rest =>
        if _is_rst_heading l0 && _is_rst_heading l2
        then (PyStr.strip l1, rest)
        else ("", rst)
    | _ => ("", rst)
    end in
  let heading_pts :=
    map (fun xy => (fst xy - 1)%Z)
        (filter (fun xy => _is_rst_heading (snd xy)) (enumerate rst))
    ++ [Z.of_nat (length rst)] in
  hs <- notes_headings rst heading_pts ;;
  hs <- scan_headings (fun line => line) 2 rst heading_pts hs ;;
  Ok (title, hs).

(** [Zettel.createFromRst] *)
Definition createFromRst (rst : str) : result Zettel :=
  rst <- input_text rst ;;
  let rst := PyStr.strip rst in
  match rst with
  | [] => Zettel_init "" [] (VDict [])
  | _ =>
      let '(body, blob) := split_attributes rst ".. attributes\n::" in
      attributes <- yaml_safe_load (PyStr.strip blob) ;;
      th <- rst_body (PyStr.splitlines body) ;;
      Zettel_init (fst th) (snd th) attributes
  end.

(** [d[k]] of the built-in [dict] *)
Definition dict_getitem {V} (d : PyDict.dict V) (k : str) : result V :=
  match PyDict.get d k with
  | Some v => Ok v
  | None => Raise KeyError
  end.

(** The first three statements of [getMd] and [getRst]: the names to
    display, lower-cased; [only] is the argument [headings]. *)
Definition display_names (self : Zettel) (only : option (list str))
  : list str :=
  let hs := match only with Some l => l | None => [] end in
  let hs := match hs with [] => PyDict.keys (headings self) | _ => hs end in
  map PyStr.lower hs.

(** [{k.lower(): k for k in self.headings}] *)
Definition lookup_headings (self : Zettel) : PyDict.dict str :=
  PyDict.of_items (map (fun k => (PyStr.lower k, k))
                       (PyDict.keys (headings self))).

(** The loop over the names to display; [emit k] is what one stored
    heading [k] appends before its content. *)
Definition display_headings (self : Zettel) (emit : str -> list str)
  (names : list str) (s : list str) : result (list str) :=
  foldM (fun s heading =>
           if PyStr.eqb heading "_notes"
              || negb (PyDict.has (lookup_headings self) heading)
           then Ok s
           else
             k <- dict_getitem (lookup_headings self) heading ;;
             c <- dict_getitem (headings self) k ;;
             Ok (s ++ emit k ++ [c]))
        names s.

(** [['    ' + x for x in str(self.attrs).splitlines()]] *)
Definition attribute_lines (self : Zettel) : result (list str) :=
  a <- Attributes_str (attrs self) ;;
  Ok (map (fun x => "    " ++ x) (PyStr.splitlines a)).

(** [Zettel.getMd]; [only] is the argument [headings]. *)
Definition getMd (self : Zettel) (only : option (list str))
  : result str :=
  let names := display_names self only in
  let s := [] in
  let s := match title self with [] => s | t => s ++ ["# " ++ t] end in
  s <- (if PyStr.mem "_notes" names
        then notes <- dict_getitem (headings self) "_notes" ;;
             Ok (match notes with [] => s | _ => s ++ [notes] end)
        else Ok s) ;;
  s <- display_headings self (fun k => ["## " ++ k]) names s ;;
  a <- attribute_lines self ;;
  let s := s ++ ["<!--- attributes --->"] ++ a ++ [""] in
  Ok (PyStr.join "\n" s).

(** [Zettel.getRst]; [only] is the argument [headings]. *)
Definition getRst (self : Zettel) (only : option (list str))
  : result str :=
  let names := display_names self only in
  let s := [] in
  let s :=
    match title self with
    | [] => s
    | t => let rule := PyStr.times "=" (length t + 2) in
           s ++ [rule; " " ++ t; rule]
    end in
  s <- (if PyStr.mem "_notes" names
        then notes <- dict_getitem (headings self) "_notes" ;;
             Ok (s ++ [notes])
        else Ok s) ;;
  s <- display_headings self
         (fun k => [k; PyStr.times "=" (length k)]) names s ;;
  a <- attribute_lines self ;;
  let s := s ++ [".. attributes"; "::"; ""] ++ a ++ [""] in
  Ok (PyStr.join "\n" s).

(** [Zettel.update]: the Zettel [self] has become. *)
Definition Zettel_update (self new_zettel : Zettel)
  (exp_headings : option (list str)) : result Zettel :=
  let exp_headings :=
    match exp_headings with Some l => l | None => [] end in
  let orig_creation_date := Attributes_getitem (attrs self) "creation_date" in
  a <- Attributes_update [] (VDict (attrs new_zettel)) ;;
  a <- Attributes_setitem a "creation_date" orig_creation_date ;;
  let hs :=
    match exp_headings with
    | [] => headings new_zettel
    | _ =>
        let kept :=
          fold_left
            (fun hs heading =>
               if negb (PyDict.has (headings new_zettel) heading)
                  && PyDict.has hs heading
               then PyDict.del hs heading else hs)
            exp_headings (headings self) in
        PyDict.update kept (headings new_zettel)
    end in
  Ok {| title := title new_zettel; headings := hs; attrs := a |}.

(* ================================================================== *)
(** * libzet/parsing.py *)
(* ================================================================== *)

Definition rst_sep : str := ".. end-zettel".
Definition md_sep : str := "<!--- end-zettel --->".

(** [zettels_to_str]; [only] is the argument [headings]. *)
Definition zettels_to_str (zettels : list Zettel) (zettel_format : str)
  (only : option (list str)) : result str :=
  let formats := ["rst"; "md"] in
  if negb (PyStr.mem zettel_format formats) then Raise ValueError
  else if PyStr.eqb zettel_format "rst" then
    text <- mapM (fun x => getRst x only) zettels ;;
    Ok (PyStr.join ("\n" ++ rst_sep ++ "\n\n\n")
          (PyStr.sorted
             (filter (fun x => match x with [] => false | _ => true end)
                text)))
  else if PyStr.eqb zettel_format "md" then
    text <- mapM (fun x => getMd x only) zettels ;;
    Ok (PyStr.join ("\n" ++ md_sep ++ "\n\n\n")
          (PyStr.sorted
             (filter (fun x => match x with [] => false | _ => true end)
                text)))
  else Ok "".

(** The chunks of a multi-document text: [texts = md.split(sep)] and the
    [pop] of an empty last chunk. *)
Definition chunks (text sep : str) : list str :=
  let texts := PyStr.split text sep in
  match last texts "" with
  | [] => removelast texts
  | _ => texts
  end.

(** [get_zettels_from_md] *)
Definition get_zettels_from_md (md : str) : result (list Zettel) :=
  md <- input_text md ;;
  let md := PyStr.strip md in
  match md with
  | [] => Ok []
  | _ => mapM createFromMd (chunks md md_sep)
  end.

(** [get_zettels_from_rst] *)
Definition get_zettels_from_rst (rst : str) : result (list Zettel) :=
  rst <- input_text rst ;;
  let rst := PyStr.strip rst in
  match rst with
  | [] => Ok []
  | _ => mapM createFromRst (chunks rst rst_sep)
  end.

(** [str_to_zettels] *)
Definition str_to_zettels (text zettel_format : str)
  : result (list Zettel) :=
  if PyStr.eqb zettel_format "rst" then get_zettels_from_rst text
  else if PyStr.eqb zettel_format "md" then get_zettels_from_md text
  else Ok [].

(* ================================================================== *)
(** * libzet/editing.py *)
(* ================================================================== *)

(** [_load_zettel]: the first Zettel of the text of the file, with the
    path of the file stored under [_loadpath]. *)
Definition _load_zettel (path zettel_format : str) : result Zettel :=
  text <- read_file path ;;
  zettels <- str_to_zettels text zettel_format ;;
  z <- index zettels 0 ;;
  a <- Attributes_setitem (attrs z) "_loadpath" (VStr path) ;;
  Ok {| title := title z; headings := headings z; attrs := a |}.

Context {dsk : Disk}.

(** [any(['_loadpath' not in z.attrs for z in zettels])] *)
Definition missing_loadpath (zettels : list Zettel) : bool :=
  existsb (fun z => negb (PyDict.has (attrs z) "_loadpath")) zettels.

(** The body of the loop of [save_zettels] for one Zettel: the disk and
    the Zettel it leaves, and the exception it ends with, if any.  The
    file is opened before the text is made; the [finally] clause puts
    [_loadpath] back, whatever happened. *)
Definition save_one (zettel_format : str) (d : disk) (z : Zettel)
  : disk * Zettel * option exn :=
  let loadpath := Attributes_getitem (attrs z) "_loadpath" in
  let z0 := {| title := title z; headings := headings z;
               attrs := PyDict.del (attrs z) "_loadpath" |} in
  let '(d, raised) :=
    match disk_open_w d loadpath with
    | (d, Some e) => (d, Some e)
    | (d, None) =>
        match zettels_to_str [z0] zettel_format None with
        | Ok text => disk_write d loadpath text
        | Raise e => (disk_close d loadpath, Some e)
        end
    end in
  match Attributes_setitem (attrs z0) "_loadpath" loadpath with
  | Ok a =>
      (d, {| title := title z; headings := headings z; attrs := a |}, raised)
  | Raise e => (d, z0, Some e)
  end.

(** The loop of [save_zettels]: the first exception ends it, and the
    Zettels after the one it came from are not touched. *)
Fixpoint save_all (zettel_format : str) (d : disk) (zettels : list Zettel)
  : disk * list Zettel * option exn :=
  match zettels with
  | [] => (d, [], None)
  | z :: rest =>
      match save_one zettel_format d z with
      | (d, z, Some e) => (d, z :: rest, Some e)
      | (d, z, None) =>
          let '(d, rest, raised) := save_all zettel_format d rest in
          (d, z :: rest, raised)
      end
  end.

(** [save_zettels], for a list of Zettels: the disk and the Zettels it
    leaves, and the exception it raises, if any; it returns the Zettels
    when it raises nothing. *)
Definition save_zettels (d : disk) (zettels : list Zettel)
  (zettel_format : str) : disk * list Zettel * option exn :=
  if missing_loadpath zettels then (d, zettels, Some KeyError)
  else save_all zettel_format d zettels.

(** [delete_zettels], for a list of Zettels: the disk it leaves and the
    exception it raises, if any; it returns the empty list when it raises
    nothing. *)
Fixpoint remove_all (d : disk) (zettels : list Zettel)
  : disk * option exn :=
  match zettels with
  | [] => (d, None)
  | z :: rest =>
      match disk_remove d (Attributes_getitem (attrs z) "_loadpath") with
      | (d, Some e) => (d, Some e)
      | (d, None) => remove_all d rest
      end
  end.

Definition delete_zettels (d : disk) (zettels : list Zettel)
  : disk * option exn :=
  if missing_loadpath zettels then (d, Some KeyError)
  else remove_all d zettels.

End Libzet.

(* ================================================================== *)
(** * A reference instance of the collaborators *)
(* ================================================================== *)

(** Small executable stand-ins for PyYAML and superdate, used to run the
    model on concrete documents.  They agree with the packages on what
    the examples below feed them: flat mappings with identifier keys whose
    values are plain one-line strings, integers, booleans, [null], the
    empty mapping and the empty sequence; ISO dates with an optional
    weekday and time; the word [today], read on 2026-11-04.  No path
    names a file. *)
Module Ref.

Definition digit (n : Z) : ascii := ascii_of_nat (48 + Z.to_nat (n mod 10)).

Fixpoint decimal_from (width : nat) (n : Z) (acc : str) : str :=
  match width with
  | O => acc
  | S w => decimal_from w (n / 10) (digit n :: acc)
  end.

(** [n] in decimal, zero-padded to [width] digits *)
Definition padded (width : nat) (n : Z) : str := decimal_from width n [].

Fixpoint strip_zeros (s : str) : str :=
  match s with
  | c :: (_ :: _) as r => if Ascii.eqb c "0" then strip_zeros r else s
  | _ => s
  end.

Definition decimal (n : Z) : str :=
  if (n <? 0)%Z then "-" ++ strip_zeros (padded 20 (- n))
  else strip_zeros (padded 20 n).

Definition is_digit (c : ascii) : bool :=
  let n := nat_of_ascii c in (48 <=? n) && (n <=? 57).

Definition number (s : str) : Z :=
  fold_left (fun acc c => (10 * acc + Z.of_nat (nat_of_ascii c - 48))%Z) s 0%Z.

Definition all_digits (s : str) : bool :=
  match s with [] => false | _ => forallb is_digit s end.

(** Day of the week, 0 for Sunday (Sakamoto's rule). *)
Definition weekday (y m d : Z) : Z :=
  let t := nth (Z.to_nat (m - 1)) [0; 3; 2; 5; 0; 3; 5; 1; 4; 6; 2; 4]%Z 0%Z in
  let y' := if (m <? 3)%Z then (y - 1)%Z else y in
  ((y' + y' / 4 - y' / 100 + y' / 400 + t + d) mod 7)%Z.

Definition weekday_name (w : Z) : str :=
  nth (Z.to_nat w) ["Sun"; "Mon"; "Tue"; "Wed"; "Thu"; "Fri"; "Sat"] "".

Definition date_fields (d : DateVal) : Z * Z * Z * Z * Z :=
  match d with
  | Date y m d => (y, m, d, 0, 0)%Z
  | DateTime y m d hh mm => (y, m, d, hh, mm)
  end.

(** [d.strftime(fmt)] for the directives the source uses *)
Fixpoint strftime (d : DateVal) (fmt : str) : str :=
  let '(y, m, dd, hh, mm) := date_fields d in
  match fmt with
  | "%"%char :: c :: r =>
      (if Ascii.eqb c "Y" then padded 4 y
       else if Ascii.eqb c "m" then padded 2 m
       else if Ascii.eqb c "d" then padded 2 dd
       else if Ascii.eqb c "a" then weekday_name (weekday y m dd)
       else if Ascii.eqb c "H" then padded 2 hh
       else if Ascii.eqb c "M" then padded 2 mm
       else ["%"%char; c]) ++ strftime d r
  | c :: r => c :: strftime d r
  | [] => []
  end.

Definition today : DateVal := Date 2026 11 4.

(** [YYYY-MM-DD], then an optional [, Www] and an optional [, HH:MM] *)
Definition read_date (s : str) : result DateVal :=
  match PyStr.split s ", " with
  | ymd :: rest =>
      match PyStr.split ymd "-" with
      | [y; m; d] =>
          if all_digits y && all_digits m && all_digits d then
            match rest with
            | [] | [_] => Ok (Date (number y) (number m) (number d))
            | [_; hm] =>
                match PyStr.split hm ":" with
                | [hh; mm] =>
                    if all_digits hh && all_digits mm
                    then Ok (DateTime (number y) (number m) (number d)
                               (number hh) (number mm))
                    else Raise ValueError
                | _ => Raise ValueError
                end
            | _ => Raise ValueError
            end
          else Raise ValueError
      | _ => Raise ValueError
      end
  | [] => Raise ValueError
  end.

Definition parse_date (s : str) : result DateVal :=
  if PyStr.eqb s "today" then Ok today else read_date s.

Definition SuperDate (v : PyValue) : result DateVal :=
  match v with
  | VDate d => Ok d
  | VStr s => parse_date s
  | _ => Raise ValueError
  end.

(** One scalar of a block mapping, as [yaml.dump] writes it. *)
Definition dump_scalar (v : PyValue) : str :=
  match v with
  | VNone => "null"
  | VBool true => "true"
  | VBool false => "false"
  | VInt z => decimal z
  | VStr s => s
  | VDict _ => "{}"
  | VList _ => "[]"
  | VDate _ | VNoCompare => "!!python/object"
  end.

(** [yaml.dump(v)] for a flat mapping: one line per key, keys sorted. *)
Definition yaml_dump (v : PyValue) : str :=
  match v with
  | VDict [] => "{}\n"
  | VDict kvs =>
      concat
        (map (fun k =>
                match PyDict.get kvs k with
                | Some x => k ++ ": " ++ dump_scalar x ++ "\n"
                | None => []
                end)
             (PyStr.sorted (PyDict.keys kvs)))
  | _ => dump_scalar v ++ "\n"
  end.

Definition load_scalar (s : str) : PyValue :=
  if PyStr.eqb s "{}" then VDict []
  else if PyStr.eqb s "[]" then VList []
  else if PyStr.eqb s "null" || PyStr.eqb s "~" || PyStr.eqb s "" then VNone
  else if PyStr.eqb s "true" then VBool true
  else if PyStr.eqb s "false" then VBool false
  else if all_digits s then VInt (number s)
  else VStr s.

Definition load_line (line : str) : result (str * PyValue) :=
  match PyStr.split line ":" with
  | k :: (_ :: _) as rest =>
      Ok (PyStr.strip k, load_scalar (PyStr.strip (PyStr.join ":" rest)))
  | _ => Raise YAMLError
  end.

(** [yaml.safe_load(s)] for the flat blocks [yaml_dump] writes, behind an
    optional [---] line and at any indentation. *)
Definition yaml_safe_load (s : str) : result PyValue :=
  let lines :=
    filter (fun l => match PyStr.strip l with [] => false | _ => true end)
           (PyStr.splitlines s) in
  let lines :=
    match lines with
    | l :: r => if PyStr.eqb (PyStr.strip l) "---" then r else lines
    | [] => lines
    end in
  match lines with
  | [] => Ok VNone
  | [l] =>
      if PyStr.contains l ":" then kv <- load_line l ;; Ok (VDict [kv])
      else Ok (load_scalar (PyStr.strip l))
  | _ => kvs <- mapM load_line lines ;; Ok (VDict (PyDict.of_items kvs))
  end.

#[export] Instance services : Services :=
  Build_Services
    (fun _ => false) (fun _ => Raise OSError)
    yaml_safe_load yaml_dump SuperDate parse_date strftime.

End Ref.

(* ================================================================== *)
(** * libzet/NoCompare.py *)
(* ================================================================== *)

Inductive cmp_op := OpEq | OpNe | OpLt | OpGt | OpLe | OpGe.

Module NoCompare.

(** Modelled from the spec: the module [libzet/NoCompare.py], the class of
    the object [Attributes.__getitem__] returns for a key that is not
    stored, is not among the sources.  The specification makes it the
    value that "compares as false against every value under every
    relational operator (equality, ordering)"; the tests of the repository
    ask the same of [==], [!=], [<], [>], [>=] and [<=].  So each of its
    six comparison methods answers [False], whatever the other operand. *)
Definition method (op : cmp_op) (other : PyValue) : bool :=
  match op with
  | OpEq => false
  | OpNe => false
  | OpLt => false
  | OpGt => false
  | OpLe => false
  | OpGe => false
  end.

End NoCompare.

(** [l op r] for a left operand that is a [NoCompare]: its own method
    answers.  The comparisons of the other values belong to their classes
    and are not modelled ([None]). *)
Definition compare (op : cmp_op) (l r : PyValue) : option bool :=
  match l with
  | VNoCompare => Some (NoCompare.method op r)
  | _ => None
  end.

(* ================================================================== *)
(** * The specification's reading of the operations *)
(* ================================================================== *)

(** The split of a text at the rightmost occurrence of a marker: what
    precedes it and what follows it, or [None] when the marker does not
    occur. *)
Fixpoint rsplit_last (s marker : str) : option (str * str) :=
  match s with
  | [] => None
  | c :: r =>
      match rsplit_last r marker with
      | Some (before, after) => Some (c :: before, after)
      | None =>
          if PyStr.startswith s marker
          then Some ([], skipn (length marker) s)
          else None
      end
  end.

(** A separator no proper suffix of which starts it again: two of its
    occurrences in a text cannot overlap. *)
Definition border_free (sep : str) : bool :=
  forallb (fun k => negb (PyStr.startswith sep (skipn k sep)))
          (seq 1 (length sep - 1)).

(** The Zettel made of the text before the attribute marker, read by
    [body] line by line, and of the attribute blob. *)
Definition decode_parts {svc : Services}
  (body : list str -> result (str * PyDict.dict str))
  (before blob : str) : result Zettel :=
  attributes <- yaml_safe_load blob ;;
  th <- body (PyStr.splitlines before) ;;
  Zettel_init (fst th) (snd th) attributes.

(** The text [Attributes.toYamlDict] puts in the place of a date *)
Definition date_text {svc : Services} (d : DateVal) : str :=
  match d with
  | Date _ _ _ => strftime d "%Y-%m-%d, %a"
  | DateTime _ _ _ _ _ => strftime d "%Y-%m-%d, %a, %H:%M"
  end.

(** A text with no line boundary, a text whose only line boundary is the
    newline, and the lines of such a text. *)
Definition plain_line (s : str) : bool :=
  forallb (fun c => negb (PyStr.is_linebreak c)) s.

Definition plain_text (s : str) : bool :=
  forallb (fun c => negb (PyStr.is_linebreak c) || Ascii.eqb c NL) s.

Definition lines_of (s : str) : list str := PyStr.split s "\n".

(** A body cut into the lines before the first heading and one group of
    lines per heading: the lines of the groups, and the line numbers the
    groups start at when the first one starts at [o]. *)
Definition flat (gs : list (str * list str)) : list str :=
  concat (map (fun g => fst g :: snd g) gs).

Fixpoint starts (o : nat) (gs : list (str * list str)) : list nat :=
  match gs with
  | [] => []
  | g :: gs' => o :: starts (o + S (length (snd g))) gs'
  end.

(** The numbers of the lines that [is_heading] accepts, counted from
    [o]. *)
Definition heads_from (is_heading : str -> bool) (o : nat) (l : list str)
  : list Z :=
  map fst (filter (fun xy => is_heading (snd xy))
             (combine (map Z.of_nat (seq o (length l))) l)).

(** ** Zettels that survive the round trip

    The [_notes] entry of a heading map and the entries the encoders
    write under a heading of their own. *)
Definition notes_part (hs : PyDict.dict str) : PyDict.dict str :=
  match PyDict.get hs "_notes" with
  | Some n => [("_notes", n)]
  | None => []
  end.

Definition other_headings (hs : PyDict.dict str) : PyDict.dict str :=
  filter (fun kc => negb (PyStr.eqb (PyStr.lower (fst kc)) "_notes")) hs.

Definition starts_nonspace (s : str) : bool :=
  match s with
  | c :: _ => negb (PyStr.isspace c)
  | [] => false
  end.

(** A heading map the decoder of a dialect gives back as it is.  The
    names differ even when lower-cased, and none but [_notes] lower-cases
    to [_notes]; [_notes], when stored, comes first and is not empty; the
    other names pass [name_ok]; a content has no line boundary but the
    newline and none of its lines reads as a heading marker. *)
Record headings_canonical (is_heading name_ok : str -> bool)
  (hs : PyDict.dict str) : Prop := {
  hc_distinct : NoDup (map PyStr.lower (PyDict.keys hs));
  hc_notes_name :
    forall k, In k (PyDict.keys hs) -> PyStr.lower k = "_notes" ->
              k = "_notes";
  hc_notes_first : hs = notes_part hs ++ other_headings hs;
  hc_notes_nonempty : PyDict.get hs "_notes" <> Some "";
  hc_names :
    forall k c, In (k, c) (other_headings hs) -> name_ok k = true;
  hc_contents :
    forall k c, In (k, c) hs ->
      plain_text c = true
      /\ forall l, In l (lines_of c) -> is_heading l = false
}.

(** Markdown: a name is trimmed, on one line and free of the heading
    marker; the title is its own whitespace normal form, on one line; with
    no title, the notes start with neither white space nor a title
    line. *)
Definition md_name_ok (k : str) : bool :=
  PyStr.eqb (PyStr.strip k) k && negb (PyStr.contains k "## ")
  && plain_line k.

Definition md_title_ok (t : str) : bool :=
  PyStr.eqb (PyStr.join " " (PyStr.split_ws t)) t && plain_line t.

Definition md_start_ok (z : Zettel) : bool :=
  match title z, PyDict.get (headings z) "_notes" with
  | [], Some n =>
      starts_nonspace n
      && negb (PyStr.startswith (PyStr.strip (hd [] (lines_of n))) "# ")
  | _, _ => true
  end.

Record md_canonical (z : Zettel) : Prop := {
  md_headings : headings_canonical _is_md_heading md_name_ok (headings z);
  md_title : md_title_ok (title z) = true;
  md_start : md_start_ok z = true
}.

(** RST: a name is not empty, on one line and no rule of [=]; the title
    is trimmed and on one line; with no title, the text starts with no
    white space. *)
Definition rst_name_ok (k : str) : bool :=
  negb (PyStr.eqb k "") && plain_line k && negb (_is_rst_heading k).

Definition rst_title_ok (t : str) : bool :=
  PyStr.eqb (PyStr.strip t) t && plain_line t.

Definition rst_start_ok (z : Zettel) : bool :=
  match title z, headings z with
  | [], (k, c) :: _ =>
      if PyStr.eqb k "_notes" then starts_nonspace c else starts_nonspace k
  | _, _ => true
  end.

Record rst_canonical (z : Zettel) : Prop := {
  rst_headings : headings_canonical _is_rst_heading rst_name_ok (headings z);
  rst_title : rst_title_ok (title z) = true;
  rst_start : rst_start_ok z = true
}.

(** The strings the encoders join before the attribute marker when no
    filter is given, for a heading map in canonical form. *)
Definition md_elems (z : Zettel) : list str :=
  match title z with [] => [] | t => ["# " ++ t] end
  ++ map snd (notes_part (headings z))
  ++ concat (map (fun kc => ["## " ++ fst kc; snd kc])
               (other_headings (headings z))).

Definition rst_elems (z : Zettel) : list str :=
  match title z with
  | [] => []
  | t => let rule := PyStr.times "=" (length t + 2) in
         [rule; " " ++ t; rule]
  end
  ++ map snd (notes_part (headings z))
  ++ concat (map (fun kc =>
                    [fst kc; PyStr.times "=" (length (fst kc)); snd kc])
               (other_headings (headings z))).

(** The group of lines a heading with its content becomes *)
Definition md_group (kc : str * str) : str * list str :=
  ("## " ++ fst kc, lines_of (snd kc)).

Definition rst_group (kc : str * str) : str * list str :=
  (fst kc, PyStr.times "=" (length (fst kc)) :: lines_of (snd kc)).

(** What an encoder writes after the attribute marker, given the lines
    [lead] it puts before the attribute lines. *)
Definition attribute_tail (lead a_lines : list str) : str :=
  "\n" ++ PyStr.join "\n" (lead ++ a_lines ++ [""]).

(** The invariant [Attributes.__setitem__] maintains: a date key holds a
    [SuperDate] or a false value; and no key is stored twice. *)
Definition attrs_inv (a : Attributes) : Prop :=
  NoDup (PyDict.keys a) /\
  forall k v, In (k, v) a -> truthy v = true -> is_date_key k = true ->
              exists d, v = VDate d.

(** What [Attributes.toYamlDict] writes for a stored value: the text of a
    [SuperDate] under a date key, any other value as it is. *)
Definition yaml_view {svc : Services} (k : str) (v : PyValue) : PyValue :=
  match v with
  | VDate d => if is_date_key k then VStr (date_text d) else v
  | _ => v
  end.

(** The mapping [Attributes.toYamlDict] hands to [yaml.dump], and the
    lines an encoder writes for it: the dump behind a [---] line, every
    line indented by four spaces. *)
Definition yaml_mapping {svc : Services} (a : Attributes)
  : PyDict.dict PyValue :=
  map (fun kv => (fst kv, yaml_view (fst kv) (snd kv))) a.

Definition attribute_block {svc : Services} (a : Attributes) : list str :=
  map (fun x => "    " ++ x)
      (PyStr.splitlines ("---\n" ++ yaml_dump (VDict (yaml_mapping a)))).

(** What the round trip of the attributes asks of a Zettel and of the
    collaborators.  Of the Zettel: its attribute map has the invariant of
    [Attributes.__setitem__] and holds [creation_date] and [zlinks].  Of
    the structured-data service: the block it dumps does not contain the
    attribute marker, and it loads the indented block as a mapping with
    the entries that were dumped, in any order.  Of the date service: the
    text [strftime] writes for a stored date is not empty and
    [SuperDate] reads it as that date. *)
Definition attributes_readable {svc : Services} (marker : str)
  (lead : list str) (z : Zettel) : Prop :=
  let a := attrs z in
  let block := attribute_tail lead (attribute_block a) in
  attrs_inv a
  /\ PyDict.has a "creation_date" = true
  /\ PyDict.has a "zlinks" = true
  /\ PyStr.contains block marker = false
  /\ (exists d, yaml_safe_load (PyStr.strip block) = Ok (VDict d)
                /\ Permutation d (yaml_mapping a))
  /\ (forall k d, In (k, VDate d) a -> is_date_key k = true ->
                  date_text d <> ""
                  /\ SuperDate (VStr (date_text d)) = Ok d).

(** The text a decoder hands to [yaml.safe_load]: what follows the last
    attribute marker of the stripped text, stripped. *)
Definition attribute_blob (marker text : str) : str :=
  PyStr.strip (snd (split_attributes (PyStr.strip text) marker)).

(** Two Zettels with the same title, the same heading map in the same
    order, and attribute maps that compare equal. *)
Definition same_zettel (z z' : Zettel) : Prop :=
  title z' = title z /\ headings z' = headings z
  /\ PyDict.equiv (attrs z') (attrs z).

(** Packing as the specification words it: encode each document, drop the
    empty encodings, sort the texts, join them with the sentinel between
    a line end and two blank lines. *)
Definition pack (encode : Zettel -> result str) (sentinel : str)
  (zettels : list Zettel) : result str :=
  texts <- mapM encode zettels ;;
  let kept := filter (fun t => negb (PyStr.eqb t "")) texts in
  Ok (PyStr.join ("\n" ++ sentinel ++ "\n\n\n") (PyStr.sorted kept)).

(** The encoder and the sentinel of a dialect *)
Definition encoder {svc : Services} (zettel_format : str)
  (only : option (list str)) (z : Zettel) : result str :=
  if PyStr.eqb zettel_format "rst" then getRst z only else getMd z only.

Definition sentinel (zettel_format : str) : str :=
  if PyStr.eqb zettel_format "rst" then rst_sep else md_sep.

(** [a <= b] on strings, the order [sorted] arranges them in *)
Definition str_le (a b : str) : Prop := PyStr.ltb b a = false.

(** The lines before the first heading line and, for each heading line,
    the lines that follow it up to the next heading line. *)
Fixpoint sections (is_heading : str -> bool) (lines : list str)
  : list str * list (str * list str) :=
  match lines with
  | [] => ([], [])
  | l :: r =>
      let (pre, gs) := sections is_heading r in
      if is_heading l then ([], (l, pre) :: gs) else (l :: pre, gs)
  end.

(** The Markdown body read section by section: the title line, the notes
    before the first heading, and one entry per heading line. *)
Definition md_read (md : list str) : str * PyDict.dict str :=
  let '(title, md) :=
    match md with
    | l0 :: rest =>
        if PyStr.startswith (PyStr.strip l0) "# "
        then (PyStr.join " " (tl (PyStr.split_ws l0)), rest)
        else ("", md)
    | [] => ("", md)
    end in
  let (pre, gs) := sections _is_md_heading md in
  (title,
   PyDict.update
     (match PyStr.join "\n" pre with [] => [] | n => [("_notes", n)] end)
     (map (fun g => (md_heading_name (fst g), PyStr.join "\n" (snd g))) gs)).

(** A word: not empty, no white space in it. *)
Definition is_word (w : str) : bool :=
  match w with
  | [] => false
  | _ => forallb (fun c => negb (PyStr.isspace c)) w
  end.

(** The chunks of a packed text: each text with the line ends the join
    puts around it. *)
Fixpoint pieces_from (prefix : str) (texts : list str) : list str :=
  match texts with
  | [] => []
  | [t] => [prefix ++ t]
  | t :: r => (prefix ++ t ++ "\n") :: pieces_from "\n\n\n" r
  end.

(** A text that starts with no white space and holds the marker. *)
Definition framed (marker t : str) : Prop :=
  exists b tail, t = b ++ marker ++ tail
                 /\ starts_nonspace (b ++ marker) = true.

(** The entries the RST decoder stores for the groups of lines that start
    at a rule: the name of a heading is the line before its rule, [prev];
    its content is the lines after the rule, less the last one when
    another rule follows (that line names the next heading). *)
Fixpoint rst_entries (prev : str) (gs : list (str * list str))
  : list (str * str) :=
  match gs with
  | [] => []
  | g :: gs' =>
      (prev,
       PyStr.join "\n"
         (match gs' with [] => snd g | _ => removelast (snd g) end))
      :: rst_entries (last (snd g) (fst g)) gs'
  end.

(** The RST body read rule by rule: the title between two rules on the
    first three lines, the notes before the name of the first heading,
    and one entry per rule.  A rule on the very first line has no line
    before it: the decoder then takes the last line of the text for its
    name and all lines but the last for the notes. *)
Definition rst_read (rst : list str) : str * PyDict.dict str :=
  let '(title, rst) :=
    match rst with
    | l0 :: l1 :: l2 :: rest =>
        if _is_rst_heading l0 && _is_rst_heading l2
        then (PyStr.strip l1, rest)
        else ("", rst)
    | _ => ("", rst)
    end in
  let (pre, gs) := sections _is_rst_heading rst in
  let notes :=
    PyStr.join "\n"
      (match gs with
       | [] => pre
       | _ => removelast (match pre with [] => rst | _ => pre end)
       end) in
  (title,
   PyDict.update
     (match notes with [] => [] | n => [("_notes", n)] end)
     (rst_entries (last pre (last rst "")) gs)).

(** The reference collaborators on a disk that holds one file. *)
Definition services_with_file (path content : str) : Services :=
  Build_Services
    (fun p => PyStr.eqb p path)
    (fun p => if PyStr.eqb p path then Ok content else Raise OSError)
    Ref.yaml_safe_load Ref.yaml_dump Ref.SuperDate Ref.parse_date
    Ref.strftime.

(** A disk that records what is done to it, and on which nothing
    fails. *)
Inductive disk_event :=
| Opened (path : PyValue)
| Written (path : PyValue) (text : str)
| Closed (path : PyValue)
| Removed (path : PyValue).

Definition log_disk : Disk :=
  @Build_Disk (list disk_event)
    (fun d p => (d ++ [Opened p], None))
    (fun d p text => (d ++ [Written p text], None))
    (fun d p => d ++ [Closed p])
    (fun d p => (d ++ [Removed p], None)).

(* ================================================================== *)
(** * Facts about the Python built-ins *)
(* ================================================================== *)

Section StringFacts.

Lemma eqb_eq (a b : str) : PyStr.eqb a b = true <-> a = b.
Proof.
  revert b; induction a as [|c a IH]; intros [|d b]; simpl;
    try (split; congruence).
  rewrite andb_true_iff, Ascii.eqb_eq, IH. split.
  - intros [-> ->]; reflexivity.
  - intros H; inversion H; auto.
Qed.

Lemma eqb_refl (a : str) : PyStr.eqb a a = true.
Proof. apply eqb_eq; reflexivity. Qed.

Lemma eqb_neq (a b : str) : PyStr.eqb a b = false <-> a <> b.
Proof.
  rewrite <- eqb_eq. destruct (PyStr.eqb a b); split; congruence.
Qed.

Lemma eqb_sym (a b : str) : PyStr.eqb a b = PyStr.eqb b a.
Proof.
  destruct (PyStr.eqb a b) eqn:E.
  - apply eqb_eq in E; subst; symmetry; apply eqb_refl.
  - apply eqb_neq in E. symmetry; apply eqb_neq; congruence.
Qed.

Lemma mem_In (x : str) (l : list str) : PyStr.mem x l = true <-> In x l.
Proof.
  unfold PyStr.mem. rewrite existsb_exists. split.
  - intros [y [Hy E]]. apply eqb_eq in E; subst; assumption.
  - intros H; exists x; split; [assumption | apply eqb_refl].
Qed.

Lemma startswith_iff (s p : str) :
  PyStr.startswith s p = true <-> exists r, s = p ++ r.
Proof.
  revert s; induction p as [|c p IH]; intros s; simpl.
  - split; [intros _; exists s; reflexivity | reflexivity].
  - destruct s as [|d s].
    + split; [discriminate | intros [r H]; discriminate].
    + rewrite andb_true_iff, Ascii.eqb_eq, IH. split.
      * intros [-> [r ->]]; exists r; reflexivity.
      * intros [r H]; inversion H; subst; split; [reflexivity | eauto].
Qed.

Lemma startswith_app (p r : str) : PyStr.startswith (p ++ r) p = true.
Proof. apply startswith_iff; eauto. Qed.

Lemma startswith_nil (p : str) :
  p <> [] -> PyStr.startswith [] p = false.
Proof. destruct p; [congruence | reflexivity]. Qed.

Lemma contains_iff (s sub : str) :
  PyStr.contains s sub = true <-> exists a b, s = a ++ sub ++ b.
Proof.
  induction s as [|c s IH]; simpl.
  - rewrite orb_false_r, startswith_iff. split.
    + intros [r H]; exists [], r; assumption.
    + intros [a [b H]]. destruct a; simpl in H.
      * eauto.
      * discriminate.
  - rewrite orb_true_iff, startswith_iff, IH. split.
    + intros [[r H] | [a [b H]]].
      * exists [], r; assumption.
      * exists (c :: a), b; rewrite H; reflexivity.
    + intros [a [b H]]. destruct a as [|x a]; simpl in H.
      * left; eauto.
      * right; inversion H; eauto.
Qed.

End StringFacts.

Section DictFacts.
Variable V : Type.
Implicit Types d : PyDict.dict V.

Lemma get_In d k v : PyDict.get d k = Some v -> In (k, v) d.
Proof.
  induction d as [|[k' v'] d IH]; simpl; [discriminate|].
  destruct (PyStr.eqb k k') eqn:E.
  - apply eqb_eq in E; subst. intros H; inversion H; auto.
  - auto.
Qed.

Lemma get_None d k : PyDict.get d k = None <-> ~ In k (PyDict.keys d).
Proof.
  induction d as [|[k' v'] d IH]; simpl.
  - tauto.
  - destruct (PyStr.eqb k k') eqn:E.
    + apply eqb_eq in E; subst. split; [discriminate | tauto].
    + apply eqb_neq in E. rewrite IH. split.
      * intros H [H1 | H1]; [congruence | tauto].
      * tauto.
Qed.

Lemma has_In d k : PyDict.has d k = true <-> In k (PyDict.keys d).
Proof.
  unfold PyDict.has. destruct (PyDict.get d k) eqn:E.
  - split; [intros _ | reflexivity].
    apply get_In in E. apply (in_map fst) in E; assumption.
  - split; [discriminate | intros H; apply get_None in E; tauto].
Qed.

Lemma get_set_same d k v : PyDict.get (PyDict.set d k v) k = Some v.
Proof.
  induction d as [|[k' v'] d IH]; simpl.
  - rewrite eqb_refl; reflexivity.
  - destruct (PyStr.eqb k k') eqn:E; simpl.
    + rewrite eqb_refl; reflexivity.
    + rewrite E; assumption.
Qed.

Lemma get_set_other d k k' v :
  k' <> k -> PyDict.get (PyDict.set d k v) k' = PyDict.get d k'.
Proof.
  intros Hne. induction d as [|[k0 v0] d IH]; simpl.
  - apply eqb_neq in Hne; rewrite Hne; reflexivity.
  - destruct (PyStr.eqb k k0) eqn:E; simpl.
    + apply eqb_eq in E; subst k0.
      apply eqb_neq in Hne; rewrite Hne; reflexivity.
    + destruct (PyStr.eqb k' k0); [reflexivity | assumption].
Qed.

Lemma keys_set d k v :
  PyDict.keys (PyDict.set d k v) =
  if PyDict.has d k then PyDict.keys d else PyDict.keys d ++ [k].
Proof.
  unfold PyDict.has.
  induction d as [|[k0 v0] d IH]; simpl; [reflexivity|].
  destruct (PyStr.eqb k k0) eqn:E; simpl.
  - apply eqb_eq in E; subst; reflexivity.
  - rewrite IH. destruct (PyDict.get d k); reflexivity.
Qed.

Lemma set_fresh d k v :
  PyDict.has d k = false -> PyDict.set d k v = d ++ [(k, v)].
Proof.
  unfold PyDict.has.
  induction d as [|[k0 v0] d IH]; simpl; [reflexivity|].
  destruct (PyStr.eqb k k0) eqn:E; [discriminate|].
  intros H; rewrite IH by assumption; reflexivity.
Qed.

Lemma NoDup_keys_set d k v :
  NoDup (PyDict.keys d) -> NoDup (PyDict.keys (PyDict.set d k v)).
Proof.
  intros H. rewrite keys_set. destruct (PyDict.has d k) eqn:E; [assumption|].
  apply NoDup_app; [assumption | repeat constructor; simpl; tauto |].
  intros x Hx [<- | []].
  apply has_In in Hx; congruence.
Qed.

Lemma get_del_same d k :
  NoDup (PyDict.keys d) -> PyDict.get (PyDict.del d k) k = None.
Proof.
  induction d as [|[k0 v0] d IH]; simpl; [reflexivity|].
  intros H; inversion H; subst.
  destruct (PyStr.eqb k k0) eqn:E; simpl.
  - apply eqb_eq in E; subst. apply get_None; assumption.
  - rewrite E; auto.
Qed.

Lemma get_del_other d k k' :
  k' <> k -> PyDict.get (PyDict.del d k) k' = PyDict.get d k'.
Proof.
  intros Hne. induction d as [|[k0 v0] d IH]; simpl; [reflexivity|].
  destruct (PyStr.eqb k k0) eqn:E; simpl.
  - apply eqb_eq in E; subst k0.
    apply eqb_neq in Hne; rewrite Hne; reflexivity.
  - destruct (PyStr.eqb k' k0); [reflexivity | assumption].
Qed.

Lemma NoDup_keys_del d k :
  NoDup (PyDict.keys d) -> NoDup (PyDict.keys (PyDict.del d k)).
Proof.
  induction d as [|[k0 v0] d IH]; simpl; [auto|].
  intros H; inversion H; subst.
  destruct (PyStr.eqb k k0) eqn:E; simpl; [assumption|].
  constructor; [|auto].
  intros Hin. apply H2. apply has_In.
  apply has_In in Hin. unfold PyDict.has in *.
  destruct (PyStr.eqb k0 k) eqn:E'.
  - rewrite eqb_sym in E'; congruence.
  - apply eqb_neq in E'. rewrite get_del_other in Hin; assumption.
Qed.

Lemma get_update d other k :
  PyDict.get (PyDict.update d other) k =
  match PyDict.get (rev other) k with
  | Some v => Some v
  | None => PyDict.get d k
  end.
Proof.
  unfold PyDict.update. revert d.
  induction other as [|[k0 v0] other IH] using rev_ind; intros d; simpl.
  - reflexivity.
  - rewrite fold_left_app, rev_app_distr; simpl.
    destruct (PyStr.eqb k k0) eqn:E.
    + apply eqb_eq in E; subst. apply get_set_same.
    + apply eqb_neq in E. rewrite get_set_other by assumption. apply IH.
Qed.

Lemma get_rev_NoDup d k :
  NoDup (PyDict.keys d) -> PyDict.get (rev d) k = PyDict.get d k.
Proof.
  induction d as [|[k0 v0] d IH]; simpl; [reflexivity|].
  intros H; inversion H; subst.
  assert (G : forall (a b : PyDict.dict V),
             PyDict.get (a ++ b) k =
             match PyDict.get a k with
             | Some v => Some v
             | None => PyDict.get b k
             end).
  { induction a as [|[ka va] a IHa]; intros b; simpl; [reflexivity|].
    destruct (PyStr.eqb k ka); [reflexivity | apply IHa]. }
  rewrite G, IH by assumption. simpl.
  destruct (PyStr.eqb k k0) eqn:E.
  - apply eqb_eq in E; subst.
    apply get_None in H2. rewrite H2; reflexivity.
  - destruct (PyDict.get d k); reflexivity.
Qed.

Lemma update_nil_NoDup d :
  NoDup (PyDict.keys d) -> PyDict.update [] d = d.
Proof.
  intros H. unfold PyDict.update.
  enough (G : forall acc, NoDup (PyDict.keys (acc ++ d)) ->
            fold_left (fun a kv => PyDict.set a (fst kv) (snd kv)) d acc
            = acc ++ d) by (apply (G []); assumption).
  clear H. induction d as [|[k v] d IH]; intros acc H; simpl.
  - rewrite app_nil_r; reflexivity.
  - rewrite set_fresh.
    + rewrite IH; rewrite <- app_assoc; [reflexivity | assumption].
    + destruct (PyDict.has acc k) eqn:E; [|reflexivity].
      apply has_In in E. unfold PyDict.keys in H.
      rewrite map_app in H. simpl in H.
      apply NoDup_remove_2 in H. exfalso; apply H.
      apply in_or_app; left; assumption.
Qed.

End DictFacts.

(* ================================================================== *)
(** * The attribute map *)
(* ================================================================== *)

Lemma is_date_key_iff (k : str) :
  is_date_key k = true <->
  (exists a b, k = a ++ "date" ++ b)
  \/ In k ["event_begin"; "event_end"; "recurring_stop"].
Proof.
  unfold is_date_key. rewrite orb_true_iff, mem_In, contains_iff.
  unfold dtfields. tauto.
Qed.

Lemma setitem_plain {svc : Services} (a : Attributes) k v :
  truthy v && is_date_key k = false ->
  Attributes_setitem a k v = Ok (PyDict.set a k v).
Proof. unfold Attributes_setitem. intros ->. reflexivity. Qed.

Lemma setitem_date {svc : Services} (a : Attributes) k v :
  truthy v = true -> is_date_key k = true ->
  Attributes_setitem a k v =
  (d <- SuperDate v ;; Ok (PyDict.set a k (VDate d))).
Proof.
  unfold Attributes_setitem. intros -> ->. simpl.
  destruct (SuperDate v); reflexivity.
Qed.

(** C3.  A lookup of a key that the attribute map does not store raises
    nothing and returns the [NoCompare] object, and each of the six
    comparisons of that object with any value is false. *)
Theorem C3_missing_key_is_absent :
  forall (a : Attributes) (k : str),
    PyDict.has a k = false ->
    Attributes_getitem a k = VNoCompare
    /\ forall (op : cmp_op) (x : PyValue),
         compare op (Attributes_getitem a k) x = Some false.
Proof.
  intros a k H. unfold PyDict.has in H. unfold Attributes_getitem.
  destruct (PyDict.get a k); [discriminate|].
  split; [reflexivity|]. intros [] x; reflexivity.
Qed.

Lemma C3_missing_key_is_absent_witness :
  PyDict.has [("greeting", VStr "hello")] "x" = false
  /\ Attributes_getitem [("greeting", VStr "hello")] "x" = VNoCompare
  /\ compare OpLt (Attributes_getitem [("greeting", VStr "hello")] "x")
       (VInt 0) = Some false.
Proof.
  split; [reflexivity|].
  destruct (@C3_missing_key_is_absent [("greeting", VStr "hello")] "x"
              eq_refl) as [H1 H2].
  split; [exact H1 | exact (H2 OpLt (VInt 0))].
Defined.

(** C4, as the code has it.  On a key that contains [date] or is one of
    [event_begin], [event_end], [recurring_stop], assigning a non-empty
    string stores the [SuperDate] the date service makes of it, and fails
    with the service's error when the service rejects it; on any other
    key the assigned value is stored as it is. *)
Theorem C4_date_coercion :
  forall (svc : Services) (a : Attributes) (k : str),
    (is_date_key k = true <->
       (exists p q, k = p ++ "date" ++ q)
       \/ In k ["event_begin"; "event_end"; "recurring_stop"])
    /\ (is_date_key k = true ->
        forall s, s <> [] ->
          match SuperDate (VStr s) with
          | Ok d =>
              Attributes_setitem a k (VStr s) = Ok (PyDict.set a k (VDate d))
          | Raise e => Attributes_setitem a k (VStr s) = Raise e
          end)
    /\ (is_date_key k = false ->
        forall v, Attributes_setitem a k v = Ok (PyDict.set a k v)).
Proof.
  intros svc a k. split; [apply is_date_key_iff|]. split.
  - intros Hk s Hs. rewrite setitem_date;
      [|destruct s; [congruence | reflexivity]|assumption].
    destruct (SuperDate (VStr s)); reflexivity.
  - intros Hk v. apply setitem_plain. rewrite Hk. apply andb_false_r.
Qed.

Lemma C4_date_coercion_witness :
  @Attributes_setitem Ref.services [] "due_date" (VStr "today")
    = Ok [("due_date", VDate (Date 2026 11 4))]
  /\ @Attributes_setitem Ref.services [] "due_date" (VStr "no such day")
    = Raise ValueError
  /\ @Attributes_setitem Ref.services [] "greeting" (VStr "today")
    = Ok [("greeting", VStr "today")].
Proof.
  destruct (@C4_date_coercion Ref.services [] "due_date") as [_ [H1 _]].
  destruct (@C4_date_coercion Ref.services [] "greeting") as [_ [_ H2]].
  split; [|split].
  - exact (H1 eq_refl "today" ltac:(discriminate)).
  - exact (H1 eq_refl "no such day" ltac:(discriminate)).
  - exact (H2 eq_refl (VStr "today")).
Defined.

(** C4 as the specification states it fails: whatever the date service
    makes of the empty string, assigning it to the key [date] neither
    stores a [SuperDate] nor fails; the empty string itself is stored. *)
Lemma C4_counterexample :
  ~ (forall (svc : Services) (a : Attributes) (k s : str),
       is_date_key k = true ->
       match SuperDate (VStr s) with
       | Ok d =>
           Attributes_setitem a k (VStr s) = Ok (PyDict.set a k (VDate d))
       | Raise e => Attributes_setitem a k (VStr s) = Raise e
       end).
Proof.
  intros H. specialize (H Ref.services [] "date" "" eq_refl).
  vm_compute in H. discriminate H.
Qed.

(** C9.  A false value (the empty string, [None], [0], an empty mapping,
    or any other) assigned to a date key is stored as it is, whatever the
    date service would answer: the service is not consulted and nothing
    is raised. *)
Theorem C9_falsy_value_skips_coercion :
  forall (svc : Services) (a : Attributes) (k : str) (v : PyValue),
    is_date_key k = true ->
    In v [VStr ""; VNone; VInt 0; VDict []] \/ truthy v = false ->
    Attributes_setitem a k v = Ok (PyDict.set a k v).
Proof.
  intros svc a k v _ H. apply setitem_plain.
  assert (F : truthy v = false).
  { destruct H as [H | H]; [|assumption].
    simpl in H. decompose [or] H; subst; try reflexivity; contradiction. }
  rewrite F; reflexivity.
Qed.

Lemma C9_falsy_value_skips_coercion_witness :
  is_date_key "creation_date" = true
  /\ truthy (VStr "") = false
  /\ @Attributes_setitem Ref.services [] "creation_date" (VStr "")
     = Ok [("creation_date", VStr "")].
Proof.
  split; [reflexivity|]. split; [reflexivity|].
  exact (@C9_falsy_value_skips_coercion Ref.services [] "creation_date"
           (VStr "") eq_refl (or_intror eq_refl)).
Defined.

(* ================================================================== *)
(** * Empty input *)
(* ================================================================== *)

Lemma lstrip_all_space (s : str) :
  forallb PyStr.isspace s = true -> PyStr.lstrip s = [].
Proof.
  induction s as [|c s IH]; simpl; [reflexivity|].
  destruct (PyStr.isspace c); simpl; [assumption | discriminate].
Qed.

Lemma strip_all_space (s : str) :
  forallb PyStr.isspace s = true -> PyStr.strip s = [].
Proof.
  intros H. unfold PyStr.strip. rewrite lstrip_all_space by assumption.
  reflexivity.
Qed.

Lemma input_text_empty {svc : Services} :
  os_path_exists "" = false -> input_text "" = Ok "".
Proof. unfold input_text. intros ->. reflexivity. Qed.

Lemma Zettel_init_empty {svc : Services} (d d' : DateVal) :
  parse_date "today" = Ok d -> SuperDate (VDate d) = Ok d' ->
  Zettel_init "" [] (VDict []) =
  Ok {| title := ""; headings := [];
        attrs := [("creation_date", VDate d'); ("zlinks", VDict [])] |}.
Proof.
  intros Ht Hd. unfold Zettel_init, init_attrs. simpl.
  rewrite Ht. simpl.
  unfold Attributes_setitem at 1. simpl. rewrite Hd. simpl.
  reflexivity.
Qed.

(** C6.  Unpacking the empty string gives no document, in either dialect;
    decoding a text that is empty or all whitespace gives the Zettel with
    an empty title, no heading, and the two default attributes only.  The
    text is the argument of the decoder, or the content of the file the
    argument names; the empty string names no file. *)
Theorem C6_empty_input :
  forall (svc : Services) (d d' : DateVal),
    os_path_exists "" = false ->
    parse_date "today" = Ok d -> SuperDate (VDate d) = Ok d' ->
    let blank :=
      {| title := ""; headings := [];
         attrs := [("creation_date", VDate d'); ("zlinks", VDict [])] |} in
    str_to_zettels "" "md" = Ok []
    /\ str_to_zettels "" "rst" = Ok []
    /\ createFromMd "" = Ok blank
    /\ createFromRst "" = Ok blank
    /\ forall arg text,
         input_text arg = Ok text ->
         forallb PyStr.isspace text = true ->
         createFromMd arg = Ok blank /\ createFromRst arg = Ok blank.
Proof.
  intros svc d d' He Ht Hd blank.
  assert (G : forall arg text,
             input_text arg = Ok text ->
             forallb PyStr.isspace text = true ->
             createFromMd arg = Ok blank /\ createFromRst arg = Ok blank).
  { intros arg text Hin Hsp.
    unfold createFromMd, createFromRst. rewrite Hin. simpl.
    rewrite (strip_all_space _ Hsp).
    split; apply (Zettel_init_empty Ht Hd). }
  pose proof (input_text_empty He) as H0.
  repeat split.
  - unfold str_to_zettels, get_zettels_from_md. simpl. rewrite H0.
    reflexivity.
  - unfold str_to_zettels, get_zettels_from_rst. simpl. rewrite H0.
    reflexivity.
  - apply (G "" "" H0 eq_refl).
  - apply (G "" "" H0 eq_refl).
  - apply (G arg text H H1).
  - apply (G arg text H H1).
Qed.

Lemma C6_empty_input_witness :
  @createFromMd Ref.services " \n\t "
  = Ok {| title := ""; headings := [];
          attrs := [("creation_date", VDate (Date 2026 11 4));
                    ("zlinks", VDict [])] |}
  /\ @str_to_zettels Ref.services "" "md" = Ok [].
Proof.
  pose proof (@C6_empty_input Ref.services (Date 2026 11 4) (Date 2026 11 4)
                eq_refl eq_refl eq_refl) as H.
  simpl in H. destruct H as [H1 [_ [_ [_ H5]]]].
  split; [|exact H1].
  exact (proj1 (H5 " \n\t " " \n\t " eq_refl eq_refl)).
Defined.

(* ================================================================== *)
(** * The [_notes] lookup of the encoders *)
(* ================================================================== *)

Lemma lookup_headings_key (z : Zettel) (h k : str) :
  PyDict.get (lookup_headings z) h = Some k ->
  In k (PyDict.keys (headings z)).
Proof.
  unfold lookup_headings, PyDict.of_items. rewrite get_update. simpl.
  destruct (PyDict.get (rev _) h) eqn:E; [|discriminate].
  intros H; inversion H; subst.
  apply get_In in E. apply in_rev in E. apply in_map_iff in E.
  destruct E as [k' [E Hin]]. inversion E; subst. assumption.
Qed.

Lemma display_headings_Ok (z : Zettel) (emit : str -> list str)
  (names s : list str) :
  exists s', display_headings z emit names s = Ok s'.
Proof.
  unfold display_headings. revert s.
  induction names as [|h names IH]; intros s; simpl; [eauto|].
  destruct (PyStr.eqb h "_notes" || negb (PyDict.has (lookup_headings z) h))
    eqn:E; simpl; [apply IH|].
  apply orb_false_iff in E. destruct E as [_ E].
  apply negb_false_iff in E. unfold PyDict.has in E.
  unfold dict_getitem at 1.
  destruct (PyDict.get (lookup_headings z) h) as [k|] eqn:G; [|discriminate].
  simpl. apply lookup_headings_key in G. apply has_In in G.
  unfold PyDict.has in G. unfold dict_getitem.
  destruct (PyDict.get (headings z) k); [|discriminate].
  simpl. apply IH.
Qed.

(** C10.  Encoding without a filter can raise the [KeyError] of the
    [_notes] lookup on a Zettel that stores no [_notes].  The Markdown
    decoder makes of the two lines below a Zettel that stores the
    heading [_Notes] and no heading [_notes]; the names to display,
    lower-cased, contain [_notes]; the case-insensitive lookup of the
    loop over the names finds [_Notes] under [_notes]; and both
    encoders, called without a filter, raise [KeyError] at
    [self.headings['_notes']]. *)
Theorem C10_unfiltered_notes_variant :
  let z := {| title := ""; headings := [("_Notes", "x")];
              attrs := [("creation_date", VDate (Date 2026 11 4));
                        ("zlinks", VDict [])] |} in
  @createFromMd Ref.services "## _Notes\nx" = Ok z
  /\ PyDict.has (headings z) "_notes" = false
  /\ display_names z None = ["_notes"]
  /\ PyDict.get (lookup_headings z) "_notes" = Some "_Notes"
  /\ @getMd Ref.services z None = Raise KeyError
  /\ @getRst Ref.services z None = Raise KeyError.
Proof. vm_compute. repeat split. Qed.

(* ================================================================== *)
(** * Sorting the rendered texts *)
(* ================================================================== *)

Section SortFacts.

Lemma nat_of_ascii_inj (c d : ascii) :
  nat_of_ascii c = nat_of_ascii d -> c = d.
Proof.
  intros H. rewrite <- (ascii_nat_embedding c), <- (ascii_nat_embedding d).
  rewrite H; reflexivity.
Qed.

Lemma ltb_irrefl (a : str) : PyStr.ltb a a = false.
Proof.
  induction a as [|c a IH]; simpl; [reflexivity|].
  rewrite Nat.ltb_irrefl, Nat.eqb_refl, IH. reflexivity.
Qed.

Lemma ltb_trichotomy (a b : str) :
  PyStr.ltb a b = true \/ a = b \/ PyStr.ltb b a = true.
Proof.
  revert b; induction a as [|c a IH]; intros [|d b]; simpl; auto.
  destruct (Nat.lt_trichotomy (nat_of_ascii c) (nat_of_ascii d))
    as [H | [H | H]].
  - left. apply Nat.ltb_lt in H. rewrite H. reflexivity.
  - rewrite H, Nat.ltb_irrefl, Nat.eqb_refl. simpl.
    apply nat_of_ascii_inj in H; subst d.
    destruct (IH b) as [G | [G | G]]; [auto | subst; auto | auto].
  - right; right. apply Nat.ltb_lt in H. rewrite H. reflexivity.
Qed.

Lemma ltb_trans (a b c : str) :
  PyStr.ltb a b = true -> PyStr.ltb b c = true -> PyStr.ltb a c = true.
Proof.
  revert b c; induction a as [|x a IH]; intros [|y b] [|z c]; simpl;
    try congruence.
  rewrite !orb_true_iff, !andb_true_iff, !Nat.ltb_lt, !Nat.eqb_eq.
  intros [H1 | [H1 G1]] [H2 | [H2 G2]].
  - left; lia.
  - left; lia.
  - left; lia.
  - right; split; [lia | eauto].
Qed.

Lemma ltb_asym (a b : str) :
  PyStr.ltb a b = true -> PyStr.ltb b a = false.
Proof.
  intros H. destruct (PyStr.ltb b a) eqn:E; [|reflexivity].
  pose proof (ltb_trans _ _ _ H E) as F. rewrite ltb_irrefl in F.
  discriminate.
Qed.

Lemma str_le_antisym (a b : str) : str_le a b -> str_le b a -> a = b.
Proof.
  unfold str_le. intros H1 H2.
  destruct (ltb_trichotomy a b) as [G | [G | G]]; congruence.
Qed.

Lemma str_le_trans (a b c : str) : str_le a b -> str_le b c -> str_le a c.
Proof.
  unfold str_le. intros H1 H2.
  destruct (PyStr.ltb c a) eqn:E; [|reflexivity].
  destruct (ltb_trichotomy b a) as [G | [G | G]].
  - congruence.
  - subst; congruence.
  - rewrite (ltb_trans _ _ _ E G) in H2. discriminate.
Qed.

Lemma insert_sorted_perm (x : str) (l : list str) :
  Permutation (x :: l) (PyStr.insert_sorted x l).
Proof.
  induction l as [|y l IH]; simpl; [reflexivity|].
  destruct (PyStr.ltb y x); [|reflexivity].
  rewrite perm_swap. apply perm_skip. assumption.
Qed.

Lemma sorted_perm (l : list str) : Permutation l (PyStr.sorted l).
Proof.
  induction l as [|x l IH]; simpl; [constructor|].
  rewrite <- insert_sorted_perm. apply perm_skip. assumption.
Qed.

Lemma insert_sorted_sorted (x : str) (l : list str) :
  StronglySorted str_le l -> StronglySorted str_le (PyStr.insert_sorted x l).
Proof.
  induction 1 as [|y l Hs IH Hall]; simpl.
  - repeat constructor.
  - destruct (PyStr.ltb y x) eqn:E.
    + constructor; [assumption|].
      apply Forall_forall. intros w Hw.
      apply (Permutation_in _ (Permutation_sym (insert_sorted_perm x l)))
        in Hw.
      destruct Hw as [<- | Hw].
      * apply ltb_asym; assumption.
      * rewrite Forall_forall in Hall; auto.
    + constructor; [constructor; assumption|].
      constructor; [exact E|].
      apply Forall_forall. intros w Hw. rewrite Forall_forall in Hall.
      apply (@str_le_trans x y w); [exact E | auto].
Qed.

Lemma sorted_sorted (l : list str) : StronglySorted str_le (PyStr.sorted l).
Proof.
  induction l as [|x l IH]; simpl; [constructor|].
  apply insert_sorted_sorted; assumption.
Qed.

Lemma sorted_unique (l1 l2 : list str) :
  StronglySorted str_le l1 -> StronglySorted str_le l2 ->
  Permutation l1 l2 -> l1 = l2.
Proof.
  intros H1; revert l2.
  induction H1 as [|a l1 Hs1 IH Ha]; intros l2 H2 P.
  - apply Permutation_nil in P; subst; reflexivity.
  - destruct H2 as [|b l2 Hs2 Hb].
    + apply Permutation_sym, Permutation_nil in P; discriminate.
    + rewrite Forall_forall in Ha, Hb.
      assert (E : a = b).
      { apply str_le_antisym.
        - destruct (Permutation_in _ (Permutation_sym P)
                      (or_introl eq_refl)) as [<- | Hin].
          + apply ltb_irrefl.
          + auto.
        - destruct (Permutation_in _ P (or_introl eq_refl)) as [<- | Hin].
          + apply ltb_irrefl.
          + auto. }
      subst b. f_equal. apply IH; [assumption|].
      apply Permutation_cons_inv in P; assumption.
Qed.

Lemma sorted_Permutation (l l' : list str) :
  Permutation l l' -> PyStr.sorted l = PyStr.sorted l'.
Proof.
  intros P. apply sorted_unique; try apply sorted_sorted.
  rewrite <- (sorted_perm l), <- (sorted_perm l'). assumption.
Qed.

Lemma filter_Permutation {A} (f : A -> bool) (l l' : list A) :
  Permutation l l' -> Permutation (filter f l) (filter f l').
Proof.
  induction 1; simpl.
  - constructor.
  - destruct (f x); [apply perm_skip|]; assumption.
  - destruct (f x), (f y); try reflexivity. apply perm_swap.
  - etransitivity; eassumption.
Qed.

Lemma mapM_Permutation {A B} (f : A -> result B) (l l' : list A) :
  Permutation l l' ->
  forall ys, mapM f l = Ok ys ->
  exists ys', mapM f l' = Ok ys' /\ Permutation ys ys'.
Proof.
  induction 1 as [|x l l' P IH|x y l|l l' l'' P1 IH1 P2 IH2];
    intros ys H; simpl in *.
  - inversion H; subst. exists []; split; [reflexivity | constructor].
  - destruct (f x) as [b|]; simpl in *; [|discriminate].
    destruct (mapM f l) as [bs|]; simpl in *; [|discriminate].
    inversion H; subst.
    destruct (IH bs eq_refl) as [bs' [-> P']]. simpl.
    exists (b :: bs'); split; [reflexivity | apply perm_skip; assumption].
  - destruct (f y) as [b|]; simpl in *; [|discriminate].
    destruct (f x) as [a|]; simpl in *; [|discriminate].
    destruct (mapM f l) as [bs|]; simpl in *; [|discriminate].
    inversion H; subst.
    exists (a :: b :: bs); split; [reflexivity | apply perm_swap].
  - destruct (IH1 ys H) as [ys' [H' P']].
    destruct (IH2 ys' H') as [ys'' [H'' P'']].
    exists ys''; split; [assumption | etransitivity; eassumption].
Qed.

End SortFacts.

(** C5.  For either dialect, [zettels_to_str] encodes each Zettel on its
    own, drops the empty texts, sorts the others and joins them with the
    sentinel of the dialect between a line end and two blank lines; the
    sorted list is ordered by [<=] and holds the same texts; so whenever
    packing a list gives a text, packing a permutation of the list gives
    the same text, as for [[B; A]] and [[A; B]]. *)
Theorem C5_pack_sorted_order_free :
  forall (svc : Services) (zettel_format : str) (only : option (list str))
         (zettels : list Zettel),
    In zettel_format ["rst"; "md"] ->
    zettels_to_str zettels zettel_format only
      = pack (encoder zettel_format only) (sentinel zettel_format) zettels
    /\ (forall texts : list str,
          StronglySorted str_le (PyStr.sorted texts)
          /\ Permutation texts (PyStr.sorted texts))
    /\ (forall zettels' out,
          Permutation zettels zettels' ->
          zettels_to_str zettels zettel_format only = Ok out ->
          zettels_to_str zettels' zettel_format only = Ok out)
    /\ (forall A B out,
          zettels_to_str [B; A] zettel_format only = Ok out ->
          zettels_to_str [A; B] zettel_format only = Ok out).
Proof.
  intros svc fmt only zs Hf.
  assert (E : forall l, zettels_to_str l fmt only
                        = pack (encoder fmt only) (sentinel fmt) l).
  { intros l. unfold zettels_to_str, pack, encoder, sentinel.
    assert (F : forall ts : list str,
               filter (fun x : str => match x with [] => false | _ => true end)
                 ts
               = filter (fun t => negb (PyStr.eqb t "")) ts).
    { intros ts. apply filter_ext. intros [|c t]; reflexivity. }
    destruct Hf as [<- | [<- | []]]; simpl;
      (destruct (mapM _ l); simpl; [rewrite F|]; reflexivity). }
  assert (P : forall l l' out,
             Permutation l l' ->
             zettels_to_str l fmt only = Ok out ->
             zettels_to_str l' fmt only = Ok out).
  { intros l l' out Hp. rewrite !E. unfold pack.
    destruct (mapM (encoder fmt only) l) as [ts|] eqn:M; simpl;
      [|discriminate].
    destruct (mapM_Permutation _ Hp M) as [ts' [-> Hp']]. simpl.
    intros H; inversion H; subst. do 2 f_equal.
    apply sorted_Permutation, filter_Permutation, Permutation_sym.
    assumption. }
  split; [apply E|]. split.
  - intros texts. split; [apply sorted_sorted | apply sorted_perm].
  - split.
    + intros zs' out. apply P.
    + intros A B out. apply P. apply perm_swap.
Qed.

Lemma C5_pack_sorted_order_free_witness :
  let A := {| title := "a"; headings := []; attrs := [] |} in
  let B := {| title := "b"; headings := []; attrs := [] |} in
  let out :=
    "# a\n<!--- attributes --->\n    ---\n    {}\n\n<!--- end-zettel --->\n\n\n# b\n<!--- attributes --->\n    ---\n    {}\n" in
  @zettels_to_str Ref.services [B; A] "md" None = Ok out
  /\ @zettels_to_str Ref.services [A; B] "md" None = Ok out.
Proof.
  intros A B out.
  assert (H : @zettels_to_str Ref.services [B; A] "md" None = Ok out)
    by reflexivity.
  split; [exact H|].
  destruct (@C5_pack_sorted_order_free Ref.services "md" None [B; A]
              (or_intror (or_introl eq_refl))) as [_ [_ [_ H4]]].
  exact (H4 A B out H).
Defined.

(* ================================================================== *)
(** * Updating a Zettel *)
(* ================================================================== *)

Section UpdateFacts.
Context {svc : Services}.
Hypothesis SuperDate_date : forall d, SuperDate (VDate d) = Ok d.

Lemma setitem_inv (a : Attributes) (k : str) (v : PyValue) :
  (truthy v = true -> is_date_key k = true -> exists d, v = VDate d) ->
  Attributes_setitem a k v = Ok (PyDict.set a k v).
Proof.
  intros H. unfold Attributes_setitem.
  destruct (truthy v && is_date_key k) eqn:E; [|reflexivity].
  apply andb_true_iff in E. destruct E as [E1 E2].
  destruct (H E1 E2) as [d ->]. rewrite SuperDate_date. reflexivity.
Qed.

Lemma update_inv (items acc : Attributes) :
  (forall k v, In (k, v) items -> truthy v = true -> is_date_key k = true ->
               exists d, v = VDate d) ->
  foldM (fun a kv => Attributes_setitem a (fst kv) (snd kv)) items acc
  = Ok (PyDict.update acc items).
Proof.
  revert acc. induction items as [|[k v] items IH]; intros acc H; simpl.
  - reflexivity.
  - rewrite setitem_inv by (apply H; left; reflexivity). simpl.
    apply IH. intros k' v' Hin. apply H. right; assumption.
Qed.

Lemma Attributes_update_inv (a : Attributes) :
  attrs_inv a -> Attributes_update [] (VDict a) = Ok a.
Proof.
  intros [Hn Hd]. unfold Attributes_update. simpl.
  unfold PyDict.of_items. rewrite (@update_nil_NoDup _ a Hn). simpl.
  rewrite update_inv by assumption.
  rewrite (@update_nil_NoDup _ a Hn). reflexivity.
Qed.

End UpdateFacts.

Section KeptHeadings.
Variable new_headings : PyDict.dict str.

(** One step of the loop of [Zettel.update] over [exp_headings] *)
Let step (hs : PyDict.dict str) (heading : str) : PyDict.dict str :=
  if negb (PyDict.has new_headings heading) && PyDict.has hs heading
  then PyDict.del hs heading else hs.

Lemma kept_NoDup (names : list str) (hs : PyDict.dict str) :
  NoDup (PyDict.keys hs) -> NoDup (PyDict.keys (fold_left step names hs)).
Proof.
  revert hs. induction names as [|n names IH]; intros hs H; simpl.
  - assumption.
  - apply IH. unfold step.
    destruct (negb (PyDict.has new_headings n) && PyDict.has hs n);
      [apply NoDup_keys_del|]; assumption.
Qed.

Lemma kept_get (names : list str) (hs : PyDict.dict str) (h : str) :
  NoDup (PyDict.keys hs) ->
  PyDict.get (fold_left step names hs) h =
  if PyStr.mem h names && negb (PyDict.has new_headings h)
  then None else PyDict.get hs h.
Proof.
  revert hs. induction names as [|n names IH]; intros hs H.
  - reflexivity.
  - assert (Hs : NoDup (PyDict.keys (step hs n))).
    { unfold step.
      destruct (negb (PyDict.has new_headings n) && PyDict.has hs n);
        [apply NoDup_keys_del|]; assumption. }
    change (fold_left step (n :: names) hs)
      with (fold_left step names (step hs n)).
    change (PyStr.mem h (n :: names))
      with (PyStr.eqb h n || PyStr.mem h names).
    rewrite (IH _ Hs).
    destruct (PyStr.mem h names && negb (PyDict.has new_headings h)) eqn:E.
    + apply andb_true_iff in E. destruct E as [-> ->].
      rewrite orb_true_r. reflexivity.
    + destruct (PyStr.eqb h n) eqn:Ehn; simpl.
      * apply eqb_eq in Ehn; subst n. unfold step.
        destruct (PyDict.has new_headings h) eqn:Hnew; simpl.
        -- reflexivity.
        -- unfold PyDict.has at 1.
           destruct (PyDict.get hs h) eqn:G; [|assumption].
           apply get_del_same; assumption.
      * rewrite E. unfold step.
        destruct (negb (PyDict.has new_headings n) && PyDict.has hs n);
          [|reflexivity].
        apply get_del_other. apply eqb_neq; assumption.
Qed.

End KeptHeadings.

Lemma has_get {V} (d : PyDict.dict V) (k : str) :
  PyDict.has d k = false <-> PyDict.get d k = None.
Proof.
  unfold PyDict.has. destruct (PyDict.get d k); split; congruence.
Qed.


Ltac attrs_inv_by_cases :=
  split;
  [ repeat constructor; simpl; intuition discriminate
  | intros k v Hin Ht Hk; simpl in Hin;
    repeat (destruct Hin as [Hin | Hin];
            [inversion Hin; subst; try discriminate; eauto|]);
    contradiction ].



(* ================================================================== *)
(** * Splitting at a separator *)
(* ================================================================== *)

Section SplitFacts.
Variable sep : str.
Hypothesis sep_nonempty : sep <> [].

Lemma split_from_skip (s : str) (k : nat) :
  k <= length s ->
  PyStr.split_from sep s k = PyStr.split_from sep (skipn k s) 0.
Proof.
  revert k. induction s as [|c s IH]; intros k Hk.
  - destruct k; [reflexivity | simpl in Hk; lia].
  - destruct k as [|k]; [reflexivity|].
    simpl. apply IH. simpl in Hk; lia.
Qed.

Lemma split_from_nonempty (s : str) (k : nat) :
  PyStr.split_from sep s k <> [].
Proof.
  revert k. induction s as [|c s IH]; intros k; simpl; [discriminate|].
  destruct k; [|apply IH].
  destruct (PyStr.startswith (c :: s) sep); [discriminate|].
  destruct (PyStr.split_from sep s 0); discriminate.
Qed.

Lemma split_match (s : str) :
  PyStr.startswith s sep = true ->
  PyStr.split s sep = [] :: PyStr.split (skipn (length sep) s) sep.
Proof.
  intros H. pose proof H as H'. apply startswith_iff in H'.
  destruct H' as [r Hr]. unfold PyStr.split.
  destruct s as [|c s].
  - destruct sep; [congruence | discriminate].
  - cbn [PyStr.split_from]. rewrite H. f_equal.
    assert (L : length sep <= S (length s)).
    { apply (f_equal (@length ascii)) in Hr. rewrite length_app in Hr.
      simpl in Hr. lia. }
    rewrite split_from_skip by lia.
    destruct sep as [|x sep']; [congruence|].
    simpl. rewrite Nat.sub_0_r. reflexivity.
Qed.

Lemma split_nomatch (c : ascii) (r : str) :
  PyStr.startswith (c :: r) sep = false ->
  exists p ps,
    PyStr.split r sep = p :: ps /\ PyStr.split (c :: r) sep = (c :: p) :: ps.
Proof.
  intros H. unfold PyStr.split. cbn [PyStr.split_from]. rewrite H.
  destruct (PyStr.split_from sep r 0) as [|p ps] eqn:E.
  - exfalso. exact (split_from_nonempty _ _ E).
  - exists p, ps. auto.
Qed.

Lemma contains_nil : PyStr.contains [] sep = false.
Proof.
  simpl. rewrite orb_false_r. destruct sep; [congruence | reflexivity].
Qed.

Lemma rsplit_last_None (s : str) :
  rsplit_last s sep = None <-> PyStr.contains s sep = false.
Proof.
  induction s as [|c s IH].
  - split; [intros _; apply contains_nil | reflexivity].
  - cbn [rsplit_last PyStr.contains].
    destruct (rsplit_last s sep) as [[b a]|].
    + split; [discriminate|]. intros H.
      apply orb_false_iff in H. destruct H as [_ H].
      apply IH in H. discriminate.
    + rewrite (proj1 IH eq_refl), orb_false_r.
      destruct (PyStr.startswith (c :: s) sep); split; congruence.
Qed.

Lemma split_absent (s : str) :
  PyStr.contains s sep = false -> PyStr.split s sep = [s].
Proof.
  induction s as [|c s IH]; intros H.
  - reflexivity.
  - cbn [PyStr.contains] in H. apply orb_false_iff in H.
    destruct H as [H1 H2].
    destruct (@split_nomatch c s H1) as [p [ps [E ->]]].
    rewrite (IH H2) in E. inversion E; subst. reflexivity.
Qed.

Lemma rsplit_last_app (p s b a : str) :
  rsplit_last s sep = Some (b, a) ->
  rsplit_last (p ++ s) sep = Some (p ++ b, a).
Proof.
  intros H. induction p as [|c p IH]; [assumption|].
  simpl. rewrite IH. reflexivity.
Qed.

(** [rsplit_last] finds an occurrence, and no occurrence starts later. *)
Lemma rsplit_last_rightmost (s b a : str) :
  rsplit_last s sep = Some (b, a) ->
  s = b ++ sep ++ a
  /\ forall b' a', s = b' ++ sep ++ a' -> length b' <= length b.
Proof.
  revert b a. induction s as [|c s IH]; intros b a; [discriminate|].
  cbn [rsplit_last].
  destruct (rsplit_last s sep) as [[b0 a0]|] eqn:E.
  - intros H; inversion H; subst. destruct (IH _ _ eq_refl) as [-> Hmax].
    split; [reflexivity|]. intros b' a' Hs.
    destruct b' as [|x b']; [simpl; lia|].
    simpl in Hs. inversion Hs; subst. simpl.
    apply le_n_S. eapply Hmax; eassumption.
  - destruct (PyStr.startswith (c :: s) sep) eqn:F; [|discriminate].
    intros H; inversion H; subst. apply startswith_iff in F.
    destruct F as [r Hr]. split.
    + rewrite Hr. rewrite skipn_app, skipn_all, Nat.sub_diag. reflexivity.
    + intros b' a' Hs. destruct b' as [|x b']; [simpl; lia|].
      simpl in Hs. inversion Hs; subst.
      apply rsplit_last_None in E.
      assert (G : PyStr.contains (b' ++ sep ++ a') sep = true)
        by (apply contains_iff; eauto).
      congruence.
Qed.

Lemma prefix_of_shorter (q rest r : str) :
  q ++ rest = sep ++ r -> length q <= length sep -> exists t, sep = q ++ t.
Proof.
  clear sep_nonempty. revert sep.
  induction q as [|c q IH]; intros sep' H L.
  - exists sep'; reflexivity.
  - destruct sep' as [|d sep']; [simpl in L; lia|].
    simpl in H. inversion H; subst.
    destruct (IH sep' H2) as [t ->]; [simpl in L; lia|].
    exists t; reflexivity.
Qed.

Hypothesis sep_border_free : border_free sep = true.

Lemma suffix_no_match (p q rest : str) :
  sep = p ++ q -> p <> [] -> q <> [] ->
  PyStr.startswith (q ++ rest) sep = false.
Proof.
  intros Hs Hp Hq.
  destruct (PyStr.startswith (q ++ rest) sep) eqn:E; [|reflexivity].
  apply startswith_iff in E. destruct E as [r Hr].
  assert (L : length sep = length p + length q)
    by (rewrite Hs, length_app; reflexivity).
  destruct (@prefix_of_shorter _ _ _ Hr) as [t Ht]; [lia|].
  unfold border_free in sep_border_free.
  rewrite forallb_forall in sep_border_free.
  assert (K : In (length p) (seq 1 (length sep - 1))).
  { apply in_seq. destruct p; [congruence|]. destruct q; [congruence|].
    simpl in *. lia. }
  apply sep_border_free in K.
  assert (S : skipn (length p) sep = q).
  { rewrite Hs at 1. rewrite skipn_app, skipn_all, Nat.sub_diag.
    reflexivity. }
  rewrite S in K. apply negb_true_iff in K.
  rewrite Ht in K at 1. rewrite startswith_app in K. discriminate.
Qed.

Lemma rsplit_last_suffix (p q s : str) :
  sep = p ++ q -> p <> [] ->
  PyStr.contains s sep = false ->
  rsplit_last (q ++ s) sep = None.
Proof.
  intros Hs Hp Hc. revert p Hs Hp.
  induction q as [|c q IH]; intros p Hs Hp.
  - apply rsplit_last_None; assumption.
  - change ((c :: q) ++ s) with (c :: (q ++ s)).
    cbn [rsplit_last].
    rewrite (IH (p ++ [c])).
    + change (c :: q ++ s) with ((c :: q) ++ s).
      rewrite (@suffix_no_match p (c :: q) s Hs Hp);
        [reflexivity | discriminate].
    + rewrite <- app_assoc. assumption.
    + destruct p; discriminate.
Qed.

Lemma rsplit_last_match (s : str) :
  PyStr.contains s sep = false ->
  rsplit_last (sep ++ s) sep = Some ([], s).
Proof.
  intros Hc.
  assert (E : exists c q, sep = c :: q)
    by (destruct sep; [congruence | eauto]).
  destruct E as [c [q E]].
  assert (N : rsplit_last (q ++ s) sep = None).
  { apply (@rsplit_last_suffix [c] q s E); [discriminate | assumption]. }
  assert (U : forall x, x = c :: q ->
              rsplit_last (x ++ s) sep =
              match rsplit_last (q ++ s) sep with
              | Some (before, after) => Some (c :: before, after)
              | None =>
                  if PyStr.startswith (x ++ s) sep
                  then Some ([], skipn (length sep) (x ++ s))
                  else None
              end).
  { intros x ->. reflexivity. }
  rewrite (U sep E), N, startswith_app.
  rewrite skipn_app, skipn_all, Nat.sub_diag. reflexivity.
Qed.

Lemma join_cons (x : str) (l : list str) :
  l <> [] -> PyStr.join sep (x :: l) = x ++ sep ++ PyStr.join sep l.
Proof. destruct l; [congruence | reflexivity]. Qed.

Lemma join_cons_char (c : ascii) (x : str) (l : list str) :
  PyStr.join sep ((c :: x) :: l) = c :: PyStr.join sep (x :: l).
Proof. destruct l; reflexivity. Qed.

Lemma removelast_cons {A} (x : A) (l : list A) :
  l <> [] -> removelast (x :: l) = x :: removelast l.
Proof. destruct l; [congruence | reflexivity]. Qed.

Lemma last_cons {A} (x d : A) (l : list A) :
  l <> [] -> last (x :: l) d = last l d.
Proof. destruct l; [congruence | reflexivity]. Qed.

(** What [split] returns, in terms of the rightmost occurrence. *)
Lemma split_rsplit (n : nat) (s : str) :
  length s <= n ->
  match rsplit_last s sep with
  | Some (b, a) =>
      exists x l,
        PyStr.split s sep = x :: l /\ l <> []
        /\ PyStr.join sep (removelast (x :: l)) = b
        /\ last (x :: l) [] = a
  | None => PyStr.split s sep = [s]
  end.
Proof.
  revert s. induction n as [|n IH]; intros s Hn;
    destruct (rsplit_last s sep) as [[b a]|] eqn:R;
    try (apply split_absent, rsplit_last_None; assumption).
  - destruct s; [discriminate | simpl in Hn; lia].
  - destruct s as [|c r]; [discriminate|].
    destruct (PyStr.startswith (c :: r) sep) eqn:F.
    + rewrite (@split_match (c :: r) F).
      pose proof F as F'. apply startswith_iff in F'.
      destruct F' as [s' Hs']. rewrite Hs' in R |- *.
      rewrite skipn_app, skipn_all, Nat.sub_diag. cbn [skipn app].
      assert (Ls : length s' <= n).
      { apply (f_equal (@length ascii)) in Hs'. rewrite length_app in Hs'.
        simpl in Hs', Hn. destruct sep; [congruence|]. simpl in Hs'. lia. }
      specialize (IH s' Ls).
      destruct (rsplit_last s' sep) as [[b' a']|] eqn:R'.
      * rewrite (@rsplit_last_app sep s' b' a' R') in R. inversion R; subst.
        destruct IH as [x [l [-> [Hl [Hj Hlast]]]]].
        exists [], (x :: l). split; [reflexivity|].
        split; [discriminate|].
        rewrite removelast_cons by discriminate.
        rewrite join_cons by (rewrite removelast_cons by assumption;
                              discriminate).
        rewrite Hj. split; [reflexivity|].
        rewrite last_cons by discriminate. assumption.
      * apply rsplit_last_None in R'.
        rewrite (@rsplit_last_match s' R') in R. inversion R; subst.
        rewrite IH. exists [], [a]. repeat split. discriminate.
    + destruct (@split_nomatch c r F) as [p [ps [E ->]]].
      cbn [rsplit_last] in R. rewrite F in R.
      destruct (rsplit_last r sep) as [[b0 a0]|] eqn:R0; [|discriminate].
      inversion R; subst.
      assert (Lr : length r <= n) by (simpl in Hn; lia).
      specialize (IH r Lr). rewrite R0 in IH.
      destruct IH as [x [l [E' [Hl [Hj Hlast]]]]].
      rewrite E in E'. inversion E'; subst.
      exists (c :: x), l. split; [reflexivity|]. split; [assumption|].
      split.
      * rewrite !removelast_cons by assumption.
        rewrite join_cons_char. reflexivity.
      * rewrite !last_cons by assumption. reflexivity.
Qed.

Lemma split_attributes_rsplit (text : str) :
  split_attributes text sep =
  match rsplit_last text sep with
  | Some (b, a) => (b, a)
  | None => (text, [])
  end.
Proof.
  unfold split_attributes.
  pose proof (@split_rsplit (length text) text (le_n _)) as H.
  destruct (rsplit_last text sep) as [[b a]|].
  - destruct H as [x [l [-> [Hl [Hj Hlast]]]]].
    destruct l as [|y l]; [congruence|].
    cbn [length Nat.eqb]. rewrite Hj, Hlast. reflexivity.
  - rewrite H. reflexivity.
Qed.

End SplitFacts.

(* ================================================================== *)
(** * The attribute marker *)
(* ================================================================== *)

Lemma rsplit_last_absent (m s : str) :
  m <> [] ->
  rsplit_last s m = None <-> ~ exists b a, s = b ++ m ++ a.
Proof.
  intros Hm. rewrite (rsplit_last_None Hm), <- contains_iff.
  destruct (PyStr.contains s m); split; congruence.
Qed.

Lemma decode_split {svc : Services}
  (body : list str -> result (str * PyDict.dict str)) (m text : str) :
  m <> [] -> border_free m = true ->
  (let '(before, blob) := split_attributes text m in
   attributes <- yaml_safe_load (PyStr.strip blob) ;;
   th <- body (PyStr.splitlines before) ;;
   Zettel_init (fst th) (snd th) attributes)
  = match rsplit_last text m with
    | Some (before, after) => decode_parts body before (PyStr.strip after)
    | None => decode_parts body text ""
    end.
Proof.
  intros Hm Hb. rewrite (split_attributes_rsplit Hm Hb).
  destruct (rsplit_last text m) as [[b a]|]; reflexivity.
Qed.

(** C7.  Both decoders split the trimmed text at the rightmost occurrence
    of their attribute marker: what precedes it is read as title and
    headings, what follows it, trimmed, is the attribute blob.  Without a
    marker the whole text is the body and the blob is the empty string,
    from which no attribute is read. *)
Theorem C7_split_at_last_marker :
  forall (svc : Services) (arg text : str),
    input_text arg = Ok text -> PyStr.strip text <> [] ->
    let md_marker : str := "<!--- attributes --->" in
    let rst_marker : str := ".. attributes\n::" in
    (forall m s b a,
        In m [md_marker; rst_marker] ->
        rsplit_last s m = Some (b, a) ->
        s = b ++ m ++ a
        /\ forall b' a', s = b' ++ m ++ a' -> length b' <= length b)
    /\ (forall m s,
          In m [md_marker; rst_marker] ->
          rsplit_last s m = None <-> ~ exists b a, s = b ++ m ++ a)
    /\ createFromMd arg =
       match rsplit_last (PyStr.strip text) md_marker with
       | Some (before, after) =>
           decode_parts md_body before (PyStr.strip after)
       | None => decode_parts md_body (PyStr.strip text) ""
       end
    /\ createFromRst arg =
       match rsplit_last (PyStr.strip text) rst_marker with
       | Some (before, after) =>
           decode_parts rst_body before (PyStr.strip after)
       | None => decode_parts rst_body (PyStr.strip text) ""
       end
    /\ (yaml_safe_load "" = Ok VNone ->
        forall body before,
          decode_parts body before "" =
          (th <- body (PyStr.splitlines before) ;;
           Zettel_init (fst th) (snd th) (VDict []))).
Proof.
  intros svc arg text Hin Hne md_marker rst_marker.
  assert (Hm : forall m, In m [md_marker; rst_marker] ->
                         m <> [] /\ border_free m = true).
  { intros m [<- | [<- | []]]; split; (discriminate || reflexivity). }
  split; [|split; [|split; [|split]]].
  - intros m s b a Hi. apply rsplit_last_rightmost. apply (Hm m Hi).
  - intros m s Hi. apply rsplit_last_absent. apply (Hm m Hi).
  - unfold createFromMd. rewrite Hin. simpl bind.
    destruct (PyStr.strip text) as [|c t] eqn:E; [congruence|].
    apply decode_split; [discriminate | reflexivity].
  - unfold createFromRst. rewrite Hin. simpl bind.
    destruct (PyStr.strip text) as [|c t] eqn:E; [congruence|].
    apply decode_split; [discriminate | reflexivity].
  - intros Hy body before. unfold decode_parts. rewrite Hy. simpl.
    destruct (body (PyStr.splitlines before)); reflexivity.
Qed.

Lemma C7_split_at_last_marker_witness :
  @createFromMd Ref.services
    "# t\n<!--- attributes --->\nbody\n<!--- attributes --->\n    ---\n    greeting: hello\n"
  = Ok {| title := "t";
          headings := [("_notes", "<!--- attributes --->\nbody")];
          attrs := [("greeting", VStr "hello");
                    ("creation_date", VDate (Date 2026 11 4));
                    ("zlinks", VDict [])] |}
  /\ @createFromMd Ref.services "# t\nbody\n"
  = Ok {| title := "t";
          headings := [("_notes", "body")];
          attrs := [("creation_date", VDate (Date 2026 11 4));
                    ("zlinks", VDict [])] |}.
Proof.
  split.
  - destruct (@C7_split_at_last_marker Ref.services
                "# t\n<!--- attributes --->\nbody\n<!--- attributes --->\n    ---\n    greeting: hello\n"
                "# t\n<!--- attributes --->\nbody\n<!--- attributes --->\n    ---\n    greeting: hello\n"
                eq_refl ltac:(discriminate)) as [_ [_ [H _]]].
    exact (eq_trans H eq_refl).
  - destruct (@C7_split_at_last_marker Ref.services
                "# t\nbody\n" "# t\nbody\n"
                eq_refl ltac:(discriminate)) as [_ [_ [H _]]].
    exact (eq_trans H eq_refl).
Defined.

(* ================================================================== *)
(** * The concrete Markdown scenario *)
(* ================================================================== *)

Lemma yaml_value_plain {svc : Services} (k : str) (v : PyValue) :
  truthy v && is_date_key k = false -> yaml_value k v = Ok v.
Proof. unfold yaml_value. intros ->. reflexivity. Qed.

Lemma yaml_value_date {svc : Services} (k : str) (d : DateVal) :
  is_date_key k = true -> yaml_value k (VDate d) = Ok (VStr (date_text d)).
Proof.
  unfold yaml_value. intros ->. simpl. destruct d; reflexivity.
Qed.

Ltac run x := vm_compute in x; subst x.

(** C2, as the code has it.  The text decodes to the title [my title],
    the single heading [_notes] holding the content between two line
    ends, and the attributes [greeting], [creation_date] and [zlinks];
    encoding that Zettel gives the same title, body and marker, followed
    by the indented block of all three attributes. *)
Theorem C2_markdown_scenario :
  forall (svc : Services) (d d' : DateVal),
    let text : str :=
      "# my title\n\ncontent\n\n<!--- attributes --->\n    ---\n    greeting: hello\n" in
    input_text text = Ok text ->
    yaml_safe_load "---\n    greeting: hello"
      = Ok (VDict [("greeting", VStr "hello")]) ->
    parse_date "today" = Ok d -> SuperDate (VDate d) = Ok d' ->
    let z := {| title := "my title";
                headings := [("_notes", "\ncontent\n")];
                attrs := [("greeting", VStr "hello");
                          ("creation_date", VDate d');
                          ("zlinks", VDict [])] |} in
    createFromMd text = Ok z
    /\ getMd z None =
       Ok (PyStr.join "\n"
             (["# my title"; "\ncontent\n"; "<!--- attributes --->"]
              ++ map (fun x => "    " ++ x)
                   (PyStr.splitlines
                      ("---\n" ++
                       yaml_dump
                         (VDict [("greeting", VStr "hello");
                                 ("creation_date", VStr (date_text d'));
                                 ("zlinks", VDict [])])))
              ++ [""])).
Proof.
  intros svc d d' text Hin Hy Ht Hd z. split.
  - unfold createFromMd. rewrite Hin. cbn [bind].
    set (t := PyStr.strip text). run t. cbv iota beta.
    rewrite decode_split by (discriminate || reflexivity).
    set (r := rsplit_last _ _). run r. cbv iota beta.
    unfold decode_parts.
    set (b := PyStr.strip _). run b.
    rewrite Hy. cbn [bind].
    set (b := md_body _). run b. cbn [bind fst snd].
    unfold Zettel_init, init_attrs. cbn [truthy].
    set (u := Attributes_update _ _). run u. cbn [bind].
    set (h := PyDict.has _ _). run h. cbv iota.
    rewrite Ht. cbn [bind].
    rewrite setitem_date by reflexivity. rewrite Hd. cbn [bind].
    set (h := PyDict.has _ _). run h. cbv iota.
    rewrite setitem_plain by reflexivity. cbn [bind].
    reflexivity.
  - unfold getMd.
    set (n := display_names _ _). run n.
    set (m := PyStr.mem _ _). run m. cbv iota.
    cbn [title headings z].
    set (g := dict_getitem _ _). run g. cbn [bind].
    set (g := display_headings _ _ _ _). run g. cbn [bind].
    unfold attribute_lines, Attributes_str, Attributes_toYamlDict.
    cbn [attrs z].
    set (u := PyDict.update _ _). run u.
    cbn [mapM fst snd].
    rewrite (@yaml_value_plain svc "greeting") by reflexivity.
    rewrite (@yaml_value_date svc "creation_date" d') by reflexivity.
    rewrite (@yaml_value_plain svc "zlinks") by reflexivity.
    reflexivity.
Qed.

Lemma C2_markdown_scenario_witness :
  let text : str :=
    "# my title\n\ncontent\n\n<!--- attributes --->\n    ---\n    greeting: hello\n" in
  let z := {| title := "my title";
              headings := [("_notes", "\ncontent\n")];
              attrs := [("greeting", VStr "hello");
                        ("creation_date", VDate (Date 2026 11 4));
                        ("zlinks", VDict [])] |} in
  @createFromMd Ref.services text = Ok z
  /\ @getMd Ref.services z None =
     Ok "# my title\n\ncontent\n\n<!--- attributes --->\n    ---\n    creation_date: 2026-11-04, Wed\n    greeting: hello\n    zlinks: {}\n".
Proof.
  intros text z.
  destruct (@C2_markdown_scenario Ref.services (Date 2026 11 4)
              (Date 2026 11 4) eq_refl eq_refl eq_refl eq_refl) as [H1 H2].
  split; [exact H1 | exact (eq_trans H2 eq_refl)].
Defined.

(** C2 as stated fails: the text that comes back lists the two default
    attributes as well, so it is not the text that went in. *)
Lemma C2_counterexample :
  let text : str :=
    "# my title\n\ncontent\n\n<!--- attributes --->\n    ---\n    greeting: hello\n" in
  (z <- @createFromMd Ref.services text ;; @getMd Ref.services z None)
  = Ok "# my title\n\ncontent\n\n<!--- attributes --->\n    ---\n    creation_date: 2026-11-04, Wed\n    greeting: hello\n    zlinks: {}\n"
  /\ (z <- @createFromMd Ref.services text ;; @getMd Ref.services z None)
     <> Ok text.
Proof. vm_compute. split; [reflexivity | discriminate]. Qed.

(* ================================================================== *)
(** * Trimming, joining and cutting into lines *)
(* ================================================================== *)

Section TrimFacts.

Lemma lstrip_app (u v : str) (c : ascii) :
  PyStr.isspace c = false ->
  PyStr.lstrip (u ++ c :: v) = PyStr.lstrip u ++ c :: v.
Proof.
  intros Hc. induction u as [|x u IH]; simpl.
  - rewrite Hc; reflexivity.
  - destruct (PyStr.isspace x); [assumption | reflexivity].
Qed.

Lemma lstrip_idem (s : str) : PyStr.lstrip (PyStr.lstrip s) = PyStr.lstrip s.
Proof.
  induction s as [|c s IH]; simpl; [reflexivity|].
  destruct (PyStr.isspace c) eqn:E; [assumption|].
  simpl. rewrite E. reflexivity.
Qed.

Lemma lstrip_suffix (s : str) : exists sp, s = sp ++ PyStr.lstrip s.
Proof.
  induction s as [|c s [sp IH]]; simpl.
  - exists []; reflexivity.
  - destruct (PyStr.isspace c).
    + exists (c :: sp). simpl. rewrite <- IH. reflexivity.
    + exists []; reflexivity.
Qed.

Lemma lstrip_cases (s : str) :
  PyStr.lstrip s = []
  \/ exists u c v, s = u ++ c :: v /\ PyStr.lstrip u = []
                   /\ PyStr.isspace c = false.
Proof.
  induction s as [|x s IH]; simpl; [left; reflexivity|].
  destruct (PyStr.isspace x) eqn:E.
  - destruct IH as [IH | [u [c [v [-> [Hu Hc]]]]]]; [left; assumption|].
    right. exists (x :: u), c, v. simpl. rewrite E. auto.
  - right. exists [], x, s. auto.
Qed.

Lemma rstrip_app (u v : str) (c : ascii) :
  PyStr.isspace c = false ->
  PyStr.rstrip (u ++ c :: v) = u ++ c :: PyStr.rstrip v.
Proof.
  intros Hc. unfold PyStr.rstrip.
  rewrite rev_app_distr. simpl. rewrite <- app_assoc. simpl.
  rewrite lstrip_app by assumption.
  rewrite rev_app_distr. simpl. rewrite rev_involutive, <- app_assoc.
  reflexivity.
Qed.

Lemma rstrip_cons (v : str) (c : ascii) :
  PyStr.isspace c = false -> PyStr.rstrip (c :: v) = c :: PyStr.rstrip v.
Proof. intros Hc. apply (@rstrip_app [] v c Hc). Qed.

Lemma rstrip_idem (s : str) : PyStr.rstrip (PyStr.rstrip s) = PyStr.rstrip s.
Proof.
  unfold PyStr.rstrip. rewrite rev_involutive, lstrip_idem. reflexivity.
Qed.

Lemma rstrip_prefix (s : str) : exists w, s = PyStr.rstrip s ++ w.
Proof.
  unfold PyStr.rstrip. destruct (lstrip_suffix (rev s)) as [sp H].
  exists (rev sp). rewrite <- rev_app_distr, <- H, rev_involutive.
  reflexivity.
Qed.

Lemma rstrip_all_space (s : str) :
  PyStr.lstrip s = [] -> PyStr.rstrip s = [].
Proof.
  intros H. destruct (lstrip_cases (rev s)) as [E | [u [c [v [E [_ Hc]]]]]].
  - unfold PyStr.rstrip. rewrite E. reflexivity.
  - exfalso. apply (f_equal (@rev ascii)) in E.
    rewrite rev_involutive, rev_app_distr in E. simpl in E.
    rewrite <- app_assoc in E. simpl in E.
    rewrite E, lstrip_app in H by assumption.
    destruct (PyStr.lstrip (rev v)); discriminate.
Qed.

Lemma strip_rstrip (s : str) : PyStr.strip (PyStr.rstrip s) = PyStr.strip s.
Proof.
  unfold PyStr.strip.
  destruct (lstrip_cases s) as [E | [u [c [v [-> [Hu Hc]]]]]].
  - rewrite (rstrip_all_space _ E), E. reflexivity.
  - rewrite rstrip_app by assumption.
    rewrite !lstrip_app, Hu by assumption. simpl.
    rewrite !rstrip_cons by assumption. rewrite rstrip_idem. reflexivity.
Qed.

Lemma strip_framed (x c : ascii) (u v : str) :
  PyStr.isspace x = false -> PyStr.isspace c = false ->
  PyStr.strip (x :: u ++ c :: v) = x :: u ++ c :: PyStr.rstrip v.
Proof.
  intros Hx Hc. unfold PyStr.strip. simpl. rewrite Hx.
  apply (@rstrip_app (x :: u) v c Hc).
Qed.

Lemma contains_app_false (a w m : str) :
  PyStr.contains (a ++ w) m = false -> PyStr.contains a m = false.
Proof.
  intros H. destruct (PyStr.contains a m) eqn:E; [|reflexivity].
  apply contains_iff in E. destruct E as [x [y ->]].
  assert (G : PyStr.contains ((x ++ m ++ y) ++ w) m = true).
  { apply contains_iff. exists x, (y ++ w). rewrite <- !app_assoc.
    reflexivity. }
  congruence.
Qed.

End TrimFacts.

Section LineFacts.

Lemma nl_nonempty : ("\n" : str) <> [].
Proof. discriminate. Qed.

Lemma join_app_cons (sep : str) (b : list str) (x : str) (r : list str) :
  PyStr.join sep (b ++ x :: r)
  = concat (map (fun e => e ++ sep) b) ++ PyStr.join sep (x :: r).
Proof.
  induction b as [|e b IH]; [reflexivity|].
  change ((e :: b) ++ x :: r) with (e :: (b ++ x :: r)).
  rewrite join_cons by (destruct b; discriminate).
  rewrite IH. simpl. rewrite <- !app_assoc. reflexivity.
Qed.

Lemma lines_of_nonempty (e : str) : lines_of e <> [].
Proof. apply split_from_nonempty. Qed.

Lemma lines_of_nl (e : str) : lines_of (NL :: e) = [] :: lines_of e.
Proof.
  unfold lines_of. rewrite (@split_match "\n" nl_nonempty (NL :: e) eq_refl).
  reflexivity.
Qed.

Lemma lines_of_char (c : ascii) (e : str) :
  Ascii.eqb c NL = false ->
  exists p ps, lines_of e = p :: ps /\ lines_of (c :: e) = (c :: p) :: ps.
Proof.
  intros Hc. apply (@split_nomatch "\n" c e).
  change (Ascii.eqb NL c && true = false).
  rewrite Ascii.eqb_sym, Hc. reflexivity.
Qed.

Lemma join_lines_of (e : str) : PyStr.join "\n" (lines_of e) = e.
Proof.
  induction e as [|c e IH]; [reflexivity|].
  destruct (Ascii.eqb c NL) eqn:E.
  - apply Ascii.eqb_eq in E; subst c. rewrite lines_of_nl.
    rewrite join_cons by apply lines_of_nonempty.
    rewrite IH. reflexivity.
  - destruct (@lines_of_char c e E) as [p [ps [E1 ->]]].
    rewrite join_cons_char, <- E1, IH. reflexivity.
Qed.

Lemma plain_line_text (s : str) : plain_line s = true -> plain_text s = true.
Proof.
  unfold plain_line, plain_text. rewrite !forallb_forall.
  intros H c Hc. rewrite (H c Hc). reflexivity.
Qed.

Lemma lines_of_plain (e : str) : plain_line e = true -> lines_of e = [e].
Proof.
  intros H. apply (@split_absent "\n").
  induction e as [|c e IH]; [reflexivity|].
  simpl in H. apply andb_true_iff in H. destruct H as [Hc He].
  change (Ascii.eqb NL c && true || PyStr.contains e "\n" = false).
  rewrite (IH He).
  destruct (Ascii.eqb NL c) eqn:E; [|reflexivity].
  apply Ascii.eqb_eq in E; subst c. discriminate.
Qed.

Lemma splitlines_text (e rest : str) :
  plain_text e = true ->
  PyStr.splitlines (e ++ NL :: rest) = lines_of e ++ PyStr.splitlines rest.
Proof.
  unfold PyStr.splitlines. induction e as [|c e IH]; intros H.
  - reflexivity.
  - simpl in H. apply andb_true_iff in H. destruct H as [Hc He].
    specialize (IH He).
    change ((c :: e) ++ NL :: rest) with (c :: (e ++ NL :: rest)).
    destruct (Ascii.eqb c NL) eqn:E.
    + apply Ascii.eqb_eq in E; subst c. rewrite lines_of_nl.
      cbn [PyStr.splitlines_from andb]. simpl PyStr.is_linebreak.
      cbv iota. change (Ascii.eqb NL "013") with false.
      rewrite IH. reflexivity.
    + rewrite orb_false_r in Hc. apply negb_true_iff in Hc.
      destruct (@lines_of_char c e E) as [p [ps [E1 ->]]].
      cbn [PyStr.splitlines_from andb]. rewrite Hc, IH, E1. reflexivity.
Qed.

Lemma splitlines_concat (b : list str) :
  (forall e, In e b -> plain_text e = true) ->
  PyStr.splitlines (concat (map (fun e => e ++ "\n") b))
  = concat (map lines_of b).
Proof.
  induction b as [|e b IH]; intros H; [reflexivity|].
  simpl. rewrite <- app_assoc. simpl.
  rewrite splitlines_text by (apply H; left; reflexivity).
  rewrite IH by (intros x Hx; apply H; right; assumption).
  reflexivity.
Qed.

End LineFacts.

(* ================================================================== *)
(** * Line numbers, slices and the heading loop *)
(* ================================================================== *)

Section IndexFacts.
Context {A : Type}.

Lemma index_nth_error (l : list A) (i : nat) (x : A) :
  nth_error l i = Some x -> index l (Z.of_nat i) = Ok x.
Proof.
  intros H. unfold index.
  assert (L : i < length l) by (apply nth_error_Some; congruence).
  destruct (Z.of_nat i <? 0)%Z eqn:E; [apply Z.ltb_lt in E; lia|].
  replace ((0 <=? Z.of_nat i) && (Z.of_nat i <? Z.of_nat (length l)))%Z
    with true.
  - rewrite Nat2Z.id, H. reflexivity.
  - symmetry. apply andb_true_iff. split.
    + apply Z.leb_le; lia.
    + apply Z.ltb_lt; lia.
Qed.

Lemma clamp_in_range (n i : nat) :
  i <= n -> clamp_index (Z.of_nat n) (Z.of_nat i) = Z.of_nat i.
Proof.
  intros H. unfold clamp_index.
  destruct (Z.of_nat i <? 0)%Z eqn:E; [apply Z.ltb_lt in E; lia|].
  lia.
Qed.

Lemma slice_middle (a m b : list A) (d : nat) :
  d <= length m ->
  slice (a ++ m ++ b) (Z.of_nat (length a + d))
        (Z.of_nat (length a + length m))
  = skipn d m.
Proof.
  intros Hd. unfold slice.
  rewrite !clamp_in_range by (rewrite !length_app; lia).
  rewrite Nat2Z.id.
  replace (Z.to_nat (Z.of_nat (length a + length m)
                     - Z.of_nat (length a + d)))
    with (length m - d) by lia.
  rewrite skipn_app.
  replace (skipn (length a + d) a) with (@nil A)
    by (symmetry; apply skipn_all2; lia).
  replace (length a + d - length a) with d by lia.
  simpl. rewrite skipn_app.
  replace (d - length m) with 0 by lia. simpl.
  rewrite firstn_app.
  replace (length m - d - length (skipn d m)) with 0
    by (rewrite length_skipn; lia).
  simpl. rewrite app_nil_r.
  apply firstn_all2. rewrite length_skipn. lia.
Qed.

Lemma slice_prefix (a b : list A) :
  slice (a ++ b) 0 (Z.of_nat (length a)) = a.
Proof.
  pose proof (@slice_middle [] a b 0 (Nat.le_0_l _)) as H.
  simpl in H. exact H.
Qed.

End IndexFacts.

Section HeadFacts.
Variable is_heading : str -> bool.

Lemma heads_cons (o : nat) (x : str) (l : list str) :
  heads_from is_heading o (x :: l)
  = (if is_heading x then [Z.of_nat o] else [])
    ++ heads_from is_heading (S o) l.
Proof.
  unfold heads_from. simpl. destruct (is_heading x); reflexivity.
Qed.

Lemma heads_app (o : nat) (a b : list str) :
  heads_from is_heading o (a ++ b)
  = heads_from is_heading o a ++ heads_from is_heading (o + length a) b.
Proof.
  revert o. induction a as [|x a IH]; intros o.
  - simpl. rewrite Nat.add_0_r. reflexivity.
  - change ((x :: a) ++ b) with (x :: (a ++ b)).
    rewrite !heads_cons, IH, <- app_assoc. simpl length.
    replace (S o + length a) with (o + S (length a)) by lia.
    reflexivity.
Qed.

Lemma heads_none (o : nat) (a : list str) :
  (forall x, In x a -> is_heading x = false) ->
  heads_from is_heading o a = [].
Proof.
  revert o. induction a as [|x a IH]; intros o H; [reflexivity|].
  rewrite heads_cons, (H x (or_introl eq_refl)). simpl.
  apply IH. intros y Hy. apply H. right; assumption.
Qed.

(** The groups whose heading is their line number [r] and whose other
    lines are no headings. *)
Lemma heads_flat (r : nat) (o : nat) (gs : list (str * list str)) :
  (forall g, In g gs ->
     forall p, heads_from is_heading p (fst g :: snd g) = [Z.of_nat (p + r)]) ->
  heads_from is_heading o (flat gs)
  = map (fun n => Z.of_nat (n + r)) (starts o gs).
Proof.
  revert o. induction gs as [|g gs IH]; intros o H; [reflexivity|].
  unfold flat. simpl. fold (flat gs).
  change (fst g :: snd g ++ flat gs) with ((fst g :: snd g) ++ flat gs).
  rewrite heads_app, (H g (or_introl eq_refl)). simpl.
  rewrite IH by (intros g' Hg'; apply H; right; assumption).
  reflexivity.
Qed.

End HeadFacts.

Lemma length_flat_cons (g : str * list str) (gs : list (str * list str)) :
  length (flat (g :: gs)) = S (length (snd g)) + length (flat gs).
Proof. unfold flat. simpl. rewrite length_app. reflexivity. Qed.

Lemma nth_error_starts (gs : list (str * list str)) (o i : nat) :
  i <= length gs ->
  nth_error (map Z.of_nat (starts o gs) ++ [Z.of_nat (o + length (flat gs))])
            i
  = Some (Z.of_nat (o + length (flat (firstn i gs)))).
Proof.
  revert o i. induction gs as [|g gs IH]; intros o i Hi.
  - simpl in Hi. assert (i = 0) by lia. subst. reflexivity.
  - destruct i as [|i].
    + simpl. rewrite Nat.add_0_r. reflexivity.
    + simpl in Hi. cbn [starts map app nth_error firstn].
      rewrite !length_flat_cons.
      replace (o + (S (length (snd g)) + length (flat gs)))
        with (o + S (length (snd g)) + length (flat gs)) by lia.
      rewrite IH by lia. f_equal. f_equal. lia.
Qed.

Lemma length_starts (gs : list (str * list str)) (o : nat) :
  length (starts o gs) = length gs.
Proof.
  revert o. induction gs as [|g gs IH]; intros o; simpl; [|rewrite IH];
    reflexivity.
Qed.

Section ScanFacts.
Variable name_of : str -> str.
Variable delta : nat.
Hypothesis delta_pos : 1 <= delta.

(** What the heading loop stores for one group of lines *)
Let store (hs : PyDict.dict str) (g : str * list str) : PyDict.dict str :=
  PyDict.set hs (name_of (fst g))
    (PyStr.join "\n" (skipn (delta - 1) (snd g))).

Lemma scan_groups (gs : list (str * list str)) :
  forall (pre post : list str) (pts : list Z) (j : nat)
         (acc : PyDict.dict str),
    (forall g, In g gs -> delta - 1 <= length (snd g)) ->
    (forall i, i <= length gs ->
       nth_error pts (j + i)
       = Some (Z.of_nat (length pre + length (flat (firstn i gs))))) ->
    foldM (fun hs ptr =>
             pt <- index pts (Z.of_nat ptr) ;;
             content_end <- index pts (Z.of_nat ptr + 1) ;;
             line <- index (pre ++ flat gs ++ post) pt ;;
             Ok (PyDict.set hs (name_of line)
                   (PyStr.join "\n"
                      (slice (pre ++ flat gs ++ post)
                         (pt + Z.of_nat delta) content_end))))
          (seq j (length gs)) acc
    = Ok (fold_left store gs acc).
Proof.
  induction gs as [|g gs IH]; intros pre post pts j acc Hg Hp;
    [reflexivity|].
  cbn [length seq foldM fold_left].
  pose proof (Hp 0 (Nat.le_0_l _)) as H0.
  pose proof (Hp 1 ltac:(simpl; lia)) as H1.
  rewrite Nat.add_0_r in H0.
  change (length (flat (firstn 0 (g :: gs)))) with 0 in H0.
  rewrite Nat.add_0_r in H0.
  replace (j + 1) with (S j) in H1 by lia.
  change (firstn 1 (g :: gs)) with [g] in H1.
  rewrite length_flat_cons in H1.
  change (length (flat [])) with 0 in H1. rewrite Nat.add_0_r in H1.
  rewrite (@index_nth_error _ _ _ _ H0). cbn [bind].
  replace (Z.of_nat j + 1)%Z with (Z.of_nat (S j)) by lia.
  rewrite (@index_nth_error _ _ _ _ H1). cbn [bind].
  assert (E : pre ++ flat (g :: gs) ++ post
              = (pre ++ [fst g]) ++ snd g ++ (flat gs ++ post)).
  { unfold flat. simpl. rewrite <- !app_assoc. reflexivity. }
  assert (N : nth_error (pre ++ flat (g :: gs) ++ post) (length pre)
              = Some (fst g)).
  { rewrite nth_error_app2 by lia. rewrite Nat.sub_diag. reflexivity. }
  rewrite (@index_nth_error _ _ _ _ N). cbn [bind].
  assert (S1 : slice (pre ++ flat (g :: gs) ++ post)
                 (Z.of_nat (length pre) + Z.of_nat delta)
                 (Z.of_nat (length pre + S (length (snd g))))
               = skipn (delta - 1) (snd g)).
  { rewrite E.
    replace (Z.of_nat (length pre) + Z.of_nat delta)%Z
      with (Z.of_nat (length (pre ++ [fst g]) + (delta - 1)))
      by (rewrite length_app; simpl; lia).
    replace (length pre + S (length (snd g)))
      with (length (pre ++ [fst g]) + length (snd g))
      by (rewrite length_app; simpl; lia).
    apply slice_middle. apply Hg. left; reflexivity. }
  rewrite S1.
  assert (E2 : pre ++ flat (g :: gs) ++ post
               = (pre ++ fst g :: snd g) ++ flat gs ++ post).
  { unfold flat. simpl. rewrite <- !app_assoc. reflexivity. }
  rewrite E2.
  apply (IH (pre ++ fst g :: snd g) post pts (S j)).
  - intros g' Hg'. apply Hg. right; assumption.
  - intros i Hi. specialize (Hp (S i) ltac:(simpl; lia)).
    replace (j + S i) with (S j + i) in Hp by lia.
    rewrite Hp. cbn [firstn]. rewrite length_flat_cons, length_app.
    simpl. f_equal. f_equal. lia.
Qed.

End ScanFacts.

(* ================================================================== *)
(** * The encoders on a canonical heading map *)
(* ================================================================== *)

Section EncodeFacts.
Context {svc : Services}.
Variables is_heading name_ok : str -> bool.
Variable z : Zettel.
Hypothesis Hc : headings_canonical is_heading name_ok (headings z).

Lemma canonical_NoDup : NoDup (PyDict.keys (headings z)).
Proof. apply (NoDup_map_inv PyStr.lower). apply (hc_distinct Hc). Qed.

Lemma In_get {V} (d : PyDict.dict V) (k : str) (v : V) :
  NoDup (PyDict.keys d) -> In (k, v) d -> PyDict.get d k = Some v.
Proof.
  induction d as [|[k0 v0] d IH]; intros Hn Hin; [contradiction|].
  simpl in Hn. inversion Hn; subst. simpl.
  destruct Hin as [E | Hin].
  - inversion E; subst. rewrite eqb_refl. reflexivity.
  - destruct (PyStr.eqb k k0) eqn:E.
    + apply eqb_eq in E; subst. exfalso. apply H1.
      apply (in_map fst) in Hin. exact Hin.
    + auto.
Qed.

Lemma lookup_headings_get (k : str) :
  In k (PyDict.keys (headings z)) ->
  PyDict.get (lookup_headings z) (PyStr.lower k) = Some k.
Proof.
  intros Hin. unfold lookup_headings, PyDict.of_items.
  assert (N : NoDup (PyDict.keys
                       (map (fun k => (PyStr.lower k, k))
                            (PyDict.keys (headings z))))).
  { unfold PyDict.keys at 1. rewrite map_map. simpl.
    apply (hc_distinct Hc). }
  rewrite (@update_nil_NoDup _ _ N).
  apply In_get; [assumption|].
  apply in_map_iff. exists k. auto.
Qed.

Lemma notes_mem :
  PyStr.mem "_notes" (map PyStr.lower (PyDict.keys (headings z)))
  = PyDict.has (headings z) "_notes".
Proof.
  destruct (PyDict.has (headings z) "_notes") eqn:E.
  - apply mem_In. apply has_In in E.
    change ("_notes" : str) with (PyStr.lower "_notes") at 1.
    apply in_map. assumption.
  - destruct (PyStr.mem _ _) eqn:M; [|reflexivity].
    apply mem_In in M. apply in_map_iff in M. destruct M as [k [Hk Hin]].
    rewrite (hc_notes_name Hc k Hin Hk) in Hin.
    apply has_In in Hin. congruence.
Qed.

Lemma display_canonical (emit : str -> list str) (sub : PyDict.dict str) :
  incl sub (headings z) ->
  forall s,
    display_headings z emit (map PyStr.lower (PyDict.keys sub)) s
    = Ok (s ++ concat (map (fun kc => emit (fst kc) ++ [snd kc])
                         (other_headings sub))).
Proof.
  unfold display_headings.
  induction sub as [|[k c] sub IH]; intros Hi s.
  - simpl. rewrite app_nil_r. reflexivity.
  - assert (Hin : In (k, c) (headings z)) by (apply Hi; left; reflexivity).
    assert (Hk : In k (PyDict.keys (headings z)))
      by (apply (in_map fst) in Hin; exact Hin).
    assert (Hi' : incl sub (headings z))
      by (intros x Hx; apply Hi; right; assumption).
    cbn [PyDict.keys map foldM fst other_headings filter].
    fold (PyDict.keys sub). fold (other_headings sub).
    destruct (PyStr.eqb (PyStr.lower k) "_notes") eqn:E.
    + cbn [orb negb bind]. apply IH; assumption.
    + unfold PyDict.has at 1.
      rewrite (lookup_headings_get k Hk). cbn [orb negb].
      unfold dict_getitem.
      rewrite (lookup_headings_get k Hk). cbn [bind].
      rewrite (@In_get _ (headings z) k c canonical_NoDup Hin). cbn [bind].
      rewrite IH by assumption.
      cbn [map concat fst snd]. rewrite <- !app_assoc. reflexivity.
Qed.

Lemma display_names_all :
  display_names z None = map PyStr.lower (PyDict.keys (headings z)).
Proof. reflexivity. Qed.

Lemma notes_part_get :
  match PyDict.get (headings z) "_notes" with
  | Some n => n <> [] /\ notes_part (headings z) = [("_notes", n)]
  | None => notes_part (headings z) = []
  end.
Proof.
  unfold notes_part. pose proof (hc_notes_nonempty Hc) as H.
  destruct (PyDict.get (headings z) "_notes") as [n|]; [|reflexivity].
  split; [|reflexivity]. intros ->. apply H. reflexivity.
Qed.

Lemma getMd_canonical (a_lines : list str) :
  attribute_lines z = Ok a_lines ->
  getMd z None
  = Ok (PyStr.join "\n"
          (md_elems z ++ ["<!--- attributes --->"] ++ a_lines ++ [""])).
Proof.
  intros Ha. unfold getMd. rewrite display_names_all, notes_mem.
  pose proof notes_part_get as Hn. unfold PyDict.has, dict_getitem.
  assert (D := fun s => @display_canonical (fun k => ["## " ++ k])
                          (headings z) (incl_refl _) s).
  unfold md_elems.
  destruct (PyDict.get (headings z) "_notes") as [n|].
  - destruct Hn as [Hne ->]. cbn [bind].
    destruct n as [|c n]; [congruence|].
    rewrite D. cbn [bind]. rewrite Ha. cbn [bind].
    destruct (title z); cbn [map snd app]; rewrite <- ?app_assoc;
      reflexivity.
  - rewrite Hn. cbn [bind]. rewrite D. cbn [bind]. rewrite Ha. cbn [bind].
    destruct (title z); cbn [map snd app]; rewrite <- ?app_assoc;
      reflexivity.
Qed.

Lemma getRst_canonical (a_lines : list str) :
  attribute_lines z = Ok a_lines ->
  getRst z None
  = Ok (PyStr.join "\n"
          (rst_elems z ++ [".. attributes"; "::"; ""] ++ a_lines ++ [""])).
Proof.
  intros Ha. unfold getRst. rewrite display_names_all, notes_mem.
  pose proof notes_part_get as Hn. unfold PyDict.has, dict_getitem.
  assert (D := fun s => @display_canonical
                          (fun k => [k; PyStr.times "=" (length k)])
                          (headings z) (incl_refl _) s).
  unfold rst_elems.
  destruct (PyDict.get (headings z) "_notes") as [n|].
  - destruct Hn as [Hne ->]. cbn [bind].
    rewrite D. cbn [bind]. rewrite Ha. cbn [bind].
    destruct (title z); cbn [map snd app]; rewrite <- ?app_assoc;
      reflexivity.
  - rewrite Hn. cbn [bind]. rewrite D. cbn [bind]. rewrite Ha. cbn [bind].
    destruct (title z); cbn [map snd app]; rewrite <- ?app_assoc;
      reflexivity.
Qed.

End EncodeFacts.

(* ================================================================== *)
(** * Decoding an encoded text *)
(* ================================================================== *)

Section DecodeText.
Context {svc : Services}.
Variable body_of : list str -> result (str * PyDict.dict str).
Variables m m' : str.
Variable c : ascii.
Hypothesis m_last : m = m' ++ [c].
Hypothesis c_nonspace : PyStr.isspace c = false.
Hypothesis m_border_free : border_free m = true.

Lemma m_nonempty : m <> [].
Proof. rewrite m_last. destruct m'; discriminate. Qed.

Lemma strip_text (body blob : str) :
  starts_nonspace (body ++ m) = true ->
  PyStr.strip (body ++ m ++ blob) = body ++ m ++ PyStr.rstrip blob.
Proof.
  intros Hs. rewrite m_last in *. rewrite <- !app_assoc in *.
  rewrite !app_assoc. rewrite !app_assoc in Hs.
  destruct (body ++ m') as [|x u].
  - simpl. unfold PyStr.strip. simpl. rewrite c_nonspace.
    apply rstrip_cons; assumption.
  - simpl in Hs. apply negb_true_iff in Hs.
    rewrite <- !app_assoc. simpl.
    apply strip_framed; assumption.
Qed.

(** The decoder on a text made of a body, the marker and a blob that
    does not contain the marker. *)
Lemma decode_text (body blob : str) :
  starts_nonspace (body ++ m) = true ->
  PyStr.contains blob m = false ->
  match PyStr.strip (body ++ m ++ blob) with
  | [] => Zettel_init "" [] (VDict [])
  | _ =>
      let '(before, after) :=
        split_attributes (PyStr.strip (body ++ m ++ blob)) m in
      attributes <- yaml_safe_load (PyStr.strip after) ;;
      th <- body_of (PyStr.splitlines before) ;;
      Zettel_init (fst th) (snd th) attributes
  end
  = decode_parts body_of body (PyStr.strip blob).
Proof.
  intros Hs Hb. rewrite (strip_text body blob Hs).
  assert (R : rsplit_last (body ++ m ++ PyStr.rstrip blob) m
              = Some (body, PyStr.rstrip blob)).
  { rewrite <- (app_nil_r body) at 2.
    apply rsplit_last_app.
    apply (@rsplit_last_match m m_nonempty m_border_free).
    destruct (rstrip_prefix blob) as [w Hw].
    apply (@contains_app_false _ w). rewrite <- Hw. assumption. }
  destruct (body ++ m ++ PyStr.rstrip blob) as [|x t] eqn:E.
  - exfalso. rewrite m_last in E. destruct body, m'; discriminate.
  - cbv iota.
    rewrite (@decode_split svc body_of m _ m_nonempty m_border_free), R.
    rewrite strip_rstrip. reflexivity.
Qed.

End DecodeText.

Lemma join_elems (b : list str) (marker : str) (rest : list str) :
  rest <> [] ->
  PyStr.join "\n" (b ++ marker :: rest)
  = concat (map (fun e => e ++ "\n") b) ++ marker
    ++ "\n" ++ PyStr.join "\n" rest.
Proof.
  intros Hr. rewrite join_app_cons, join_cons by assumption. reflexivity.
Qed.

Lemma md_text_shape (b a_lines : list str) :
  PyStr.join "\n" (b ++ ["<!--- attributes --->"] ++ a_lines ++ [""])
  = concat (map (fun e => e ++ "\n") b) ++ "<!--- attributes --->"
    ++ attribute_tail [] a_lines.
Proof.
  unfold attribute_tail. cbn [app].
  apply join_elems. destruct a_lines; discriminate.
Qed.

Lemma rst_text_shape (b a_lines : list str) :
  PyStr.join "\n" (b ++ [".. attributes"; "::"; ""] ++ a_lines ++ [""])
  = concat (map (fun e => e ++ "\n") b) ++ ".. attributes\n::"
    ++ attribute_tail [""] a_lines.
Proof.
  unfold attribute_tail.
  change ([".. attributes"; "::"; ""] ++ a_lines ++ [""])
    with (".. attributes" :: "::" :: ([""] ++ a_lines ++ [""])).
  rewrite join_elems by discriminate.
  rewrite join_cons by discriminate.
  f_equal.
Qed.

Lemma starts_nonspace_app (e x : str) :
  starts_nonspace e = true -> starts_nonspace (e ++ x) = true.
Proof. destruct e; [discriminate | auto]. Qed.

Lemma starts_nonspace_elems (b : list str) (marker : str) :
  starts_nonspace marker = true ->
  match b with e :: _ => starts_nonspace e = true | [] => True end ->
  starts_nonspace (concat (map (fun e => e ++ "\n") b) ++ marker) = true.
Proof.
  intros Hm Hb. destruct b as [|e b]; [assumption|].
  simpl. rewrite <- !app_assoc. apply starts_nonspace_app. assumption.
Qed.

Section SectionsDecode.
Variable name_of : str -> str.
Variable delta : nat.
Hypothesis delta_pos : 1 <= delta.

(** The headings the two loops of a decoder make of the lines [pre]
    before the first heading and the groups [gs]. *)
Lemma sections_decode (pre : list str) (gs : list (str * list str))
  (pts : list Z) :
  (forall g, In g gs -> delta - 1 <= length (snd g)) ->
  pts = map Z.of_nat (starts (length pre) gs)
        ++ [Z.of_nat (length (pre ++ flat gs))] ->
  (hs <- notes_headings (pre ++ flat gs) pts ;;
   scan_headings name_of (Z.of_nat delta) (pre ++ flat gs) pts hs)
  = Ok (fold_left
          (fun hs g =>
             PyDict.set hs (name_of (fst g))
               (PyStr.join "\n" (skipn (delta - 1) (snd g))))
          gs
          (match PyStr.join "\n" pre with
           | [] => []
           | n => PyDict.set [] "_notes" n
           end)).
Proof.
  intros Hg Hp.
  assert (N : forall i, i <= length gs ->
                nth_error pts (0 + i)
                = Some (Z.of_nat (length pre + length (flat (firstn i gs))))).
  { intros i Hi. rewrite Hp, length_app. apply nth_error_starts; assumption. }
  unfold notes_headings.
  pose proof (N 0 (Nat.le_0_l _)) as N0.
  change (length (flat (firstn 0 gs))) with 0 in N0.
  rewrite !Nat.add_0_r in N0. change (0 + 0) with 0 in N0.
  pose proof (@index_nth_error _ pts 0 _ N0) as I0.
  change (Z.of_nat 0) with 0%Z in I0. rewrite I0. cbn [bind].
  rewrite slice_prefix.
  unfold scan_headings.
  replace (length pts - 1) with (length gs)
    by (rewrite Hp, length_app, length_map, length_starts; simpl; lia).
  rewrite <- (app_nil_r (flat gs)).
  destruct (PyStr.join "\n" pre);
    apply (@scan_groups name_of delta delta_pos gs pre [] pts 0);
    assumption.
Qed.

End SectionsDecode.

Lemma update_app_NoDup {V} (acc d : PyDict.dict V) :
  NoDup (PyDict.keys (acc ++ d)) -> PyDict.update acc d = acc ++ d.
Proof.
  unfold PyDict.update. revert acc.
  induction d as [|[k v] d IH]; intros acc H; simpl.
  - rewrite app_nil_r; reflexivity.
  - rewrite set_fresh.
    + rewrite IH; rewrite <- app_assoc; [reflexivity | assumption].
    + destruct (PyDict.has acc k) eqn:E; [|reflexivity].
      apply has_In in E. unfold PyDict.keys in H.
      rewrite map_app in H. simpl in H.
      apply NoDup_remove_2 in H. exfalso; apply H.
      apply in_or_app; left; assumption.
Qed.

(** Storing the groups one by one rebuilds the entries they come from. *)
Lemma store_groups (name_of : str -> str) (d : nat)
  (group : str * str -> str * list str)
  (others acc : PyDict.dict str) :
  (forall kc, In kc others ->
     name_of (fst (group kc)) = fst kc
     /\ PyStr.join "\n" (skipn d (snd (group kc))) = snd kc) ->
  NoDup (PyDict.keys (acc ++ others)) ->
  fold_left
    (fun hs g =>
       PyDict.set hs (name_of (fst g)) (PyStr.join "\n" (skipn d (snd g))))
    (map group others) acc
  = acc ++ others.
Proof.
  intros Hg Hn. rewrite <- (update_app_NoDup _ _ Hn).
  unfold PyDict.update. clear Hn. revert acc.
  induction others as [|kc others IH]; intros acc; [reflexivity|].
  simpl. destruct (Hg kc (or_introl eq_refl)) as [-> ->].
  apply IH. intros x Hx. apply Hg. right; assumption.
Qed.

(* ================================================================== *)
(** * The Markdown body *)
(* ================================================================== *)

Section MdLines.

Lemma md_heading_line (k : str) : _is_md_heading ("## " ++ k) = true.
Proof. reflexivity. Qed.

Lemma md_heading_name_ok (k : str) :
  md_name_ok k = true -> md_heading_name ("## " ++ k) = k.
Proof.
  unfold md_name_ok. rewrite !andb_true_iff, negb_true_iff, eqb_eq.
  intros [[Hs Hc] _]. unfold md_heading_name.
  rewrite (@split_match "## " ltac:(discriminate) ("## " ++ k) eq_refl).
  change (skipn (length ("## " : str)) ("## " ++ k)) with k.
  rewrite (split_absent _ _ Hc). exact Hs.
Qed.

Lemma split_ws_title (t : str) :
  PyStr.split_ws ("# " ++ t) = "#" :: PyStr.split_ws t.
Proof.
  unfold PyStr.split_ws. cbn [app PyStr.words_from].
  destruct (PyStr.words_from t) as [w ws].
  change (PyStr.isspace " ") with true. change (PyStr.isspace "#") with false.
  cbv iota. reflexivity.
Qed.

Lemma split_ws_all_space (t : str) :
  PyStr.lstrip t = [] -> PyStr.split_ws t = [].
Proof.
  unfold PyStr.split_ws.
  induction t as [|c t IH]; simpl; [reflexivity|].
  destruct (PyStr.isspace c) eqn:E; [|discriminate].
  intros H. specialize (IH H).
  destruct (PyStr.words_from t) as [w ws].
  destruct w; assumption.
Qed.

Lemma md_title_line (t : str) :
  md_title_ok t = true -> t <> [] ->
  PyStr.startswith (PyStr.strip ("# " ++ t)) "# " = true
  /\ PyStr.join " " (tl (PyStr.split_ws ("# " ++ t))) = t.
Proof.
  unfold md_title_ok. rewrite andb_true_iff, eqb_eq.
  intros [Hn _] Ht. split.
  - destruct (lstrip_cases t) as [E | [u [c [v [-> [_ Hc]]]]]].
    + rewrite (split_ws_all_space _ E) in Hn. simpl in Hn. congruence.
    + change ("# " ++ u ++ c :: v) with ("#"%char :: (" "%char :: u) ++ c :: v).
      rewrite strip_framed by (assumption || reflexivity).
      reflexivity.
  - rewrite split_ws_title. exact Hn.
Qed.

Lemma md_heading_not_title (k : str) :
  PyStr.startswith (PyStr.strip ("## " ++ k)) "# " = false.
Proof.
  unfold PyStr.strip.
  change (PyStr.lstrip ("## " ++ k)) with ("#"%char :: "#"%char :: " "%char :: k).
  rewrite !rstrip_cons by reflexivity. reflexivity.
Qed.

Lemma md_elem_lines (others : PyDict.dict str) :
  (forall k c, In (k, c) others -> plain_line k = true) ->
  concat (map lines_of
            (concat (map (fun kc => ["## " ++ fst kc; snd kc]) others)))
  = flat (map md_group others).
Proof.
  induction others as [|[k c] others IH]; intros H; [reflexivity|].
  cbn [map concat app fst snd]. unfold flat. cbn [map concat fst snd].
  fold (flat (map md_group others)).
  rewrite <- IH by (intros k' c' Hin; apply (H k' c'); right; assumption).
  rewrite lines_of_plain; [reflexivity|].
  change (plain_line ("## " ++ k)) with (plain_line k).
  apply (H k c). left; reflexivity.
Qed.

End MdLines.

Lemma body_sections (name_of : str -> str) (delta : nat) (t : str)
  (pre : list str) (gs : list (str * list str)) (pts : list Z) :
  1 <= delta ->
  (forall g, In g gs -> delta - 1 <= length (snd g)) ->
  pts = map Z.of_nat (starts (length pre) gs)
        ++ [Z.of_nat (length (pre ++ flat gs))] ->
  (hs <- notes_headings (pre ++ flat gs) pts ;;
   hs <- scan_headings name_of (Z.of_nat delta) (pre ++ flat gs) pts hs ;;
   Ok (t, hs))
  = Ok (t,
        fold_left
          (fun hs g =>
             PyDict.set hs (name_of (fst g))
               (PyStr.join "\n" (skipn (delta - 1) (snd g))))
          gs
          (match PyStr.join "\n" pre with
           | [] => []
           | n => PyDict.set [] "_notes" n
           end)).
Proof.
  intros Hd Hg Hp.
  pose proof (@sections_decode name_of delta Hd pre gs pts Hg Hp) as H.
  destruct (notes_headings (pre ++ flat gs) pts); simpl in *;
    [rewrite H; reflexivity | discriminate].
Qed.

Section CanonicalParts.
Variables is_heading name_ok : str -> bool.
Variable hs : PyDict.dict str.
Hypothesis Hc : headings_canonical is_heading name_ok hs.

(** The lines before the first heading *)
Let pre : list str := concat (map lines_of (map snd (notes_part hs))).

Lemma pre_no_heading (l : str) : In l pre -> is_heading l = false.
Proof.
  unfold pre, notes_part.
  destruct (PyDict.get hs "_notes") as [n|] eqn:G; [|contradiction].
  simpl. rewrite app_nil_r. intros Hl.
  apply (proj2 (hc_contents Hc "_notes" n (get_In _ _ G))). assumption.
Qed.

Lemma pre_notes :
  match PyStr.join "\n" pre with
  | [] => []
  | n => PyDict.set [] "_notes" n
  end = notes_part hs.
Proof.
  unfold pre, notes_part. pose proof (hc_notes_nonempty Hc) as Hn.
  destruct (PyDict.get hs "_notes") as [n|]; [|reflexivity].
  simpl. rewrite app_nil_r, join_lines_of.
  destruct n; [exfalso; apply Hn; reflexivity | reflexivity].
Qed.

Lemma canonical_keys : NoDup (PyDict.keys hs).
Proof. apply (NoDup_map_inv PyStr.lower). apply (hc_distinct Hc). Qed.

Lemma canonical_parts_NoDup :
  NoDup (PyDict.keys (notes_part hs ++ other_headings hs)).
Proof. rewrite <- (hc_notes_first Hc). apply canonical_keys. Qed.

Lemma other_In (k c : str) : In (k, c) (other_headings hs) -> In (k, c) hs.
Proof. unfold other_headings. intros H. apply filter_In in H. tauto. Qed.

Lemma content_lines (k c l : str) :
  In (k, c) (other_headings hs) -> In l (lines_of c) -> is_heading l = false.
Proof.
  intros Hin. apply (proj2 (hc_contents Hc k c (other_In _ _ Hin))).
Qed.

End CanonicalParts.

Lemma md_lines (z : Zettel) :
  md_canonical z ->
  concat (map lines_of (md_elems z))
  = match title z with [] => [] | t => ["# " ++ t] end
    ++ concat (map lines_of (map snd (notes_part (headings z))))
    ++ flat (map md_group (other_headings (headings z))).
Proof.
  intros [Hh Ht Hs]. unfold md_elems.
  rewrite !map_app, !concat_app. f_equal; [|f_equal].
  - destruct (title z) as [|c t] eqn:E; [reflexivity|].
    cbn [map concat]. rewrite app_nil_r. apply lines_of_plain.
    unfold md_title_ok in Ht. apply andb_true_iff in Ht. apply Ht.
  - apply md_elem_lines. intros k c Hin.
    pose proof (hc_names Hh k c Hin) as Hk. unfold md_name_ok in Hk.
    rewrite !andb_true_iff in Hk. apply Hk.
Qed.

Lemma md_pts (z : Zettel) :
  md_canonical z ->
  let pre := concat (map lines_of (map snd (notes_part (headings z)))) in
  let gs := map md_group (other_headings (headings z)) in
  map fst (filter (fun xy => _is_md_heading (snd xy)) (enumerate (pre ++ flat gs)))
  ++ [Z.of_nat (length (pre ++ flat gs))]
  = map Z.of_nat (starts (length pre) gs) ++ [Z.of_nat (length (pre ++ flat gs))].
Proof.
  intros [Hh Ht Hs] pre gs. f_equal.
  change (map fst (filter (fun xy => _is_md_heading (snd xy)) (enumerate (pre ++ flat gs))))
    with (heads_from _is_md_heading 0 (pre ++ flat gs)).
  rewrite heads_app, (heads_none _is_md_heading 0 pre).
  2:{ apply (pre_no_heading Hh). }
  simpl app. rewrite (@heads_flat _is_md_heading 0).
  - apply map_ext. intros n. rewrite Nat.add_0_r. reflexivity.
  - intros g Hg p. apply in_map_iff in Hg. destruct Hg as [[k c] [<- Hin]].
    unfold md_group. cbn [fst snd]. rewrite heads_cons, md_heading_line.
    rewrite heads_none.
    + rewrite Nat.add_0_r. reflexivity.
    + intros l Hl. apply (content_lines Hh k c l Hin Hl).
Qed.

Lemma md_sections (z : Zettel) (t : str) :
  md_canonical z ->
  let md := concat (map lines_of (map snd (notes_part (headings z))))
            ++ flat (map md_group (other_headings (headings z))) in
  (let heading_pts :=
     map fst (filter (fun xy => _is_md_heading (snd xy)) (enumerate md))
     ++ [Z.of_nat (length md)] in
   hs <- notes_headings md heading_pts ;;
   hs <- scan_headings md_heading_name 1 md heading_pts hs ;;
   Ok (t, hs))
  = Ok (t, headings z).
Proof.
  intros Hc md. pose proof Hc as [Hh Ht Hs]. cbv zeta.
  unfold md. rewrite (@md_pts z Hc).
  rewrite (@body_sections md_heading_name 1 t); [|lia|intros; simpl; lia|reflexivity].
  match goal with
  | |- context [fold_left _ _ ?acc] =>
      replace acc with (notes_part (headings z))
        by (symmetry; exact (@pre_notes _ _ _ Hh))
  end.
  rewrite (@store_groups md_heading_name 0 md_group).
  - rewrite <- (@hc_notes_first _ _ _ Hh). reflexivity.
  - intros [k c] Hin. cbn [md_group fst snd skipn]. split.
    + apply md_heading_name_ok. apply (@hc_names _ _ _ Hh k c Hin).
    + apply join_lines_of.
  - apply (@canonical_parts_NoDup _ _ _ Hh).
Qed.

Lemma md_body_canonical (z : Zettel) :
  md_canonical z ->
  md_body (concat (map lines_of (md_elems z))) = Ok (title z, headings z).
Proof.
  intros Hc. pose proof Hc as [Hh Ht Hs].
  rewrite (@md_lines z Hc). unfold md_body.
  destruct (title z) as [|c0 t0] eqn:Et.
  - cbn [app].
    set (md := concat _ ++ flat _).
    assert (F : match md with
                | l0 :: rest =>
                    PyStr.startswith (PyStr.strip l0) "# " = false
                | [] => True
                end).
    { unfold md, md_start_ok in *. rewrite Et in Hs.
      unfold notes_part.
      destruct (PyDict.get (headings z) "_notes") as [n|] eqn:G.
      - cbn [map concat snd]. rewrite app_nil_r.
        apply andb_true_iff in Hs. destruct Hs as [_ Hs].
        apply negb_true_iff in Hs.
        destruct (lines_of n) as [|l0 ls] eqn:El;
          [exfalso; exact (lines_of_nonempty _ El)|].
        exact Hs.
      - cbn [map concat app].
        destruct (other_headings (headings z)) as [|[k c] os]; [exact I|].
        apply md_heading_not_title. }
    destruct md as [|l0 rest] eqn:Em.
    + rewrite <- Em. unfold md. apply (@md_sections z [] Hc).
    + rewrite F. rewrite <- Em. unfold md. apply (@md_sections z [] Hc).
  - cbn [app].
    destruct (@md_title_line _ Ht) as [H1 H2]; [discriminate|].
    cbn [app] in H1, H2. rewrite H1, H2.
    apply (@md_sections z (c0 :: t0) Hc).
Qed.

Lemma md_elems_plain (z : Zettel) (e : str) :
  md_canonical z -> In e (md_elems z) -> plain_text e = true.
Proof.
  intros [Hh Ht Hs]. unfold md_elems. rewrite !in_app_iff.
  intros [H | [H | H]].
  - destruct (title z) as [|c t] eqn:Et; [contradiction|].
    destruct H as [<- | []].
    apply plain_line_text.
    unfold md_title_ok in Ht. apply andb_true_iff in Ht.
    exact (proj2 Ht).
  - unfold notes_part in H.
    destruct (PyDict.get (headings z) "_notes") as [n|] eqn:G;
      [|contradiction].
    destruct H as [<- | []].
    apply (proj1 (@hc_contents _ _ _ Hh "_notes" n (@get_In _ _ _ _ G))).
  - apply in_concat in H. destruct H as [l [Hl He]].
    apply in_map_iff in Hl. destruct Hl as [[k c] [<- Hin]].
    destruct He as [<- | [<- | []]].
    + apply plain_line_text.
      pose proof (@hc_names _ _ _ Hh k c Hin) as Hk. unfold md_name_ok in Hk.
      rewrite !andb_true_iff in Hk. apply Hk.
    + apply (proj1 (@hc_contents _ _ _ Hh k c (@other_In _ k c Hin))).
Qed.

Lemma md_elems_start (z : Zettel) :
  md_canonical z ->
  match md_elems z with
  | e :: _ => starts_nonspace e = true
  | [] => True
  end.
Proof.
  intros [Hh Ht Hs]. unfold md_elems, md_start_ok, notes_part in *.
  destruct (title z) as [|c t]; [|reflexivity].
  destruct (PyDict.get (headings z) "_notes") as [n|].
  - apply andb_true_iff in Hs. exact (proj1 Hs).
  - cbn [map app].
    destruct (other_headings (headings z)) as [|[k c] os]; [exact I|].
    reflexivity.
Qed.

(* ================================================================== *)
(** * The attribute block, written and read back *)
(* ================================================================== *)

Lemma mapM_map {A B} (f : A -> result B) (g : A -> B) (l : list A) :
  (forall x, In x l -> f x = Ok (g x)) -> mapM f l = Ok (map g l).
Proof.
  induction l as [|x l IH]; intros H; simpl; [reflexivity|].
  rewrite (H x (or_introl eq_refl)). simpl.
  rewrite IH by (intros y Hy; apply H; right; assumption). reflexivity.
Qed.

Section AttributeBlock.
Context {svc : Services}.

(** What [toYamlDict] makes of one stored value. *)
Lemma yaml_value_inv (a : Attributes) (k : str) (v : PyValue) :
  attrs_inv a -> In (k, v) a ->
  yaml_value k v = Ok (yaml_view k v).
Proof.
  intros [_ Hd] Hin. unfold yaml_value, yaml_view.
  destruct (truthy v && is_date_key k) eqn:E.
  - apply andb_true_iff in E. destruct E as [Ht Hk].
    destruct (Hd k v Hin Ht Hk) as [d ->]. rewrite Hk.
    destruct d; reflexivity.
  - destruct v; try reflexivity.
    simpl in E. rewrite E. reflexivity.
Qed.

Lemma toYamlDict_view (a : Attributes) :
  attrs_inv a ->
  Attributes_toYamlDict a
  = Ok (map (fun kv => (fst kv, yaml_view (fst kv) (snd kv))) a).
Proof.
  intros Ha. unfold Attributes_toYamlDict.
  rewrite (@update_nil_NoDup _ a (proj1 Ha)).
  apply mapM_map. intros [k v] Hin. simpl.
  rewrite (@yaml_value_inv a k v Ha Hin). reflexivity.
Qed.

Lemma get_Permutation {V} (d d' : PyDict.dict V) (k : str) :
  NoDup (PyDict.keys d) -> Permutation d d' ->
  PyDict.get d' k = PyDict.get d k.
Proof.
  intros Hn Hp.
  assert (Hk : Permutation (PyDict.keys d) (PyDict.keys d'))
    by (apply Permutation_map; exact Hp).
  assert (Hn' : NoDup (PyDict.keys d'))
    by (apply (Permutation_NoDup Hk); exact Hn).
  destruct (PyDict.get d k) as [v|] eqn:E.
  - apply (@In_get V d' k v Hn').
    apply (Permutation_in _ Hp). apply get_In. exact E.
  - apply get_None. apply get_None in E. intros H. apply E.
    apply (Permutation_in _ (Permutation_sym Hk)). exact H.
Qed.

Lemma keys_yaml_mapping (a : Attributes) :
  PyDict.keys (yaml_mapping a) = PyDict.keys a.
Proof.
  unfold PyDict.keys, yaml_mapping. rewrite map_map. reflexivity.
Qed.

(** [__setitem__] on what [toYamlDict] wrote for a stored value gives
    the stored value back: the text of a date is read as the date, a
    false value and a value under another key are stored as they are. *)
Lemma setitem_view (a acc : Attributes) (k : str) (v : PyValue) :
  attrs_inv a -> In (k, v) a ->
  (forall d, v = VDate d -> is_date_key k = true ->
             date_text d <> "" /\ SuperDate (VStr (date_text d)) = Ok d) ->
  Attributes_setitem acc k (yaml_view k v) = Ok (PyDict.set acc k v).
Proof.
  intros [_ Hd] Hin Hdate.
  assert (P : (forall d, v <> VDate d) ->
              truthy v && is_date_key k = false).
  { intros Hv. destruct (truthy v) eqn:Ht; [|reflexivity].
    destruct (is_date_key k) eqn:Hk; [|reflexivity].
    destruct (Hd k v Hin Ht Hk) as [d E]. exfalso. exact (Hv d E). }
  destruct v as [| | | |d| | |];
    try (cbn [yaml_view]; apply setitem_plain; apply P; intros d;
         discriminate).
  unfold yaml_view. destruct (is_date_key k) eqn:Hk.
  - destruct (Hdate d eq_refl eq_refl) as [Hne Hsd].
    rewrite setitem_date; [rewrite Hsd; reflexivity | | exact Hk].
    destruct (date_text d); [exfalso; apply Hne; reflexivity | reflexivity].
  - apply setitem_plain. rewrite Hk. apply andb_false_r.
Qed.

Lemma read_back_entries (a items acc : Attributes) :
  attrs_inv a ->
  (forall kv, In kv items -> In kv a) ->
  (forall k d, In (k, VDate d) a -> is_date_key k = true ->
               date_text d <> "" /\ SuperDate (VStr (date_text d)) = Ok d) ->
  foldM (fun a0 kv => Attributes_setitem a0 (fst kv) (snd kv))
        (yaml_mapping items) acc
  = Ok (PyDict.update acc items).
Proof.
  intros Hinv Hsub Hdates. revert acc.
  induction items as [|[k v] items IH]; intros acc; [reflexivity|].
  cbn [yaml_mapping map foldM fst snd].
  rewrite (@setitem_view a acc k v Hinv (Hsub _ (or_introl eq_refl))).
  - cbn [bind]. apply IH. intros kv H. apply Hsub. right. exact H.
  - intros d -> Hk. apply (Hdates k d); [|exact Hk].
    apply Hsub. left. reflexivity.
Qed.

(** The attribute block of a Zettel with readable attributes: the encoder
    writes it, the decoder loads it, and [Zettel.__init__] makes of what
    was loaded an attribute map equal to the one that was written. *)
Lemma attributes_read_back (marker : str) (lead : list str) (z : Zettel) :
  attributes_readable marker lead z ->
  exists (a_lines : list str) (v : PyValue) (a : Attributes),
    attribute_lines z = Ok a_lines
    /\ PyStr.contains (attribute_tail lead a_lines) marker = false
    /\ yaml_safe_load (PyStr.strip (attribute_tail lead a_lines)) = Ok v
    /\ init_attrs v = Ok a
    /\ PyDict.equiv a (attrs z).
Proof.
  intros (Hinv & Hcd & Hzl & Hm & (d & Hload & Hperm) & Hdates).
  unfold yaml_mapping in Hperm.
  destruct (Permutation_map_inv _ _ Hperm) as [a' [Ed Hp]].
  fold (yaml_mapping a') in Ed.
  assert (Hn' : NoDup (PyDict.keys a')).
  { apply (@Permutation_NoDup _ (PyDict.keys (attrs z))).
    - apply Permutation_map. exact Hp.
    - exact (proj1 Hinv). }
  assert (Hget : forall k, PyDict.get a' k = PyDict.get (attrs z) k).
  { intros k. apply get_Permutation; [exact (proj1 Hinv) | exact Hp]. }
  exists (attribute_block (attrs z)), (VDict d), a'.
  split.
  { unfold attribute_lines, Attributes_str.
    rewrite (@toYamlDict_view (attrs z) Hinv). reflexivity. }
  split; [exact Hm|]. split; [exact Hload|]. split; [|exact Hget].
  assert (T : truthy (VDict d) = true).
  { subst d. destruct a' as [|x r]; [|reflexivity].
    apply Permutation_sym, Permutation_nil in Hp.
    rewrite Hp in Hcd. discriminate Hcd. }
  unfold init_attrs. cbv zeta. rewrite T.
  unfold Attributes_update. cbn [py_dict bind].
  unfold PyDict.of_items.
  rewrite update_nil_NoDup
    by (subst d; rewrite keys_yaml_mapping; exact Hn').
  subst d.
  rewrite (@read_back_entries (attrs z) a' [] Hinv).
  - cbn [bind]. rewrite (@update_nil_NoDup _ a' Hn').
    unfold PyDict.has in *.
    rewrite (Hget "creation_date").
    destruct (PyDict.get (attrs z) "creation_date"); [|discriminate Hcd].
    cbn [bind]. rewrite (Hget "zlinks").
    destruct (PyDict.get (attrs z) "zlinks"); [|discriminate Hzl].
    reflexivity.
  - intros kv H. apply (Permutation_in _ (Permutation_sym Hp)). exact H.
  - exact Hdates.
Qed.
End AttributeBlock.

Section MdRoundTrip.
Context {svc : Services}.

Lemma md_round_trip (z : Zettel) :
  md_canonical z ->
  attributes_readable "<!--- attributes --->" [] z ->
  exists t,
    getMd z None = Ok t
    /\ (input_text t = Ok t ->
        exists z', createFromMd t = Ok z' /\ same_zettel z z').
Proof.
  intros Hc Hr.
  destruct (@attributes_read_back svc _ _ z Hr)
    as (a_lines & v & a & Ha & Hcont & Hload & Hinit & Heq).
  pose proof Hc as [Hh Ht Hs].
  eexists. split; [apply (@getMd_canonical svc _ _ z Hh a_lines Ha)|].
  intros Hin. unfold createFromMd. rewrite Hin. cbn [bind]. cbv zeta.
  rewrite md_text_shape.
  rewrite (@decode_text svc md_body "<!--- attributes --->"
             "<!--- attributes ---" ">" eq_refl eq_refl eq_refl).
  - unfold decode_parts. rewrite Hload. cbn [bind].
    rewrite splitlines_concat
      by (intros e He; apply (@md_elems_plain z e Hc He)).
    rewrite (@md_body_canonical z Hc). cbn [bind fst snd].
    unfold Zettel_init. rewrite Hinit. cbn [bind].
    eexists. split; [reflexivity|].
    split; [reflexivity|]. split; [|exact Heq].
    cbn [headings]. unfold PyDict.of_items.
    apply update_nil_NoDup. apply (@canonical_keys _ _ _ Hh).
  - apply starts_nonspace_elems; [reflexivity | apply (@md_elems_start z Hc)].
  - exact Hcont.
Qed.

End MdRoundTrip.

(* ================================================================== *)
(** * The RST body *)
(* ================================================================== *)

Section RstLines.

Lemma rev_times (c : ascii) (n : nat) :
  rev (PyStr.times c n) = PyStr.times c n.
Proof.
  unfold PyStr.times. induction n as [|n IH]; [reflexivity|].
  simpl. rewrite IH. clear IH.
  induction n as [|n IH]; [reflexivity|]. simpl. rewrite IH. reflexivity.
Qed.

Lemma rule_heading (n : nat) :
  _is_rst_heading (PyStr.times "=" (S n)) = true.
Proof.
  unfold _is_rst_heading, PyStr.strip, PyStr.endswith.
  assert (L : PyStr.lstrip (PyStr.times "=" (S n)) = PyStr.times "=" (S n))
    by reflexivity.
  assert (R : PyStr.rstrip (PyStr.times "=" (S n)) = PyStr.times "=" (S n)).
  { unfold PyStr.rstrip. rewrite rev_times, L, rev_times. reflexivity. }
  rewrite L, R, rev_times. reflexivity.
Qed.

Lemma rule_plain (n : nat) : plain_line (PyStr.times "=" n) = true.
Proof.
  unfold plain_line, PyStr.times.
  induction n as [|n IH]; [reflexivity|]. simpl. exact IH.
Qed.

Lemma rst_name_parts (k : str) :
  rst_name_ok k = true ->
  k <> [] /\ plain_line k = true /\ _is_rst_heading k = false.
Proof.
  unfold rst_name_ok. rewrite !andb_true_iff, !negb_true_iff.
  intros [[H1 H2] H3]. apply eqb_neq in H1. auto.
Qed.

Lemma name_rule_heading (k : str) :
  k <> [] -> _is_rst_heading (PyStr.times "=" (length k)) = true.
Proof.
  destruct k as [|c k]; [congruence|]. intros _. apply rule_heading.
Qed.

Lemma rst_elem_lines (others : PyDict.dict str) :
  (forall k c, In (k, c) others -> plain_line k = true) ->
  concat (map lines_of
            (concat (map (fun kc =>
                            [fst kc; PyStr.times "=" (length (fst kc));
                             snd kc]) others)))
  = flat (map rst_group others).
Proof.
  induction others as [|[k c] others IH]; intros H; [reflexivity|].
  cbn [map concat app fst snd]. unfold flat. cbn [map concat fst snd].
  fold (flat (map rst_group others)).
  rewrite <- IH by (intros k' c' Hin; apply (H k' c'); right; assumption).
  rewrite (lines_of_plain k) by (apply (H k c); left; reflexivity).
  rewrite (lines_of_plain (PyStr.times "=" (length k))) by apply rule_plain.
  reflexivity.
Qed.

Lemma strip_title (t : str) : PyStr.strip (" " ++ t) = PyStr.strip t.
Proof. reflexivity. Qed.

End RstLines.

Lemma rst_lines (z : Zettel) :
  rst_canonical z ->
  concat (map lines_of (rst_elems z))
  = match title z with
    | [] => []
    | t => let rule := PyStr.times "=" (length t + 2) in
           [rule; " " ++ t; rule]
    end
    ++ concat (map lines_of (map snd (notes_part (headings z))))
    ++ flat (map rst_group (other_headings (headings z))).
Proof.
  intros [Hh Ht Hs]. unfold rst_elems.
  rewrite !map_app, !concat_app. f_equal; [|f_equal].
  - destruct (title z) as [|c t] eqn:E; [reflexivity|].
    cbv zeta. cbn [map concat]. rewrite app_nil_r.
    unfold rst_title_ok in Ht. apply andb_true_iff in Ht.
    rewrite !(lines_of_plain (PyStr.times "=" _)) by apply rule_plain.
    rewrite lines_of_plain; [reflexivity|]. exact (proj2 Ht).
  - apply rst_elem_lines. intros k c Hin.
    apply (@rst_name_parts k (@hc_names _ _ _ Hh k c Hin)).
Qed.

Lemma rst_pts (z : Zettel) :
  rst_canonical z ->
  let pre := concat (map lines_of (map snd (notes_part (headings z)))) in
  let gs := map rst_group (other_headings (headings z)) in
  map (fun xy => (fst xy - 1)%Z)
      (filter (fun xy => _is_rst_heading (snd xy)) (enumerate (pre ++ flat gs)))
  ++ [Z.of_nat (length (pre ++ flat gs))]
  = map Z.of_nat (starts (length pre) gs) ++ [Z.of_nat (length (pre ++ flat gs))].
Proof.
  intros [Hh Ht Hs] pre gs. f_equal.
  rewrite <- (map_map fst (fun x => (x - 1)%Z)).
  change (map fst (filter (fun xy => _is_rst_heading (snd xy)) (enumerate (pre ++ flat gs))))
    with (heads_from _is_rst_heading 0 (pre ++ flat gs)).
  rewrite heads_app, (heads_none _is_rst_heading 0 pre).
  2:{ apply (@pre_no_heading _ _ _ Hh). }
  simpl app. rewrite (@heads_flat _is_rst_heading 1).
  - rewrite map_map. apply map_ext. intros n. lia.
  - intros g Hg p. apply in_map_iff in Hg. destruct Hg as [[k c] [<- Hin]].
    destruct (@rst_name_parts k (@hc_names _ _ _ Hh k c Hin)) as [Hk [_ Hn]].
    unfold rst_group. cbn [fst snd].
    rewrite !heads_cons, Hn, (@name_rule_heading k Hk).
    rewrite heads_none.
    + simpl. f_equal. f_equal. lia.
    + intros l Hl. apply (@content_lines _ _ _ Hh k c l Hin Hl).
Qed.

Lemma rst_sections (z : Zettel) (t : str) :
  rst_canonical z ->
  let rst := concat (map lines_of (map snd (notes_part (headings z))))
             ++ flat (map rst_group (other_headings (headings z))) in
  (let heading_pts :=
     map (fun xy => (fst xy - 1)%Z)
         (filter (fun xy => _is_rst_heading (snd xy)) (enumerate rst))
     ++ [Z.of_nat (length rst)] in
   hs <- notes_headings rst heading_pts ;;
   hs <- scan_headings (fun line => line) 2 rst heading_pts hs ;;
   Ok (t, hs))
  = Ok (t, headings z).
Proof.
  intros Hc rst. pose proof Hc as [Hh Ht Hs]. cbv zeta.
  unfold rst. rewrite (@rst_pts z Hc).
  rewrite (@body_sections (fun line => line) 2 t);
    [|lia| |reflexivity].
  2:{ intros g Hg. apply in_map_iff in Hg. destruct Hg as [kc [<- _]].
      simpl. lia. }
  match goal with
  | |- context [fold_left _ _ ?acc] =>
      replace acc with (notes_part (headings z))
        by (symmetry; exact (@pre_notes _ _ _ Hh))
  end.
  rewrite (@store_groups (fun line => line) 1 rst_group).
  - rewrite <- (@hc_notes_first _ _ _ Hh). reflexivity.
  - intros [k c] Hin. cbn [rst_group fst snd skipn]. split.
    + reflexivity.
    + apply join_lines_of.
  - apply (@canonical_parts_NoDup _ _ _ Hh).
Qed.

Lemma rst_first_line (z : Zettel) :
  rst_canonical z ->
  match concat (map lines_of (map snd (notes_part (headings z))))
        ++ flat (map rst_group (other_headings (headings z))) with
  | l0 :: _ => _is_rst_heading l0 = false
  | [] => True
  end.
Proof.
  intros [Hh Ht Hs].
  pose proof (@pre_no_heading _ _ _ Hh) as Hp.
  destruct (concat (map lines_of (map snd (notes_part (headings z)))))
    as [|l0 pre].
  - cbn [app].
    destruct (other_headings (headings z)) as [|[k c] os] eqn:E; [exact I|].
    cbn [map flat concat fst snd rst_group app].
    apply (@rst_name_parts k). apply (@hc_names _ _ _ Hh k c).
    rewrite E. left; reflexivity.
  - cbn [app]. apply Hp. left; reflexivity.
Qed.

Lemma rst_body_canonical (z : Zettel) :
  rst_canonical z ->
  rst_body (concat (map lines_of (rst_elems z))) = Ok (title z, headings z).
Proof.
  intros Hc. pose proof Hc as [Hh Ht Hs].
  rewrite (@rst_lines z Hc). unfold rst_body.
  pose proof (@rst_first_line z Hc) as F.
  destruct (title z) as [|c0 t0] eqn:Et.
  - cbn [app].
    set (rst := concat _ ++ flat _) in *.
    destruct rst as [|l0 [|l1 [|l2 rest]]] eqn:Em;
      try (rewrite <- Em; unfold rst; apply (@rst_sections z [] Hc)).
    rewrite F. cbn [andb]. rewrite <- Em. unfold rst.
    apply (@rst_sections z [] Hc).
  - cbv zeta. cbn [app].
    replace (length (c0 :: t0) + 2) with (S (S (length (c0 :: t0)))) by lia.
    rewrite rule_heading. cbn [andb].
    unfold rst_title_ok in Ht. apply andb_true_iff in Ht.
    destruct Ht as [Ht _]. apply eqb_eq in Ht.
    change (PyStr.strip (" "%char :: c0 :: t0)) with (PyStr.strip (c0 :: t0)).
    rewrite Ht.
    apply (@rst_sections z (c0 :: t0) Hc).
Qed.

Lemma rst_elems_plain (z : Zettel) (e : str) :
  rst_canonical z -> In e (rst_elems z) -> plain_text e = true.
Proof.
  intros [Hh Ht Hs]. unfold rst_elems. rewrite !in_app_iff.
  unfold rst_title_ok in Ht. apply andb_true_iff in Ht.
  intros [H | [H | H]].
  - destruct (title z) as [|c t] eqn:Et; [contradiction|].
    cbv zeta in H.
    destruct H as [<- | [<- | [<- | []]]]; apply plain_line_text;
      try apply rule_plain.
    exact (proj2 Ht).
  - unfold notes_part in H.
    destruct (PyDict.get (headings z) "_notes") as [n|] eqn:G;
      [|contradiction].
    destruct H as [<- | []].
    apply (proj1 (@hc_contents _ _ _ Hh "_notes" n (@get_In _ _ _ _ G))).
  - apply in_concat in H. destruct H as [l [Hl He]].
    apply in_map_iff in Hl. destruct Hl as [[k c] [<- Hin]].
    destruct He as [<- | [<- | [<- | []]]].
    + apply plain_line_text.
      apply (@rst_name_parts k (@hc_names _ _ _ Hh k c Hin)).
    + apply plain_line_text, rule_plain.
    + apply (proj1 (@hc_contents _ _ _ Hh k c (@other_In _ k c Hin))).
Qed.

Lemma rst_elems_start (z : Zettel) :
  rst_canonical z ->
  match rst_elems z with
  | e :: _ => starts_nonspace e = true
  | [] => True
  end.
Proof.
  intros [Hh Ht Hs]. unfold rst_elems, rst_start_ok in *.
  destruct (title z) as [|c t].
  - cbn [app]. pose proof (@hc_notes_first _ _ _ Hh) as Hf.
    unfold notes_part in *.
    destruct (PyDict.get (headings z) "_notes") as [n|] eqn:G.
    + cbn [map snd app]. rewrite Hf in Hs. cbn [app] in Hs.
      exact Hs.
    + cbn [map app] in *. rewrite Hf in Hs.
      destruct (other_headings (headings z)) as [|[k c] os] eqn:E;
        [exact I|].
      cbn [map concat app fst snd].
      destruct (PyStr.eqb k "_notes") eqn:Ek; [|exact Hs].
      exfalso. apply eqb_eq in Ek. subst k.
      assert (Hin : In ("_notes", c) (headings z))
        by (rewrite Hf; left; reflexivity).
      apply (@In_get _ _ _ _ (@canonical_keys _ _ _ Hh)) in Hin.
      congruence.
  - cbv zeta. cbn [app].
    replace (length (c :: t) + 2) with (S (S (length (c :: t)))) by lia.
    reflexivity.
Qed.

Section RstRoundTrip.
Context {svc : Services}.

Lemma rst_round_trip (z : Zettel) :
  rst_canonical z ->
  attributes_readable ".. attributes\n::" [""] z ->
  exists t,
    getRst z None = Ok t
    /\ (input_text t = Ok t ->
        exists z', createFromRst t = Ok z' /\ same_zettel z z').
Proof.
  intros Hc Hr.
  destruct (@attributes_read_back svc _ _ z Hr)
    as (a_lines & v & a & Ha & Hcont & Hload & Hinit & Heq).
  pose proof Hc as [Hh Ht Hs].
  eexists. split; [apply (@getRst_canonical svc _ _ z Hh a_lines Ha)|].
  intros Hin. unfold createFromRst. rewrite Hin. cbn [bind]. cbv zeta.
  rewrite rst_text_shape.
  rewrite (@decode_text svc rst_body ".. attributes\n::"
             ".. attributes\n:" ":" eq_refl eq_refl eq_refl).
  - unfold decode_parts. rewrite Hload. cbn [bind].
    rewrite splitlines_concat
      by (intros e He; apply (@rst_elems_plain z e Hc He)).
    rewrite (@rst_body_canonical z Hc). cbn [bind fst snd].
    unfold Zettel_init. rewrite Hinit. cbn [bind].
    eexists. split; [reflexivity|].
    split; [reflexivity|]. split; [|exact Heq].
    cbn [headings]. unfold PyDict.of_items.
    apply update_nil_NoDup. apply (@canonical_keys _ _ _ Hh).
  - apply starts_nonspace_elems; [reflexivity | apply (@rst_elems_start z Hc)].
  - exact Hcont.
Qed.

End RstRoundTrip.

(* ================================================================== *)
(** * The round trip *)
(* ================================================================== *)

(** C1, as the code has it.  Decoding the encoding gives the Zettel back
    (same title, same heading map in the same order, equal attribute
    maps) in either dialect, for a Zettel in the canonical form of the
    dialect with readable attributes, provided the encoded text is taken
    as text (it names no file).  Readable attributes: the attribute map
    has the invariant of [Attributes.__setitem__] and holds
    [creation_date] and [zlinks]; the structured-data service loads the
    block it dumped, indented, as a mapping with the same entries; the
    date service reads the text of every stored date as that date; the
    block does not contain the attribute marker. *)
Theorem C1_round_trip_canonical :
  forall (svc : Services) (z : Zettel),
    (md_canonical z ->
     attributes_readable "<!--- attributes --->" [] z ->
     exists t,
       getMd z None = Ok t
       /\ (input_text t = Ok t ->
           exists z', createFromMd t = Ok z' /\ same_zettel z z'))
    /\ (rst_canonical z ->
        attributes_readable ".. attributes\n::" [""] z ->
        exists t,
          getRst z None = Ok t
          /\ (input_text t = Ok t ->
              exists z', createFromRst t = Ok z' /\ same_zettel z z')).
Proof.
  intros svc z. split.
  - apply md_round_trip.
  - apply rst_round_trip.
Qed.

Ltac in_cases H :=
  simpl in H;
  repeat (destruct H as [H | H];
          [first [injection H as <- <- | subst] |]);
  try contradiction.

Ltac headings_canonical_by_cases :=
  constructor;
  [ vm_compute; repeat (constructor; [simpl; intuition discriminate|]);
    constructor
  | let k := fresh "k" in let H := fresh "H" in let E := fresh "E" in
    intros k H E; in_cases H; solve [reflexivity | discriminate E]
  | reflexivity
  | discriminate
  | let k := fresh "k" in let c := fresh "c" in let H := fresh "H" in
    intros k c H; vm_compute in H; in_cases H; reflexivity
  | let k := fresh "k" in let c := fresh "c" in let H := fresh "H" in
    let l := fresh "l" in let Hl := fresh "Hl" in
    intros k c H; in_cases H;
    (split; [reflexivity | intros l Hl; vm_compute in Hl; in_cases Hl;
                           reflexivity]) ].

Ltac dates_by_cases :=
  let k := fresh "k" in let d := fresh "d" in let H := fresh "H" in
  let Hk := fresh "Hk" in let E := fresh "E" in
  intros k d H Hk; simpl in H;
  repeat (destruct H as [H | H];
          [ try discriminate H; injection H as <- <-;
            (split; [intros E; vm_compute in E; discriminate E
                    | vm_compute; reflexivity])
          | ]);
  contradiction.

Ltac attributes_readable_by_cases :=
  split; [attrs_inv_by_cases|];
  split; [reflexivity|]; split; [reflexivity|];
  split; [vm_compute; reflexivity|];
  split;
  [ eexists; split; [vm_compute; reflexivity
                    | vm_compute; apply Permutation_refl]
  | dates_by_cases ].

Lemma C1_round_trip_canonical_witness :
  let z :=
    {| title := "My Title";
       headings := [("_notes", "line1\n\nline2\n"); ("Head A", "a\nb");
                    ("B", "")];
       attrs := [("creation_date", VDate (Date 2026 11 4));
                 ("greeting", VStr "hello"); ("zlinks", VDict [])] |} in
  md_canonical z /\ rst_canonical z
  /\ (exists t z',
        @getMd Ref.services z None = Ok t
        /\ @createFromMd Ref.services t = Ok z' /\ same_zettel z z')
  /\ (exists t z',
        @getRst Ref.services z None = Ok t
        /\ @createFromRst Ref.services t = Ok z' /\ same_zettel z z').
Proof.
  intros z.
  assert (M : md_canonical z).
  { constructor; [headings_canonical_by_cases | reflexivity | reflexivity]. }
  assert (R : rst_canonical z).
  { constructor; [headings_canonical_by_cases | reflexivity | reflexivity]. }
  destruct (@C1_round_trip_canonical Ref.services z) as [Hmd Hrst].
  split; [exact M|]. split; [exact R|]. split.
  - destruct (Hmd M) as [t [Ht Hd]].
    + attributes_readable_by_cases.
    + destruct (Hd eq_refl) as [z' [Hz' Hs]].
      exists t, z'. auto.
  - destruct (Hrst R) as [t [Ht Hd]].
    + attributes_readable_by_cases.
    + destruct (Hd eq_refl) as [z' [Hz' Hs]].
      exists t, z'. auto.
Defined.

(** C1 as stated fails: a title with two spaces in a row comes back from
    the Markdown round trip with one. *)
Lemma C1_counterexample :
  let z :=
    {| title := "a  b"; headings := [];
       attrs := [("creation_date", VDate (Date 2026 11 4));
                 ("zlinks", VDict [])] |} in
  @getMd Ref.services z None
  = Ok "# a  b\n<!--- attributes --->\n    ---\n    creation_date: 2026-11-04, Wed\n    zlinks: {}\n"
  /\ @createFromMd Ref.services
       "# a  b\n<!--- attributes --->\n    ---\n    creation_date: 2026-11-04, Wed\n    zlinks: {}\n"
     = Ok {| title := "a b"; headings := [];
             attrs := [("creation_date", VDate (Date 2026 11 4));
                       ("zlinks", VDict [])] |}
  /\ title z <> "a b".
Proof. vm_compute. repeat split. discriminate. Qed.

(* ================================================================== *)
(** * Further properties of the attribute map *)
(* ================================================================== *)

Section AttributeFacts.
Context {svc : Services}.

Lemma In_set {V} (d : PyDict.dict V) (k : str) (v : V) (k0 : str) (v0 : V) :
  In (k0, v0) (PyDict.set d k v) -> (k0, v0) = (k, v) \/ In (k0, v0) d.
Proof.
  induction d as [|[k' v'] d IH]; simpl.
  - intros [H | []]; left; symmetry; assumption.
  - destruct (PyStr.eqb k k'); simpl.
    + intros [H | H]; [left; symmetry; assumption | right; right; assumption].
    + intros [H | H]; [right; left; assumption|].
      destruct (IH H) as [E | E]; [left | right; right]; assumption.
Qed.

Lemma setitem_stores (a a' : Attributes) (k : str) (v : PyValue) :
  Attributes_setitem a k v = Ok a' ->
  exists v', a' = PyDict.set a k v'
    /\ ((truthy v && is_date_key k = false /\ v' = v)
        \/ (truthy v = true /\ is_date_key k = true
            /\ exists d, SuperDate v = Ok d /\ v' = VDate d)).
Proof.
  unfold Attributes_setitem.
  destruct (truthy v && is_date_key k) eqn:E.
  - destruct (SuperDate v) as [d|e] eqn:S; simpl; [|discriminate].
    intros H; inversion H; subst. exists (VDate d). split; [reflexivity|].
    right. apply andb_true_iff in E. destruct E. eauto.
  - simpl. intros H; inversion H; subst. exists v. auto.
Qed.

Lemma setitem_keeps_inv (a a' : Attributes) (k : str) (v : PyValue) :
  attrs_inv a -> Attributes_setitem a k v = Ok a' -> attrs_inv a'.
Proof.
  intros [Hn Hd] H. apply setitem_stores in H.
  destruct H as [v' [-> Hv]]. split.
  - apply NoDup_keys_set; assumption.
  - intros k0 v0 Hin Ht Hk. apply In_set in Hin.
    destruct Hin as [E | Hin]; [|eapply Hd; eassumption].
    inversion E; subst k0 v0.
    destruct Hv as [[F ->] | [_ [_ [d [_ ->]]]]]; [|eauto].
    rewrite Ht, Hk in F. discriminate.
Qed.

Lemma foldM_invariant {A S} (P : S -> Prop) (f : S -> A -> result S) :
  (forall s x s', P s -> f s x = Ok s' -> P s') ->
  forall l s s', P s -> foldM f l s = Ok s' -> P s'.
Proof.
  intros Hf. induction l as [|x l IH]; intros s s' Hs; simpl.
  - intros H; inversion H; subst; assumption.
  - destruct (f s x) as [s1|] eqn:E; simpl; [|discriminate].
    apply IH. eapply Hf; eassumption.
Qed.

Lemma update_keeps_inv (self a : Attributes) (arg : PyValue) :
  attrs_inv self -> Attributes_update self arg = Ok a -> attrs_inv a.
Proof.
  intros Hs. unfold Attributes_update.
  destruct (py_dict arg) as [d|]; simpl; [|discriminate].
  apply (@foldM_invariant _ _ attrs_inv); [|assumption].
  intros s [k v] s' H1 H2. eapply setitem_keeps_inv; eassumption.
Qed.

Lemma attrs_inv_nil : attrs_inv [].
Proof. split; [constructor | intros k v []]. Qed.

End AttributeFacts.

Lemma set_get_id {V} (d : PyDict.dict V) (k : str) (v : V) :
  PyDict.get d k = Some v -> PyDict.set d k v = d.
Proof.
  induction d as [|[k' v'] d IH]; simpl; [discriminate|].
  destruct (PyStr.eqb k k') eqn:E.
  - apply eqb_eq in E; subst. intros H; inversion H; reflexivity.
  - intros H. rewrite IH by assumption. reflexivity.
Qed.

(** X1.  Assigning through [Attributes.__setitem__] and reading back
    through [Attributes.__getitem__]: every other key reads as before;
    the assigned key is stored, and reads as the assigned value or as the
    [SuperDate] the date service made of it; a key that was stored keeps
    its place in the order of the keys, a new key goes last. *)
Theorem setitem_then_getitem :
  forall (svc : Services) (a a' : Attributes) (k : str) (v : PyValue),
    Attributes_setitem a k v = Ok a' ->
    (forall k', k' <> k -> Attributes_getitem a' k' = Attributes_getitem a k')
    /\ (Attributes_getitem a' k = v
        \/ exists d, SuperDate v = Ok d /\ Attributes_getitem a' k = VDate d)
    /\ PyDict.has a' k = true
    /\ PyDict.keys a' =
       (if PyDict.has a k then PyDict.keys a else PyDict.keys a ++ [k]).
Proof.
  intros svc a a' k v H. apply setitem_stores in H.
  destruct H as [v' [-> Hv]]. unfold Attributes_getitem.
  split; [|split; [|split]].
  - intros k' Hk. rewrite get_set_other by assumption. reflexivity.
  - rewrite get_set_same.
    destruct Hv as [[_ ->] | [_ [_ [d [Hd ->]]]]]; [left | right]; eauto.
  - unfold PyDict.has. rewrite get_set_same. reflexivity.
  - apply keys_set.
Qed.

Lemma setitem_then_getitem_witness :
  @Attributes_getitem
     [("greeting", VStr "hello"); ("due_date", VDate (Date 2026 11 4))]
     "greeting" = VStr "hello"
  /\ PyDict.keys
       [("greeting", VStr "hello"); ("due_date", VDate (Date 2026 11 4))]
     = ["greeting"; "due_date"].
Proof.
  destruct (@setitem_then_getitem Ref.services
              [("greeting", VStr "hello")]
              [("greeting", VStr "hello"); ("due_date", VDate (Date 2026 11 4))]
              "due_date" (VStr "today") eq_refl) as [H1 [_ [_ H4]]].
  split.
  - exact (H1 "greeting" ltac:(discriminate)).
  - exact H4.
Defined.

(** X2.  The attribute map keeps its invariant: no key is stored twice,
    and under a date key there is a [SuperDate] or a false value.
    [__setitem__] and [update] maintain it, so every map the constructor
    [Attributes(arg)] returns has it. *)
Theorem update_keeps_dates :
  forall (svc : Services) (self a : Attributes) (arg : PyValue) (k : str)
         (v : PyValue),
    (attrs_inv self -> Attributes_setitem self k v = Ok a -> attrs_inv a)
    /\ (attrs_inv self -> Attributes_update self arg = Ok a -> attrs_inv a)
    /\ (Attributes_update [] arg = Ok a -> attrs_inv a).
Proof.
  intros svc self a arg k v. split; [|split].
  - apply setitem_keeps_inv.
  - apply update_keeps_inv.
  - apply update_keeps_inv. apply attrs_inv_nil.
Qed.

Lemma update_keeps_dates_witness :
  attrs_inv [("due_date", VDate (Date 2026 11 4)); ("n", VInt 0)].
Proof.
  apply (proj2 (proj2 (@update_keeps_dates Ref.services [] _
                         (VDict [("due_date", VStr "today"); ("n", VInt 0)])
                         "" VNone))).
  reflexivity.
Defined.

(** X3.  On an attribute map that has the invariant, [toYamlDict] and
    [__str__] raise nothing: [toYamlDict] returns the entries in their
    order, a [SuperDate] under a date key replaced by its text, every
    other value as it is. *)
Theorem toYamlDict_total :
  forall (svc : Services) (a : Attributes),
    attrs_inv a ->
    let d := map (fun kv => (fst kv, yaml_view (fst kv) (snd kv))) a in
    Attributes_toYamlDict a = Ok d
    /\ Attributes_str a = Ok ("---\n" ++ yaml_dump (VDict d))
    /\ PyDict.keys d = PyDict.keys a.
Proof.
  intros svc a Ha d.
  pose proof (@toYamlDict_view svc a Ha) as E. fold d in E.
  split; [exact E|]. split.
  - unfold Attributes_str. rewrite E. reflexivity.
  - unfold d, PyDict.keys. rewrite map_map. reflexivity.
Qed.

Lemma toYamlDict_total_witness :
  @Attributes_toYamlDict Ref.services
     [("due_date", VDate (Date 2026 11 4)); ("greeting", VStr "hello")]
  = Ok [("due_date", VStr "2026-11-04, Wed"); ("greeting", VStr "hello")].
Proof.
  assert (I : attrs_inv [("due_date", VDate (Date 2026 11 4));
                         ("greeting", VStr "hello")])
    by attrs_inv_by_cases.
  exact (proj1 (@toYamlDict_total Ref.services _ I)).
Defined.

(** X4.  [Attributes.fromYaml]: a text that the structured-data service
    reads as a mapping gives the attribute map of that mapping, and no
    file is read; a text it reads as a string is taken for the name of a
    file, whose content is loaded instead; a text it reads as nothing
    (the empty document) raises [TypeError].  Whatever is returned has
    the invariant of the attribute map. *)
Theorem fromYaml_cases :
  forall (svc : Services) (s : str),
    (forall a, Attributes_fromYaml s = Ok a -> attrs_inv a)
    /\ (forall kvs, yaml_safe_load s = Ok (VDict kvs) ->
          Attributes_fromYaml s = Attributes_update [] (VDict kvs))
    /\ (yaml_safe_load s = Ok VNone -> Attributes_fromYaml s = Raise TypeError)
    /\ (forall p, yaml_safe_load s = Ok (VStr p) ->
          Attributes_fromYaml s
          = (s' <- read_file s ;; d <- yaml_safe_load s' ;;
             Attributes_update [] d)).
Proof.
  intros svc s. unfold Attributes_fromYaml. split; [|split; [|split]].
  - intros a.
    destruct (yaml_safe_load s) as [d|]; simpl; [|discriminate].
    destruct (match d with VStr _ => _ | _ => _ end) as [d'|]; simpl;
      [|discriminate].
    apply (@update_keeps_inv svc [] a d' attrs_inv_nil).
  - intros kvs ->. reflexivity.
  - intros ->. reflexivity.
  - intros p ->. simpl. destruct (read_file s); simpl; [|reflexivity].
    destruct (yaml_safe_load a); reflexivity.
Qed.

Lemma fromYaml_cases_witness :
  @Attributes_fromYaml Ref.services "" = Raise TypeError
  /\ @Attributes_fromYaml Ref.services "due_date: today"
     = Ok [("due_date", VDate (Date 2026 11 4))].
Proof.
  destruct (@fromYaml_cases Ref.services "") as [_ [_ [H3 _]]].
  destruct (@fromYaml_cases Ref.services "due_date: today") as [_ [H2 _]].
  split; [exact (H3 eq_refl)|].
  exact (eq_trans (H2 [("due_date", VStr "today")] eq_refl) eq_refl).
Defined.

Lemma has_set_same {V} (d : PyDict.dict V) (k : str) (v : V) :
  PyDict.has (PyDict.set d k v) k = true.
Proof. unfold PyDict.has. rewrite get_set_same. reflexivity. Qed.

Lemma has_set_other {V} (d : PyDict.dict V) (k k' : str) (v : V) :
  k' <> k -> PyDict.has (PyDict.set d k v) k' = PyDict.has d k'.
Proof. intros H. unfold PyDict.has. rewrite get_set_other by assumption. reflexivity. Qed.

(** The attribute map [Zettel.__init__] builds: the supplied attributes,
    and the two defaults where they are not supplied. *)
Lemma init_attrs_spec {svc : Services} (arg : PyValue) (a : Attributes) :
  init_attrs arg = Ok a ->
  attrs_inv a
  /\ PyDict.has a "creation_date" = true
  /\ PyDict.has a "zlinks" = true
  /\ exists a0,
       Attributes_update [] (if truthy arg then arg else VDict []) = Ok a0
       /\ (forall k v, PyDict.get a0 k = Some v -> PyDict.get a k = Some v)
       /\ (forall k, k <> "creation_date" -> k <> "zlinks" ->
                     PyDict.get a k = PyDict.get a0 k)
       /\ (PyDict.has a0 "zlinks" = false ->
           PyDict.get a "zlinks" = Some (VDict []))
       /\ (PyDict.has a0 "creation_date" = false ->
           exists d d', parse_date "today" = Ok d
                        /\ SuperDate (VDate d) = Ok d'
                        /\ PyDict.get a "creation_date" = Some (VDate d')).
Proof.
  unfold init_attrs.
  destruct (Attributes_update [] (if truthy arg then arg else VDict []))
    as [a0|] eqn:U; cbn [bind]; [|discriminate].
  pose proof (@update_keeps_inv svc [] a0 _ attrs_inv_nil U) as I0.
  destruct (PyDict.has a0 "creation_date") eqn:Hc; cbn [bind].
  - destruct (PyDict.has a0 "zlinks") eqn:Hz; cbn [bind].
    + intros H; injection H as <-.
      split; [assumption|].
      split; [assumption|]. split; [assumption|].
      exists a0. split; [reflexivity|]. split; [auto|]. split; [auto|].
      split; intros G; congruence.
    + rewrite setitem_plain by reflexivity. cbn [bind].
      intros H; injection H as <-.
      split.
      { apply (@setitem_keeps_inv svc a0 _ "zlinks" (VDict []) I0).
        apply setitem_plain. reflexivity. }
      split; [rewrite has_set_other by discriminate; assumption|].
      split; [apply has_set_same|].
      exists a0. split; [reflexivity|]. split; [|split; [|split]].
      * intros k v G. destruct (PyStr.eqb k "zlinks") eqn:E.
        -- apply eqb_eq in E; subst. apply has_get in Hz. congruence.
        -- apply eqb_neq in E. rewrite get_set_other by assumption. assumption.
      * intros k _ Hk. apply get_set_other; assumption.
      * intros _. apply get_set_same.
      * intros G; congruence.
  - destruct (parse_date "today") as [d|] eqn:P; cbn [bind]; [|discriminate].
    rewrite setitem_date by reflexivity.
    destruct (SuperDate (VDate d)) as [d'|] eqn:S; cbn [bind]; [|discriminate].
    assert (I1 : attrs_inv (PyDict.set a0 "creation_date" (VDate d'))).
    { apply (@setitem_keeps_inv svc a0 _ "creation_date" (VDate d) I0).
      rewrite setitem_date by reflexivity. rewrite S. reflexivity. }
    rewrite has_set_other by discriminate.
    destruct (PyDict.has a0 "zlinks") eqn:Hz; cbn [bind].
    + intros H; injection H as <-.
      split; [assumption|].
      split; [apply has_set_same|].
      split; [rewrite has_set_other by discriminate; assumption|].
      exists a0. split; [reflexivity|]. split; [|split; [|split]].
      * intros k v G. destruct (PyStr.eqb k "creation_date") eqn:E.
        -- apply eqb_eq in E; subst. apply has_get in Hc. congruence.
        -- apply eqb_neq in E. rewrite get_set_other by assumption. assumption.
      * intros k Hk _. apply get_set_other; assumption.
      * intros G; congruence.
      * intros _. exists d, d'. split; [reflexivity|]. split; [assumption|].
        apply get_set_same.
    + rewrite setitem_plain by reflexivity. cbn [bind].
      intros H; injection H as <-.
      split.
      { apply (@setitem_keeps_inv svc _ _ "zlinks" (VDict []) I1).
        apply setitem_plain. reflexivity. }
      split; [rewrite has_set_other by discriminate; apply has_set_same|].
      split; [apply has_set_same|].
      exists a0. split; [reflexivity|]. split; [|split; [|split]].
      * intros k v G. destruct (PyStr.eqb k "zlinks") eqn:E.
        -- apply eqb_eq in E; subst. apply has_get in Hz. congruence.
        -- apply eqb_neq in E. rewrite get_set_other by assumption.
           destruct (PyStr.eqb k "creation_date") eqn:E'.
           ++ apply eqb_eq in E'; subst. apply has_get in Hc. congruence.
           ++ apply eqb_neq in E'. rewrite get_set_other by assumption.
              assumption.
      * intros k Hk1 Hk2. rewrite !get_set_other by assumption. reflexivity.
      * intros _. apply get_set_same.
      * intros _. exists d, d'. split; [reflexivity|]. split; [assumption|].
        rewrite get_set_other by discriminate. apply get_set_same.
Qed.

(* ================================================================== *)
(** * The Markdown body, section by section *)
(* ================================================================== *)

Section SectionFacts.
Variable is_heading : str -> bool.

Lemma sections_flat (lines : list str) :
  lines = fst (sections is_heading lines)
          ++ flat (snd (sections is_heading lines)).
Proof.
  induction lines as [|l r IH]; [reflexivity|].
  simpl. destruct (sections is_heading r) as [pre gs]. simpl in IH.
  destruct (is_heading l); simpl.
  - unfold flat. simpl. fold (flat gs). rewrite IH at 1. reflexivity.
  - rewrite IH at 1. reflexivity.
Qed.

Lemma sections_pre (lines : list str) (x : str) :
  In x (fst (sections is_heading lines)) -> is_heading x = false.
Proof.
  induction lines as [|l r IH]; [contradiction|].
  simpl. destruct (sections is_heading r) as [pre gs]. simpl in IH.
  destruct (is_heading l) eqn:E; simpl; [contradiction|].
  intros [<- | H]; auto.
Qed.

Lemma sections_groups (lines : list str) (g : str * list str) :
  In g (snd (sections is_heading lines)) ->
  is_heading (fst g) = true
  /\ forall x, In x (snd g) -> is_heading x = false.
Proof.
  induction lines as [|l r IH]; [contradiction|].
  simpl. pose proof (sections_pre r) as Hp.
  destruct (sections is_heading r) as [pre gs]. simpl in IH, Hp.
  destruct (is_heading l) eqn:E; simpl; [|assumption].
  intros [<- | H]; [|auto]. simpl. auto.
Qed.

Lemma sections_heads (lines : list str) :
  heads_from is_heading 0 lines
  = map Z.of_nat (starts (length (fst (sections is_heading lines)))
                         (snd (sections is_heading lines))).
Proof.
  rewrite (sections_flat lines) at 1.
  rewrite heads_app, (heads_none is_heading 0).
  2:{ apply sections_pre. }
  simpl app. rewrite (@heads_flat is_heading 0).
  - apply map_ext. intros n. rewrite Nat.add_0_r. reflexivity.
  - intros g Hg p. destruct (sections_groups _ _ Hg) as [H1 H2].
    rewrite heads_cons, H1, heads_none by assumption.
    rewrite Nat.add_0_r. reflexivity.
Qed.

End SectionFacts.

Lemma fold_left_map {A B C} (f : A -> C -> A) (g : B -> C) (l : list B) (a : A) :
  fold_left f (map g l) a = fold_left (fun x y => f x (g y)) l a.
Proof. revert a. induction l as [|x l IH]; intros a; simpl; auto. Qed.

Lemma md_sections_read (t : str) (md : list str) :
  (let heading_pts :=
     map fst (filter (fun xy => _is_md_heading (snd xy)) (enumerate md))
     ++ [Z.of_nat (length md)] in
   hs <- notes_headings md heading_pts ;;
   hs <- scan_headings md_heading_name 1 md heading_pts hs ;;
   Ok (t, hs))
  = Ok (let (pre, gs) := sections _is_md_heading md in
        (t,
         PyDict.update
           (match PyStr.join "\n" pre with [] => [] | n => [("_notes", n)] end)
           (map (fun g => (md_heading_name (fst g), PyStr.join "\n" (snd g)))
                gs))).
Proof.
  cbv zeta.
  change (map fst (filter (fun xy => _is_md_heading (snd xy)) (enumerate md)))
    with (heads_from _is_md_heading 0 md).
  rewrite sections_heads.
  pose proof (sections_flat _is_md_heading md) as F.
  destruct (sections _is_md_heading md) as [pre gs]. cbn [fst snd] in *.
  subst md.
  rewrite (@body_sections md_heading_name 1 t pre gs);
    [|lia|intros; simpl; lia|reflexivity].
  unfold PyDict.update. rewrite fold_left_map. cbn [fst snd skipn Nat.sub].
  destruct (PyStr.join "\n" pre); reflexivity.
Qed.

Lemma md_body_read (md : list str) : md_body md = Ok (md_read md).
Proof.
  unfold md_body, md_read.
  destruct md as [|l0 rest].
  - apply (md_sections_read "" []).
  - destruct (PyStr.startswith (PyStr.strip l0) "# ").
    + apply md_sections_read.
    + apply (md_sections_read "" (l0 :: rest)).
Qed.

(* ================================================================== *)
(** * Words, characters and lines *)
(* ================================================================== *)

Section WordFacts.

Lemma linebreak_isspace (c : ascii) :
  PyStr.is_linebreak c = true -> PyStr.isspace c = true.
Proof.
  unfold PyStr.is_linebreak, PyStr.isspace.
  set (n := nat_of_ascii c).
  rewrite !orb_true_iff, !andb_true_iff, !Nat.leb_le, !Nat.eqb_eq.
  lia.
Qed.

Lemma words_from_spec (s : str) :
  forallb (fun c => negb (PyStr.isspace c)) (fst (PyStr.words_from s)) = true
  /\ forallb is_word (snd (PyStr.words_from s)) = true.
Proof.
  induction s as [|c s [IH1 IH2]]; [split; reflexivity|].
  simpl. destruct (PyStr.words_from s) as [w ws]. simpl in IH1, IH2.
  destruct (PyStr.isspace c) eqn:E; simpl.
  - split; [reflexivity|]. destruct w as [|x w]; [assumption|].
    simpl. rewrite IH2, andb_true_r. exact IH1.
  - rewrite E. simpl. split; assumption.
Qed.

Lemma split_ws_words (s : str) : forallb is_word (PyStr.split_ws s) = true.
Proof.
  unfold PyStr.split_ws. destruct (words_from_spec s) as [H1 H2].
  destruct (PyStr.words_from s) as [w ws]. simpl in H1, H2.
  destruct w as [|x w]; [assumption|].
  simpl. rewrite H2, andb_true_r. exact H1.
Qed.

Lemma words_from_app (w rest : str) :
  forallb (fun c => negb (PyStr.isspace c)) w = true ->
  PyStr.words_from (w ++ rest)
  = (w ++ fst (PyStr.words_from rest), snd (PyStr.words_from rest)).
Proof.
  induction w as [|c w IH]; intros H; simpl.
  - destruct (PyStr.words_from rest); reflexivity.
  - simpl in H. apply andb_true_iff in H. destruct H as [Hc Hw].
    rewrite (IH Hw). apply negb_true_iff in Hc. rewrite Hc. reflexivity.
Qed.

Lemma split_ws_join (ws : list str) :
  forallb is_word ws = true -> PyStr.split_ws (PyStr.join " " ws) = ws.
Proof.
  induction ws as [|w ws IH]; intros H; [reflexivity|].
  simpl in H. apply andb_true_iff in H. destruct H as [Hw Hws].
  assert (Hw' : forallb (fun c => negb (PyStr.isspace c)) w = true
                /\ w <> []).
  { destruct w; [discriminate|]. split; [exact Hw | discriminate]. }
  destruct Hw' as [Hw1 Hw2].
  destruct ws as [|w2 ws].
  - simpl. unfold PyStr.split_ws.
    rewrite <- (app_nil_r w) at 1. rewrite (words_from_app _ _ Hw1).
    simpl. rewrite app_nil_r. destruct w; [congruence | reflexivity].
  - rewrite join_cons by discriminate.
    unfold PyStr.split_ws. rewrite (words_from_app _ _ Hw1).
    specialize (IH Hws). unfold PyStr.split_ws in IH.
    change (" " ++ PyStr.join " " (w2 :: ws))
      with (" "%char :: PyStr.join " " (w2 :: ws)).
    cbn [PyStr.words_from].
    destruct (PyStr.words_from (PyStr.join " " (w2 :: ws))) as [x xs].
    change (PyStr.isspace " ") with true. cbv iota. cbn [fst snd].
    rewrite app_nil_r. rewrite IH. destruct w; [congruence | reflexivity].
Qed.

Lemma forallb_tl {A} (f : A -> bool) (l : list A) :
  forallb f l = true -> forallb f (tl l) = true.
Proof.
  destruct l; [reflexivity|]. simpl. intros H.
  apply andb_true_iff in H. tauto.
Qed.

Lemma word_plain (w : str) : is_word w = true -> plain_line w = true.
Proof.
  intros H. assert (G : forallb (fun c => negb (PyStr.isspace c)) w = true)
    by (destruct w; [discriminate | exact H]).
  unfold plain_line. rewrite forallb_forall in *. intros c Hc.
  specialize (G c Hc). apply negb_true_iff in G. apply negb_true_iff.
  destruct (PyStr.is_linebreak c) eqn:E; [|reflexivity].
  apply linebreak_isspace in E. congruence.
Qed.

Lemma plain_line_app (a b : str) :
  plain_line (a ++ b) = plain_line a && plain_line b.
Proof. unfold plain_line. apply forallb_app. Qed.

Lemma join_words_plain (ws : list str) :
  forallb is_word ws = true -> plain_line (PyStr.join " " ws) = true.
Proof.
  induction ws as [|w ws IH]; intros H; [reflexivity|].
  simpl in H. apply andb_true_iff in H. destruct H as [Hw Hws].
  destruct ws as [|w2 ws]; [apply word_plain; assumption|].
  rewrite join_cons by discriminate.
  rewrite !plain_line_app, (word_plain _ Hw), (IH Hws). reflexivity.
Qed.

(** The title the Markdown decoder makes of a line is in normal form. *)
Lemma md_title_normal (l0 : str) :
  md_title_ok (PyStr.join " " (tl (PyStr.split_ws l0))) = true.
Proof.
  pose proof (forallb_tl _ _ (split_ws_words l0)) as H.
  unfold md_title_ok. rewrite (split_ws_join _ H), eqb_refl.
  apply join_words_plain. assumption.
Qed.

End WordFacts.

Section CharFacts.
Variable P : ascii -> bool.

Lemma forallb_lstrip (s : str) :
  forallb P s = true -> forallb P (PyStr.lstrip s) = true.
Proof.
  induction s as [|c s IH]; [reflexivity|]. intros H. simpl.
  destruct (PyStr.isspace c); [|exact H].
  simpl in H. apply andb_true_iff in H. apply IH, H.
Qed.

Lemma forallb_rev {A} (f : A -> bool) (l : list A) :
  forallb f (rev l) = forallb f l.
Proof.
  induction l as [|x l IH]; [reflexivity|].
  simpl. rewrite forallb_app, IH. simpl. rewrite andb_true_r.
  apply andb_comm.
Qed.

Lemma forallb_rstrip (s : str) :
  forallb P s = true -> forallb P (PyStr.rstrip s) = true.
Proof.
  intros H. unfold PyStr.rstrip. rewrite forallb_rev.
  apply forallb_lstrip. rewrite forallb_rev. exact H.
Qed.

Lemma forallb_strip (s : str) :
  forallb P s = true -> forallb P (PyStr.strip s) = true.
Proof. intros H. apply forallb_rstrip, forallb_lstrip, H. Qed.

Lemma forallb_skipn {A} (f : A -> bool) (n : nat) (l : list A) :
  forallb f l = true -> forallb f (skipn n l) = true.
Proof.
  revert l. induction n as [|n IH]; intros l H; [exact H|].
  destruct l as [|x l]; [reflexivity|]. simpl in *.
  apply andb_true_iff in H. apply IH, H.
Qed.

Lemma forallb_split (sep : str) (n : nat) (s : str) :
  sep <> [] -> length s <= n ->
  forallb P s = true ->
  forallb (forallb P) (PyStr.split s sep) = true.
Proof.
  intros Hsep. revert s. induction n as [|n IH]; intros s Hn H.
  - destruct s; [reflexivity | simpl in Hn; lia].
  - destruct s as [|c r]; [reflexivity|].
    destruct (PyStr.startswith (c :: r) sep) eqn:F.
    + rewrite (@split_match sep Hsep (c :: r) F). simpl forallb at 1.
      apply IH; [|apply forallb_skipn; exact H].
      destruct sep as [|x q]; [congruence|].
      simpl. rewrite length_skipn. simpl in Hn. lia.
    + destruct (@split_nomatch sep c r F) as [p [ps [E ->]]].
      simpl in H. apply andb_true_iff in H. destruct H as [Hc Hr].
      assert (G := IH r ltac:(simpl in Hn; lia) Hr). rewrite E in G.
      simpl in *. rewrite Hc. exact G.
Qed.

Lemma forallb_join (sep : str) (l : list str) :
  forallb P sep = true -> forallb (forallb P) l = true ->
  forallb P (PyStr.join sep l) = true.
Proof.
  intros Hs. induction l as [|x l IH]; intros H; [reflexivity|].
  simpl in H. apply andb_true_iff in H. destruct H as [Hx Hl].
  destruct l as [|y l]; [exact Hx|].
  rewrite join_cons by discriminate.
  rewrite !forallb_app, Hx, Hs, (IH Hl). reflexivity.
Qed.

End CharFacts.

Lemma strip_idem (s : str) : PyStr.strip (PyStr.strip s) = PyStr.strip s.
Proof.
  unfold PyStr.strip at 2. rewrite strip_rstrip. unfold PyStr.strip.
  rewrite lstrip_idem. reflexivity.
Qed.

Lemma splitlines_plain (b : bool) (s : str) :
  forallb plain_line (PyStr.splitlines_from b s) = true.
Proof.
  revert b. induction s as [|c s IH]; intros b; [reflexivity|].
  cbn [PyStr.splitlines_from].
  destruct (b && Ascii.eqb c NL); [apply IH|].
  destruct (PyStr.is_linebreak c) eqn:E.
  - simpl. apply IH.
  - specialize (IH false).
    destruct (PyStr.splitlines_from false s) as [|l ls].
    + simpl. unfold plain_line. simpl. rewrite E. reflexivity.
    + simpl in *. unfold plain_line at 1. simpl. rewrite E. exact IH.
Qed.

Lemma plain_line_not_nl (c : ascii) :
  PyStr.is_linebreak c = false -> Ascii.eqb c NL = false.
Proof.
  intros H. destruct (Ascii.eqb c NL) eqn:E; [|reflexivity].
  apply Ascii.eqb_eq in E; subst. discriminate.
Qed.

Lemma lines_of_line (l rest : str) :
  plain_line l = true -> lines_of (l ++ NL :: rest) = l :: lines_of rest.
Proof.
  induction l as [|c l IH]; intros H; [apply lines_of_nl|].
  unfold plain_line in H. simpl in H. apply andb_true_iff in H.
  destruct H as [Hc Hl]. apply negb_true_iff in Hc.
  change ((c :: l) ++ NL :: rest) with (c :: (l ++ NL :: rest)).
  destruct (@lines_of_char c (l ++ NL :: rest) (plain_line_not_nl _ Hc))
    as [p [ps [E ->]]].
  rewrite (IH Hl) in E. inversion E; subst. reflexivity.
Qed.

Lemma lines_of_join (ls : list str) :
  ls <> [] -> forallb plain_line ls = true ->
  lines_of (PyStr.join "\n" ls) = ls.
Proof.
  induction ls as [|l ls IH]; intros Hne H; [congruence|].
  simpl in H. apply andb_true_iff in H. destruct H as [Hl Hls].
  destruct ls as [|l2 ls]; [apply lines_of_plain; exact Hl|].
  rewrite join_cons by discriminate.
  change ("\n" ++ PyStr.join "\n" (l2 :: ls))
    with (NL :: PyStr.join "\n" (l2 :: ls)).
  rewrite (lines_of_line _ _ Hl), IH; [reflexivity | discriminate | exact Hls].
Qed.

Lemma join_lines_plain (ls : list str) :
  forallb plain_line ls = true -> plain_text (PyStr.join "\n" ls) = true.
Proof.
  intros H. unfold plain_text. apply forallb_join; [reflexivity|].
  rewrite forallb_forall in *. intros l Hl.
  apply (plain_line_text _ (H l Hl)).
Qed.

(** The content a decoder makes of lines that are no heading lines. *)
Lemma content_of_lines (is_heading : str -> bool) (ls : list str) :
  is_heading "" = false ->
  forallb plain_line ls = true ->
  (forall l, In l ls -> is_heading l = false) ->
  plain_text (PyStr.join "\n" ls) = true
  /\ forall l, In l (lines_of (PyStr.join "\n" ls)) -> is_heading l = false.
Proof.
  intros H0 Hp Hh. split; [apply join_lines_plain; exact Hp|].
  destruct ls as [|x ls].
  - intros l [<- | []]. exact H0.
  - rewrite lines_of_join by (discriminate || exact Hp). exact Hh.
Qed.

Lemma In_update {V} (d other : PyDict.dict V) (k : str) (v : V) :
  In (k, v) (PyDict.update d other) -> In (k, v) d \/ In (k, v) other.
Proof.
  unfold PyDict.update. revert d.
  induction other as [|[k0 v0] other IH]; intros d; simpl; [auto|].
  intros H. destruct (IH _ H) as [G | G]; [|auto].
  apply In_set in G. destruct G as [G | G]; auto.
Qed.

Lemma NoDup_keys_update {V} (d other : PyDict.dict V) :
  NoDup (PyDict.keys d) -> NoDup (PyDict.keys (PyDict.update d other)).
Proof.
  unfold PyDict.update. revert d.
  induction other as [|[k0 v0] other IH]; intros d H; simpl; [exact H|].
  apply IH. apply NoDup_keys_set. exact H.
Qed.

Lemma Zettel_init_fields {svc : Services} (t : str) (hs : PyDict.dict str)
  (arg : PyValue) (z : Zettel) :
  Zettel_init t hs arg = Ok z ->
  title z = t /\ headings z = PyDict.of_items hs
  /\ init_attrs arg = Ok (attrs z).
Proof.
  unfold Zettel_init. destruct (init_attrs arg) as [a|]; simpl; [|discriminate].
  intros H; inversion H; subst. auto.
Qed.
Lemma sections_lines (is_heading : str -> bool) (lines : list str) :
  (forall x, In x (fst (sections is_heading lines)) -> In x lines)
  /\ (forall g, In g (snd (sections is_heading lines)) ->
        In (fst g) lines /\ forall x, In x (snd g) -> In x lines).
Proof.
  pose proof (sections_flat is_heading lines) as F.
  destruct (sections is_heading lines) as [pre gs]. cbn [fst snd] in *.
  split.
  - intros x Hx. rewrite F. apply in_or_app. left. exact Hx.
  - intros g Hg.
    assert (I : incl (fst g :: snd g) (flat gs)).
    { intros x Hx. unfold flat. apply in_concat.
      exists (fst g :: snd g). split; [|exact Hx].
      apply in_map_iff. exists g. auto. }
    split.
    + rewrite F. apply in_or_app. right. apply I. left. reflexivity.
    + intros x Hx. rewrite F. apply in_or_app. right. apply I.
      right. exact Hx.
Qed.

Lemma md_heading_name_normal (line : str) :
  plain_line line = true ->
  PyStr.strip (md_heading_name line) = md_heading_name line
  /\ plain_line (md_heading_name line) = true.
Proof.
  intros H. unfold md_heading_name. split; [apply strip_idem|].
  unfold plain_line. apply forallb_strip. apply forallb_join; [reflexivity|].
  apply forallb_tl.
  apply (@forallb_split _ "## " (length line) line);
    [discriminate | lia | exact H].
Qed.

(** What [md_read] returns is in normal form. *)
Lemma md_read_normal (md : list str) :
  forallb plain_line md = true ->
  md_title_ok (fst (md_read md)) = true
  /\ NoDup (PyDict.keys (snd (md_read md)))
  /\ forall k c, In (k, c) (snd (md_read md)) ->
       PyStr.strip k = k /\ plain_line k = true /\ plain_text c = true
       /\ forall l, In l (lines_of c) -> _is_md_heading l = false.
Proof.
  intros Hp. unfold md_read.
  set (tm := match md with
             | l0 :: rest =>
                 if PyStr.startswith (PyStr.strip l0) "# "
                 then (PyStr.join " " (tl (PyStr.split_ws l0)), rest)
                 else ("", md)
             | [] => ("", md)
             end).
  assert (T : md_title_ok (fst tm) = true
              /\ forallb plain_line (snd tm) = true).
  { unfold tm. destruct md as [|l0 rest]; [split; reflexivity|].
    destruct (PyStr.startswith (PyStr.strip l0) "# ").
    - split; [apply md_title_normal|].
      simpl in Hp. apply andb_true_iff in Hp. apply Hp.
    - split; [reflexivity | exact Hp]. }
  destruct tm as [t lines]. cbn [fst snd] in T. destruct T as [Ht Hl].
  pose proof (sections_pre _is_md_heading lines) as Spre.
  pose proof (sections_groups _is_md_heading lines) as Sgs.
  destruct (sections_lines _is_md_heading lines) as [Lpre Lgs].
  destruct (sections _is_md_heading lines) as [pre gs]. cbn [fst snd] in *.
  rewrite forallb_forall in Hl.
  split; [exact Ht|]. split.
  - apply NoDup_keys_update.
    destruct (PyStr.join "\n" pre); repeat constructor. simpl. tauto.
  - intros k c Hin. apply In_update in Hin. destruct Hin as [Hin | Hin].
    + destruct (PyStr.join "\n" pre) as [|x n] eqn:E; [contradiction|].
      destruct Hin as [Hin | []]. inversion Hin; subst k c.
      split; [reflexivity|]. split; [reflexivity|].
      rewrite <- E. apply content_of_lines; [reflexivity | | exact Spre].
      apply forallb_forall. intros l Hl'. apply Hl, Lpre, Hl'.
    + apply in_map_iff in Hin. destruct Hin as [g [E Hg]].
      inversion E; subst k c.
      destruct (Lgs g Hg) as [L1 L2]. destruct (Sgs g Hg) as [_ S2].
      destruct (md_heading_name_normal (fst g) (Hl _ L1)) as [N1 N2].
      split; [exact N1|]. split; [exact N2|].
      apply content_of_lines; [reflexivity | | exact S2].
      apply forallb_forall. intros l Hl'. apply Hl, L2, Hl'.
Qed.
(* ================================================================== *)
(** * What the encoders return *)
(* ================================================================== *)

Lemma exists_last_or_nil {A} (l : list A) :
  l = [] \/ exists ys y, l = ys ++ [y].
Proof.
  destruct l as [|x l]; [left; reflexivity|]. right.
  destruct (@exists_last _ (x :: l)) as [ys [y E]]; [discriminate|].
  eauto.
Qed.

Section EncodingShape.
Context {svc : Services}.

Lemma attribute_lines_inv (z : Zettel) :
  attrs_inv (attrs z) -> exists a_lines, attribute_lines z = Ok a_lines.
Proof.
  intros Ha. unfold attribute_lines, Attributes_str.
  rewrite (@toYamlDict_view svc (attrs z) Ha). simpl. eauto.
Qed.

Lemma attribute_tail_end (lead a_lines : list str) :
  exists u, attribute_tail lead a_lines = u ++ "\n".
Proof.
  unfold attribute_tail. rewrite app_assoc.
  destruct (exists_last_or_nil (lead ++ a_lines)) as [-> | [ys [y ->]]].
  - exists []. reflexivity.
  - pose proof (@join_app_cons "\n" (ys ++ [y]) "" []) as J.
    exists ("\n" ++ concat (map (fun e => e ++ "\n") ys) ++ y).
    etransitivity; [apply f_equal; exact J|].
    rewrite map_app, concat_app. simpl. rewrite !app_nil_r.
    rewrite <- !app_assoc. reflexivity.
Qed.

(** The steps of an encoder before the attribute block. *)
Lemma getMd_shape (z : Zettel) (only : option (list str)) (t : str) :
  getMd z only = Ok t ->
  exists b a_lines,
    attribute_lines z = Ok a_lines
    /\ t = concat (map (fun e => e ++ "\n") b) ++ "<!--- attributes --->"
           ++ attribute_tail [] a_lines.
Proof.
  unfold getMd.
  match goal with
  | |- context [bind ?X _] => destruct X as [s|]; cbn [bind]; [|discriminate]
  end.
  destruct (display_headings _ _ _ _) as [s'|]; cbn [bind]; [|discriminate].
  destruct (attribute_lines z) as [a|]; cbn [bind]; [|discriminate].
  intros H. injection H as <-. exists s', a. split; [reflexivity|].
  apply md_text_shape.
Qed.

Lemma getRst_shape (z : Zettel) (only : option (list str)) (t : str) :
  getRst z only = Ok t ->
  exists b a_lines,
    attribute_lines z = Ok a_lines
    /\ t = concat (map (fun e => e ++ "\n") b) ++ ".. attributes\n::"
           ++ attribute_tail [""] a_lines.
Proof.
  unfold getRst.
  match goal with
  | |- context [bind ?X _] => destruct X as [s|]; cbn [bind]; [|discriminate]
  end.
  destruct (display_headings _ _ _ _) as [s'|]; cbn [bind]; [|discriminate].
  destruct (attribute_lines z) as [a|]; cbn [bind]; [|discriminate].
  intros H. injection H as <-. exists s', a. split; [reflexivity|].
  apply rst_text_shape.
Qed.

Lemma endswith_app (u p : str) : PyStr.endswith (u ++ p) p = true.
Proof.
  unfold PyStr.endswith. rewrite rev_app_distr. apply startswith_app.
Qed.

Lemma shape_facts (body marker tail : str) :
  marker <> [] -> (exists u, tail = u ++ "\n") ->
  body ++ marker ++ tail <> []
  /\ PyStr.endswith (body ++ marker ++ tail) "\n" = true
  /\ PyStr.contains (body ++ marker ++ tail) marker = true.
Proof.
  intros Hm [u ->]. split; [|split].
  - destruct body, marker; try discriminate. congruence.
  - rewrite !app_assoc. apply endswith_app.
  - apply contains_iff. eauto.
Qed.

Lemma encoder_nonempty (zettel_format : str) (only : option (list str))
  (z : Zettel) (t : str) :
  encoder zettel_format only z = Ok t -> t <> [].
Proof.
  unfold encoder. destruct (PyStr.eqb zettel_format "rst"); intros H.
  - destruct (@getRst_shape z only t H) as [b [a [_ ->]]].
    apply shape_facts; [discriminate | apply attribute_tail_end].
  - destruct (@getMd_shape z only t H) as [b [a [_ ->]]].
    apply shape_facts; [discriminate | apply attribute_tail_end].
Qed.

Lemma mapM_Ok_all {A B} (f : A -> result B) (l : list A) (ys : list B) :
  mapM f l = Ok ys -> forall y, In y ys -> exists x, In x l /\ f x = Ok y.
Proof.
  revert ys. induction l as [|x l IH]; intros ys; simpl.
  - intros H; injection H as <-. contradiction.
  - destruct (f x) as [b|] eqn:E; simpl; [|discriminate].
    destruct (mapM f l) as [bs|]; simpl; [|discriminate].
    intros H; injection H as <-. intros y [<- | Hy].
    + exists x. auto.
    + destruct (IH bs eq_refl y Hy) as [x' [H1 H2]]. exists x'. auto.
Qed.

Lemma filter_all {A} (f : A -> bool) (l : list A) :
  (forall x, In x l -> f x = true) -> filter f l = l.
Proof.
  induction l as [|x l IH]; intros H; [reflexivity|].
  simpl. rewrite (H x (or_introl eq_refl)), IH; [reflexivity|].
  intros y Hy. apply H. right. exact Hy.
Qed.

End EncodingShape.

(** X5.  Every encoding is the text before the attribute block, the attribute
    marker of the dialect, and the attribute block, which ends with a line
    end.  So no encoding is empty. *)
Theorem encoding_shape :
  forall (svc : Services) (z : Zettel) (only : option (list str)) (t : str),
    (getMd z only = Ok t ->
     (exists b a_lines,
        attribute_lines z = Ok a_lines
        /\ t = concat (map (fun e => e ++ "\n") b) ++ "<!--- attributes --->"
               ++ attribute_tail [] a_lines)
     /\ t <> [] /\ PyStr.endswith t "\n" = true
     /\ PyStr.contains t "<!--- attributes --->" = true)
    /\ (getRst z only = Ok t ->
        (exists b a_lines,
           attribute_lines z = Ok a_lines
           /\ t = concat (map (fun e => e ++ "\n") b) ++ ".. attributes\n::"
                  ++ attribute_tail [""] a_lines)
        /\ t <> [] /\ PyStr.endswith t "\n" = true
        /\ PyStr.contains t ".. attributes\n::" = true).
Proof.
  intros svc z only t. split; intros H.
  - destruct (@getMd_shape svc z only t H) as [b [a [Ha E]]].
    split; [eauto|]. rewrite E.
    apply shape_facts; [discriminate | apply attribute_tail_end].
  - destruct (@getRst_shape svc z only t H) as [b [a [Ha E]]].
    split; [eauto|]. rewrite E.
    apply shape_facts; [discriminate | apply attribute_tail_end].
Qed.

Lemma encoding_shape_witness :
  let z := {| title := "t"; headings := [("_notes", "n")];
              attrs := [("greeting", VStr "hello")] |} in
  let t : str :=
    "# t\nn\n<!--- attributes --->\n    ---\n    greeting: hello\n" in
  @getMd Ref.services z None = Ok t
  /\ t <> [] /\ PyStr.endswith t "\n" = true.
Proof.
  intros z t.
  assert (H : @getMd Ref.services z None = Ok t) by reflexivity.
  split; [exact H|].
  destruct (@encoding_shape Ref.services z None t) as [G _].
  destruct (G H) as [_ [H1 [H2 _]]]. split; assumption.
Defined.

Lemma zettels_to_str_texts {svc : Services} (zettel_format : str)
  (only : option (list str)) (l : list Zettel) :
  In zettel_format ["rst"; "md"] ->
  zettels_to_str l zettel_format only
  = (texts <- mapM (encoder zettel_format only) l ;;
     Ok (PyStr.join ("\n" ++ sentinel zettel_format ++ "\n\n\n")
           (PyStr.sorted texts))).
Proof.
  intros Hf.
  assert (K : forall texts, mapM (encoder zettel_format only) l = Ok texts ->
              filter (fun x : str => match x with [] => false | _ => true end)
                texts = texts).
  { intros texts M. apply filter_all. intros t Ht.
    destruct (@mapM_Ok_all _ _ _ _ _ M t Ht) as [z [_ Hz]].
    apply encoder_nonempty in Hz. destruct t; [congruence | reflexivity]. }
  unfold zettels_to_str, sentinel. unfold encoder in *.
  destruct Hf as [<- | [<- | []]]; simpl in *;
    (destruct (mapM _ l) as [texts|]; simpl;
     [replace (filter _ texts) with texts
        by (symmetry; exact (K texts eq_refl))|]; reflexivity).
Qed.

(** X6.  [zettels_to_str] never drops a Zettel: no encoding is empty, so
    the filter on the encodings keeps them all.  Packing one Zettel is
    encoding it. *)
Theorem pack_keeps_all :
  forall (svc : Services) (zettel_format : str) (only : option (list str))
         (zettels : list Zettel),
    In zettel_format ["rst"; "md"] ->
    zettels_to_str zettels zettel_format only
    = (texts <- mapM (encoder zettel_format only) zettels ;;
       Ok (PyStr.join ("\n" ++ sentinel zettel_format ++ "\n\n\n")
             (PyStr.sorted texts)))
    /\ forall z, zettels_to_str [z] zettel_format only
                 = encoder zettel_format only z.
Proof.
  intros svc fmt only zs Hf.
  split; [apply (@zettels_to_str_texts svc fmt only zs Hf)|].
  intros z. rewrite (@zettels_to_str_texts svc fmt only [z] Hf). simpl.
  destruct (encoder fmt only z); reflexivity.
Qed.

Lemma pack_keeps_all_witness :
  let z := {| title := "t"; headings := [("_notes", "n")];
              attrs := [("greeting", VStr "hello")] |} in
  @zettels_to_str Ref.services [z] "rst" None = @getRst Ref.services z None.
Proof.
  intros z.
  exact (proj2 (@pack_keeps_all Ref.services "rst" None [z]
                  (or_introl eq_refl)) z).
Defined.
(* ================================================================== *)
(** * What the constructor and the decoders return *)
(* ================================================================== *)

(** X7.  [Zettel.__init__] keeps the title, stores every supplied attribute
    through [Attributes.__setitem__], and adds [creation_date] (today's
    date) and [zlinks] (an empty mapping) where they are not supplied; a
    supplied value is never replaced by a default. *)
Theorem Zettel_init_defaults :
  forall (svc : Services) (t : str) (hs : PyDict.dict str) (arg : PyValue)
         (z : Zettel),
    Zettel_init t hs arg = Ok z ->
    title z = t
    /\ attrs_inv (attrs z)
    /\ PyDict.has (attrs z) "creation_date" = true
    /\ PyDict.has (attrs z) "zlinks" = true
    /\ exists a0,
         Attributes_update [] (if truthy arg then arg else VDict []) = Ok a0
         /\ (forall k v, PyDict.get a0 k = Some v ->
                         PyDict.get (attrs z) k = Some v)
         /\ (forall k, k <> "creation_date" -> k <> "zlinks" ->
                       PyDict.get (attrs z) k = PyDict.get a0 k)
         /\ (PyDict.has a0 "zlinks" = false ->
             PyDict.get (attrs z) "zlinks" = Some (VDict []))
         /\ (PyDict.has a0 "creation_date" = false ->
             exists d d', parse_date "today" = Ok d
                          /\ SuperDate (VDate d) = Ok d'
                          /\ PyDict.get (attrs z) "creation_date"
                             = Some (VDate d')).
Proof.
  intros svc t hs arg z H.
  destruct (@Zettel_init_fields svc t hs arg z H) as [Ht [_ Ha]].
  split; [exact Ht|]. apply (@init_attrs_spec svc arg (attrs z) Ha).
Qed.

Lemma Zettel_init_defaults_witness :
  exists z,
    @Zettel_init Ref.services "t" [] (VDict [("zlinks", VDict [("up", VStr "x")])])
    = Ok z
    /\ PyDict.has (attrs z) "creation_date" = true
    /\ PyDict.get (attrs z) "zlinks" = Some (VDict [("up", VStr "x")]).
Proof.
  eexists. split; [vm_compute; reflexivity|].
  destruct (@Zettel_init_defaults Ref.services "t" []
              (VDict [("zlinks", VDict [("up", VStr "x")])]) _ eq_refl)
    as [_ [_ [Hc [_ [a0 [Ha [Hk _]]]]]]].
  split; [exact Hc|].
  apply Hk. vm_compute in Ha. injection Ha as <-. reflexivity.
Defined.

(** X8.  The Markdown body, for any list of lines: the decoder never fails on
    it, and what it returns is the title of the first line (when that
    line is a title line), the lines before the first heading line under
    [_notes] (unless they make the empty string), and under each heading
    line the lines up to the next heading line; a name met again keeps
    its place and takes the later content. *)
Theorem md_body_by_sections :
  forall md : list str, md_body md = Ok (md_read md).
Proof. exact md_body_read. Qed.

Section DecodedMd.
Context {svc : Services}.

Lemma of_items_NoDup {V} (d : PyDict.dict V) :
  NoDup (PyDict.keys d) -> PyDict.of_items d = d.
Proof. apply update_nil_NoDup. Qed.

Lemma splitlines_all_plain (s : str) :
  forallb plain_line (PyStr.splitlines s) = true.
Proof. apply splitlines_plain. Qed.

End DecodedMd.

(** X9.  A Zettel decoded from Markdown is in normal form: its title is its
    own whitespace normal form, on one line; no heading name is stored
    twice; a heading name has no white space around it and no line
    boundary in it; a content has no line boundary but the newline, and
    none of its lines is a heading line.  Its attribute map holds
    [creation_date] and [zlinks], and a [SuperDate] or a false value under
    every date key. *)
Theorem createFromMd_normal_form :
  forall (svc : Services) (arg : str) (z : Zettel),
    createFromMd arg = Ok z ->
    md_title_ok (title z) = true
    /\ NoDup (PyDict.keys (headings z))
    /\ (forall k c, In (k, c) (headings z) ->
          PyStr.strip k = k /\ plain_line k = true /\ plain_text c = true
          /\ forall l, In l (lines_of c) -> _is_md_heading l = false)
    /\ attrs_inv (attrs z)
    /\ PyDict.has (attrs z) "creation_date" = true
    /\ PyDict.has (attrs z) "zlinks" = true.
Proof.
  intros svc arg z. unfold createFromMd.
  destruct (input_text arg) as [text|]; cbn [bind]; [|discriminate].
  cbv zeta.
  assert (A : forall t hs v,
             Zettel_init t hs v = Ok z ->
             attrs_inv (attrs z)
             /\ PyDict.has (attrs z) "creation_date" = true
             /\ PyDict.has (attrs z) "zlinks" = true).
  { intros t hs v H.
    destruct (@Zettel_init_fields svc t hs v z H) as [_ [_ Ha]].
    destruct (@init_attrs_spec svc v (attrs z) Ha) as [H1 [H2 [H3 _]]].
    auto. }
  destruct (PyStr.strip text) as [|c0 t0].
  - intros H. destruct (A _ _ _ H) as [A1 [A2 A3]].
    destruct (@Zettel_init_fields svc _ _ _ z H) as [-> [-> _]].
    split; [reflexivity|]. split; [constructor|].
    split; [intros k c []|]. split; [exact A1|]. split; [exact A2 | exact A3].
  - destruct (split_attributes (c0 :: t0) "<!--- attributes --->")
      as [body blob].
    destruct (yaml_safe_load (PyStr.strip blob)) as [v|]; cbn [bind];
      [|discriminate].
    rewrite md_body_read. cbn [bind].
    intros H. destruct (A _ _ _ H) as [A1 [A2 A3]].
    destruct (@Zettel_init_fields svc _ _ _ z H) as [-> [-> _]].
    destruct (@md_read_normal (PyStr.splitlines body)
                (splitlines_plain false body)) as [N1 [N2 N3]].
    rewrite (@of_items_NoDup _ _ N2).
    split; [exact N1|]. split; [exact N2|]. split; [exact N3|].
    split; [exact A1|]. split; [exact A2 | exact A3].
Qed.

Lemma createFromMd_normal_form_witness :
  exists z,
    @createFromMd Ref.services "#   a   b \n\n## H  \nx\n## H\ny" = Ok z
    /\ title z = "a b"
    /\ headings z = [("H", "y")]
    /\ md_title_ok (title z) = true.
Proof.
  eexists. split; [vm_compute; reflexivity|]. split; [reflexivity|].
  split; [reflexivity|].
  exact (proj1 (@createFromMd_normal_form Ref.services
                  "#   a   b \n\n## H  \nx\n## H\ny" _ eq_refl)).
Defined.
(* ================================================================== *)
(** * When the encoders succeed *)
(* ================================================================== *)

Section EncodersSucceed.
Context {svc : Services}.
Variable z : Zettel.
Variable only : option (list str).
Hypothesis Ha : attrs_inv (attrs z).

Let notes_ok : Prop :=
  PyStr.mem "_notes" (display_names z only) = true ->
  PyDict.has (headings z) "_notes" = true.

Lemma getMd_succeeds : (exists t, getMd z only = Ok t) <-> notes_ok.
Proof.
  unfold notes_ok, getMd.
  destruct (@attribute_lines_inv svc z Ha) as [a Hl].
  destruct (PyStr.mem "_notes" (display_names z only)) eqn:M.
  - unfold dict_getitem, PyDict.has.
    destruct (PyDict.get (headings z) "_notes") as [n|]; cbn [bind].
    + split; [reflexivity|]. intros _.
      match goal with
      | |- context [display_headings z ?emit ?names ?s] =>
          destruct (display_headings_Ok z emit names s) as [s' ->]
      end.
      cbn [bind]. rewrite Hl. cbn [bind]. eauto.
    + split; [intros [t H]; discriminate | intros H].
      specialize (H eq_refl). discriminate.
  - cbn [bind]. split; [discriminate|]. intros _.
    match goal with
    | |- context [display_headings z ?emit ?names ?s] =>
        destruct (display_headings_Ok z emit names s) as [s' ->]
    end.
    cbn [bind]. rewrite Hl. cbn [bind]. eauto.
Qed.

Lemma getRst_succeeds : (exists t, getRst z only = Ok t) <-> notes_ok.
Proof.
  unfold notes_ok, getRst.
  destruct (@attribute_lines_inv svc z Ha) as [a Hl].
  destruct (PyStr.mem "_notes" (display_names z only)) eqn:M.
  - unfold dict_getitem, PyDict.has.
    destruct (PyDict.get (headings z) "_notes") as [n|]; cbn [bind].
    + split; [reflexivity|]. intros _.
      match goal with
      | |- context [display_headings z ?emit ?names ?s] =>
          destruct (display_headings_Ok z emit names s) as [s' ->]
      end.
      cbn [bind]. rewrite Hl. cbn [bind]. eauto.
    + split; [intros [t H]; discriminate | intros H].
      specialize (H eq_refl). discriminate.
  - cbn [bind]. split; [discriminate|]. intros _.
    match goal with
    | |- context [display_headings z ?emit ?names ?s] =>
        destruct (display_headings_Ok z emit names s) as [s' ->]
    end.
    cbn [bind]. rewrite Hl. cbn [bind]. eauto.
Qed.

Lemma getMd_raises (e : exn) : getMd z only = Raise e -> e = KeyError.
Proof.
  unfold getMd.
  destruct (@attribute_lines_inv svc z Ha) as [a Hl].
  destruct (PyStr.mem "_notes" (display_names z only)).
  - unfold dict_getitem.
    destruct (PyDict.get (headings z) "_notes") as [n|]; cbn [bind].
    + match goal with
      | |- context [display_headings z ?emit ?names ?s] =>
          destruct (display_headings_Ok z emit names s) as [s' ->]
      end.
      cbn [bind]. rewrite Hl. discriminate.
    + intros H. injection H as <-. reflexivity.
  - cbn [bind].
    match goal with
    | |- context [display_headings z ?emit ?names ?s] =>
        destruct (display_headings_Ok z emit names s) as [s' ->]
    end.
    cbn [bind]. rewrite Hl. discriminate.
Qed.

Lemma getRst_raises (e : exn) : getRst z only = Raise e -> e = KeyError.
Proof.
  unfold getRst.
  destruct (@attribute_lines_inv svc z Ha) as [a Hl].
  destruct (PyStr.mem "_notes" (display_names z only)).
  - unfold dict_getitem.
    destruct (PyDict.get (headings z) "_notes") as [n|]; cbn [bind].
    + match goal with
      | |- context [display_headings z ?emit ?names ?s] =>
          destruct (display_headings_Ok z emit names s) as [s' ->]
      end.
      cbn [bind]. rewrite Hl. discriminate.
    + intros H. injection H as <-. reflexivity.
  - cbn [bind].
    match goal with
    | |- context [display_headings z ?emit ?names ?s] =>
        destruct (display_headings_Ok z emit names s) as [s' ->]
    end.
    cbn [bind]. rewrite Hl. discriminate.
Qed.

End EncodersSucceed.

(** X10.  On a Zettel whose attribute map was built through
    [Attributes.__setitem__], an encoder succeeds exactly when the
    [_notes] heading is stored or is not among the names to display; it
    raises nothing else than the [KeyError] of that lookup. *)
Theorem encoders_succeed :
  forall (svc : Services) (z : Zettel) (only : option (list str)),
    attrs_inv (attrs z) ->
    ((exists t, getMd z only = Ok t) <->
     (PyStr.mem "_notes" (display_names z only) = true ->
      PyDict.has (headings z) "_notes" = true))
    /\ ((exists t, getRst z only = Ok t) <->
        (PyStr.mem "_notes" (display_names z only) = true ->
         PyDict.has (headings z) "_notes" = true))
    /\ (forall e, getMd z only = Raise e \/ getRst z only = Raise e ->
                  e = KeyError).
Proof.
  intros svc z only Ha. split; [|split].
  - apply (@getMd_succeeds svc z only Ha).
  - apply (@getRst_succeeds svc z only Ha).
  - intros e [H | H].
    + apply (@getMd_raises svc z only Ha e H).
    + apply (@getRst_raises svc z only Ha e H).
Qed.

Lemma encoders_succeed_witness :
  let z := {| title := "t"; headings := [("Intro", "x")];
              attrs := [("due_date", VDate (Date 2026 11 4))] |} in
  attrs_inv (attrs z)
  /\ (exists t, @getMd Ref.services z (Some ["intro"]) = Ok t)
  /\ ~ (exists t, @getRst Ref.services z (Some ["_Notes"]) = Ok t).
Proof.
  intros z.
  assert (I : attrs_inv (attrs z)) by attrs_inv_by_cases.
  split; [exact I|]. split.
  - apply (proj1 (@encoders_succeed Ref.services z (Some ["intro"]) I)).
    discriminate.
  - intros H.
    apply (proj1 (proj2 (@encoders_succeed Ref.services z (Some ["_Notes"]) I)))
      in H; [discriminate | reflexivity].
Defined.
(* ================================================================== *)
(** * Updating twice *)
(* ================================================================== *)

Lemma update_absorb {V} (d other : PyDict.dict V) :
  (forall k v, In (k, v) other -> PyDict.get d k = Some v) ->
  PyDict.update d other = d.
Proof.
  unfold PyDict.update. induction other as [|[k v] other IH]; intros H;
    [reflexivity|].
  simpl. rewrite set_get_id by (apply H; left; reflexivity).
  apply IH. intros k' v' Hin. apply H. right. exact Hin.
Qed.

Lemma kept_all (new_headings : PyDict.dict str) (names : list str)
  (hs : PyDict.dict str) :
  (forall h, In h names -> PyDict.has new_headings h = false ->
             PyDict.has hs h = false) ->
  fold_left
    (fun hs heading =>
       if negb (PyDict.has new_headings heading) && PyDict.has hs heading
       then PyDict.del hs heading else hs)
    names hs = hs.
Proof.
  induction names as [|n names IH]; intros H; [reflexivity|].
  simpl. destruct (PyDict.has new_headings n) eqn:E; simpl.
  - apply IH. intros h Hh. apply H. right. exact Hh.
  - rewrite (H n (or_introl eq_refl) E). apply IH.
    intros h Hh. apply H. right. exact Hh.
Qed.

Section UpdateTwice.
Context {svc : Services}.
Hypothesis SuperDate_date : forall d, SuperDate (VDate d) = Ok d.
Variables self new_zettel : Zettel.
Variable exp_headings : option (list str).
Hypothesis Hself : attrs_inv (attrs self).
Hypothesis Hnew : attrs_inv (attrs new_zettel).
Hypothesis Nself : NoDup (PyDict.keys (headings self)).
Hypothesis Nnew : NoDup (PyDict.keys (headings new_zettel)).

(** The heading map [Zettel.update] leaves in [self]. *)
Let updated_headings (old : PyDict.dict str) : PyDict.dict str :=
  match exp_headings with
  | None | Some [] => headings new_zettel
  | Some names =>
      PyDict.update
        (fold_left
           (fun hs heading =>
              if negb (PyDict.has (headings new_zettel) heading)
                 && PyDict.has hs heading
              then PyDict.del hs heading else hs)
           names old)
        (headings new_zettel)
  end.

Lemma Zettel_update_value (old : Zettel) (c : PyValue) :
  attrs_inv (attrs old) ->
  PyDict.get (attrs old) "creation_date" = Some c ->
  Zettel_update old new_zettel exp_headings
  = Ok {| title := title new_zettel;
          headings := updated_headings (headings old);
          attrs := PyDict.set (attrs new_zettel) "creation_date" c |}.
Proof.
  intros Hold Hc. unfold Zettel_update.
  rewrite (@Attributes_update_inv svc SuperDate_date _ Hnew). cbn [bind].
  unfold Attributes_getitem. rewrite Hc.
  rewrite (@setitem_inv svc SuperDate_date).
  2:{ intros Ht Hk. destruct Hold as [_ Hd].
      apply (Hd "creation_date" c); [apply get_In | |]; assumption. }
  cbn [bind]. unfold updated_headings.
  destruct exp_headings as [[|n names]|]; reflexivity.
Qed.

Lemma updated_twice :
  updated_headings (updated_headings (headings self))
  = updated_headings (headings self).
Proof.
  unfold updated_headings.
  destruct exp_headings as [[|n names]|]; try reflexivity.
  set (kept := fold_left _ (n :: names) (headings self)).
  assert (Nk : NoDup (PyDict.keys kept))
    by (apply kept_NoDup; exact Nself).
  assert (G : forall h,
             PyDict.get (PyDict.update kept (headings new_zettel)) h =
             match PyDict.get (headings new_zettel) h with
             | Some v => Some v
             | None =>
                 if PyStr.mem h (n :: names)
                    && negb (PyDict.has (headings new_zettel) h)
                 then None else PyDict.get (headings self) h
             end).
  { intros h. rewrite get_update, (@get_rev_NoDup _ _ h Nnew).
    destruct (PyDict.get (headings new_zettel) h); [reflexivity|].
    apply (@kept_get (headings new_zettel) (n :: names) _ h Nself). }
  rewrite kept_all.
  - apply update_absorb. intros k v Hin. rewrite G.
    rewrite (@In_get _ _ k v Nnew Hin). reflexivity.
  - intros h Hin Hh. apply has_get. rewrite G.
    rewrite (proj1 (has_get _ _) Hh), Hh.
    apply mem_In in Hin. rewrite Hin. reflexivity.
Qed.

Lemma update_twice (c : PyValue) (z1 : Zettel) :
  PyDict.get (attrs self) "creation_date" = Some c ->
  Zettel_update self new_zettel exp_headings = Ok z1 ->
  Zettel_update z1 new_zettel exp_headings = Ok z1.
Proof.
  intros Hc H1. rewrite (@Zettel_update_value self c Hself Hc) in H1.
  injection H1 as <-.
  rewrite (@Zettel_update_value _ c).
  - cbn [headings attrs title]. rewrite updated_twice. reflexivity.
  - cbn [attrs]. apply (@setitem_keeps_inv svc (attrs new_zettel) _
                          "creation_date" c Hnew).
    apply (@setitem_inv svc SuperDate_date).
    intros Ht Hk. destruct Hself as [_ Hd].
    apply (Hd "creation_date" c); [apply get_In | |]; assumption.
  - cbn [attrs]. apply get_set_same.
Qed.

End UpdateTwice.

(** X11.  Updating a Zettel a second time from the same Zettel, with the same
    expected headings, changes nothing: [update] is idempotent. *)
Theorem update_idempotent :
  forall (svc : Services) (self new_zettel z1 : Zettel)
         (exp_headings : option (list str)),
    (forall d, SuperDate (VDate d) = Ok d) ->
    attrs_inv (attrs self) -> attrs_inv (attrs new_zettel) ->
    NoDup (PyDict.keys (headings self)) ->
    NoDup (PyDict.keys (headings new_zettel)) ->
    PyDict.has (attrs self) "creation_date" = true ->
    Zettel_update self new_zettel exp_headings = Ok z1 ->
    Zettel_update z1 new_zettel exp_headings = Ok z1.
Proof.
  intros svc self new z1 exp Hsd Hs Hn Ns Nn Hc H.
  unfold PyDict.has in Hc.
  destruct (PyDict.get (attrs self) "creation_date") as [c|] eqn:G;
    [|discriminate].
  apply (@update_twice svc Hsd self new exp Hs Hn Ns Nn c z1 G H).
Qed.

Lemma update_idempotent_witness :
  let self :=
    {| title := "old";
       headings := [("a", "1"); ("b", "2"); ("c", "3")];
       attrs := [("creation_date", VDate (Date 2020 1 1));
                 ("zlinks", VDict [])] |} in
  let new_zettel :=
    {| title := "new";
       headings := [("c", "30"); ("d", "4")];
       attrs := [("creation_date", VDate (Date 2026 11 4));
                 ("zlinks", VDict []); ("greeting", VStr "hi")] |} in
  let z1 :=
    {| title := "new";
       headings := [("a", "1"); ("c", "30"); ("d", "4")];
       attrs := [("creation_date", VDate (Date 2020 1 1));
                 ("zlinks", VDict []); ("greeting", VStr "hi")] |} in
  @Zettel_update Ref.services self new_zettel (Some ["b"; "c"]) = Ok z1
  /\ @Zettel_update Ref.services z1 new_zettel (Some ["b"; "c"]) = Ok z1.
Proof.
  intros self new_zettel z1.
  assert (H : @Zettel_update Ref.services self new_zettel (Some ["b"; "c"])
              = Ok z1) by reflexivity.
  split; [exact H|].
  apply (@update_idempotent Ref.services self new_zettel z1 (Some ["b"; "c"])
           (fun d => eq_refl)).
  - attrs_inv_by_cases.
  - attrs_inv_by_cases.
  - repeat constructor; simpl; intuition discriminate.
  - repeat constructor; simpl; intuition discriminate.
  - reflexivity.
  - exact H.
Defined.
(* ================================================================== *)
(** * Packing and unpacking several Zettels *)
(* ================================================================== *)

Section GlueFacts.
Variable sep : str.
Hypothesis sep_nonempty : sep <> [].
Hypothesis sep_one_line : forallb (fun c => negb (Ascii.eqb c NL)) sep = true.

Lemma startswith_app_cases (a b p : str) :
  PyStr.startswith (a ++ b) p = true ->
  PyStr.startswith a p = true
  \/ exists q, p = a ++ q /\ PyStr.startswith b q = true.
Proof.
  revert p. induction a as [|c a IH]; intros p H.
  - right. exists p. auto.
  - destruct p as [|d p]; [left; reflexivity|].
    simpl in H. apply andb_true_iff in H. destruct H as [Hc Hp].
    apply Ascii.eqb_eq in Hc. subst d.
    destruct (IH p Hp) as [G | [q [-> G]]].
    + left. simpl. rewrite Ascii.eqb_refl. exact G.
    + right. exists q. auto.
Qed.

Lemma startswith_nl (r : str) : PyStr.startswith (NL :: r) sep = false.
Proof.
  destruct sep as [|d q]; [congruence|].
  simpl in sep_one_line. apply andb_true_iff in sep_one_line.
  destruct sep_one_line as [Hd _]. apply negb_true_iff in Hd.
  simpl. rewrite Hd. reflexivity.
Qed.

Lemma no_sep_across (x rest : str) :
  PyStr.startswith x sep = false ->
  PyStr.startswith (x ++ NL :: rest) sep = false.
Proof.
  intros H. destruct (PyStr.startswith (x ++ NL :: rest) sep) eqn:E;
    [|reflexivity].
  apply startswith_app_cases in E. destruct E as [E | [q [Hq E]]];
    [congruence|].
  destruct q as [|d q].
  - rewrite app_nil_r in Hq. subst x.
    assert (K : PyStr.startswith sep sep = true).
    { apply startswith_iff. exists []. rewrite app_nil_r. reflexivity. }
    congruence.
  - simpl in E. apply andb_true_iff in E. destruct E as [Ed _].
    apply Ascii.eqb_eq in Ed. subst d.
    rewrite Hq, forallb_app in sep_one_line.
    apply andb_true_iff in sep_one_line. destruct sep_one_line as [_ F].
    simpl in F. discriminate F.
Qed.

Lemma split_text_nl (x rest : str) :
  PyStr.contains x sep = false ->
  PyStr.split (x ++ NL :: sep ++ rest) sep
  = (x ++ [NL]) :: PyStr.split rest sep.
Proof.
  induction x as [|c x IH]; intros H.
  - cbn [app].
    destruct (@split_nomatch sep NL (sep ++ rest) (startswith_nl _))
      as [p [ps [E ->]]].
    rewrite (@split_match sep sep_nonempty (sep ++ rest)
               (startswith_app sep rest)) in E.
    rewrite skipn_app, skipn_all, Nat.sub_diag in E. cbn [skipn app] in E.
    injection E as <- <-. reflexivity.
  - cbn [PyStr.contains] in H. apply orb_false_iff in H.
    destruct H as [H1 H2].
    change ((c :: x) ++ NL :: sep ++ rest)
      with (c :: (x ++ NL :: sep ++ rest)).
    assert (F : PyStr.startswith (c :: x ++ NL :: sep ++ rest) sep = false).
    { change (c :: x ++ NL :: sep ++ rest)
        with ((c :: x) ++ NL :: sep ++ rest).
      apply no_sep_across. exact H1. }
    destruct (@split_nomatch sep c _ F) as [p [ps [E ->]]].
    rewrite (IH H2) in E. injection E as <- <-. reflexivity.
Qed.

Lemma contains_nl_prefix (t : str) :
  PyStr.contains t sep = false -> PyStr.contains (NL :: t) sep = false.
Proof.
  intros H. cbn [PyStr.contains]. rewrite startswith_nl, H. reflexivity.
Qed.

Lemma split_pieces (texts : list str) :
  forall prefix,
    texts <> [] ->
    (forall t, PyStr.contains t sep = false ->
               PyStr.contains (prefix ++ t) sep = false) ->
    (forall t, In t texts -> PyStr.contains t sep = false) ->
    PyStr.split (prefix ++ PyStr.join ("\n" ++ sep ++ "\n\n\n") texts) sep
    = pieces_from prefix texts.
Proof.
  induction texts as [|t texts IH]; intros prefix Hne Hp Ht; [congruence|].
  destruct texts as [|t2 texts].
  - simpl. apply (@split_absent sep). apply Hp, Ht. left. reflexivity.
  - rewrite join_cons by discriminate.
    change (pieces_from prefix (t :: t2 :: texts))
      with ((prefix ++ t ++ "\n") :: pieces_from "\n\n\n" (t2 :: texts)).
    rewrite <- (IH "\n\n\n");
      [| discriminate
       | intros u Hu; do 3 apply contains_nl_prefix; exact Hu
       | intros u Hu; apply Ht; right; exact Hu].
    pose proof (@split_text_nl (prefix ++ t)
                  ("\n\n\n" ++ PyStr.join ("\n" ++ sep ++ "\n\n\n")
                                  (t2 :: texts))
                  (Hp t (Ht t (or_introl eq_refl)))) as S.
    rewrite <- ?app_assoc in S. rewrite <- ?app_assoc. exact S.
Qed.

End GlueFacts.
Section StripFrame.

Lemma lstrip_ws_prefix (ws x : str) :
  forallb PyStr.isspace ws = true -> PyStr.lstrip (ws ++ x) = PyStr.lstrip x.
Proof.
  induction ws as [|c ws IH]; intros H; [reflexivity|].
  simpl in H. apply andb_true_iff in H. destruct H as [Hc Hw].
  simpl. rewrite Hc. apply IH, Hw.
Qed.

Lemma rstrip_ws_suffix (x ws : str) :
  forallb PyStr.isspace ws = true -> PyStr.rstrip (x ++ ws) = PyStr.rstrip x.
Proof.
  intros H. unfold PyStr.rstrip. rewrite rev_app_distr.
  rewrite lstrip_ws_prefix by (rewrite forallb_rev; exact H). reflexivity.
Qed.

Lemma lstrip_nil_all_space (s : str) :
  PyStr.lstrip s = [] -> forallb PyStr.isspace s = true.
Proof.
  induction s as [|c s IH]; [reflexivity|]. simpl.
  destruct (PyStr.isspace c); [exact IH | discriminate].
Qed.

Lemma strip_frame (ws1 t ws2 : str) :
  forallb PyStr.isspace ws1 = true -> forallb PyStr.isspace ws2 = true ->
  PyStr.strip (ws1 ++ t ++ ws2) = PyStr.strip t.
Proof.
  intros H1 H2. unfold PyStr.strip. rewrite (lstrip_ws_prefix _ _ H1).
  destruct (lstrip_cases t) as [E | [u [c [v [-> [Hu Hc]]]]]].
  - rewrite E. rewrite lstrip_all_space; [reflexivity|].
    rewrite forallb_app, (lstrip_nil_all_space _ E), H2. reflexivity.
  - rewrite <- app_assoc. cbn [app].
    rewrite !lstrip_app, Hu by assumption. cbn [app].
    change (c :: v ++ ws2) with ((c :: v) ++ ws2).
    apply rstrip_ws_suffix. exact H2.
Qed.

Lemma framed_first (marker t : str) :
  framed marker t -> starts_nonspace t = true.
Proof.
  intros [b [tail [-> H]]]. rewrite app_assoc.
  apply starts_nonspace_app. exact H.
Qed.

Lemma framed_contains (marker t : str) :
  framed marker t -> PyStr.contains t marker = true.
Proof. intros [b [tail [-> _]]]. apply contains_iff. eauto. Qed.

Lemma starts_nonspace_lstrip (t : str) :
  starts_nonspace t = true -> PyStr.lstrip t = t.
Proof.
  destruct t as [|c t]; [discriminate|]. simpl. intros H.
  apply negb_true_iff in H. rewrite H. reflexivity.
Qed.

Lemma framed_rstrip (m' : str) (c : ascii) (t : str) :
  PyStr.isspace c = false -> framed (m' ++ [c]) t ->
  framed (m' ++ [c]) (PyStr.rstrip t).
Proof.
  intros Hc [b [tail [-> H]]]. exists b, (PyStr.rstrip tail). split; [|exact H].
  rewrite <- !app_assoc. cbn [app]. rewrite !app_assoc.
  rewrite rstrip_app by exact Hc. reflexivity.
Qed.

Lemma rstrip_app_framed (m' : str) (c : ascii) (a t : str) :
  PyStr.isspace c = false -> framed (m' ++ [c]) t ->
  PyStr.rstrip (a ++ t) = a ++ PyStr.rstrip t.
Proof.
  intros Hc [b [tail [-> H]]].
  rewrite <- !app_assoc. cbn [app]. rewrite !app_assoc.
  rewrite !rstrip_app by exact Hc. rewrite <- !app_assoc. reflexivity.
Qed.

End StripFrame.
Section MapFacts.
Context {A B : Type}.
Variable f : A -> result B.

Lemma mapM_cons_inv (l : list A) (y : B) (ys : list B) :
  mapM f l = Ok (y :: ys) ->
  exists a l1, l = a :: l1 /\ f a = Ok y /\ mapM f l1 = Ok ys.
Proof.
  destruct l as [|a l1]; simpl; [discriminate|].
  destruct (f a) as [b|] eqn:Ea; simpl; [|discriminate].
  destruct (mapM f l1) as [bs|] eqn:El; simpl; [|discriminate].
  intros H. injection H as <- <-. exists a, l1. auto.
Qed.

Lemma mapM_nil_inv (l : list A) : mapM f l = Ok [] -> l = [].
Proof.
  destruct l as [|a l1]; simpl; [reflexivity|].
  destruct (f a) as [b|]; simpl; [|discriminate].
  destruct (mapM f l1) as [bs|]; simpl; discriminate.
Qed.

Lemma mapM_cons (a : A) (l : list A) (y : B) (ys : list B) :
  f a = Ok y -> mapM f l = Ok ys -> mapM f (a :: l) = Ok (y :: ys).
Proof. intros H1 H2. simpl. rewrite H1, H2. reflexivity. Qed.

Lemma mapM_Permutation_back (ys ys' : list B) :
  Permutation ys ys' ->
  forall l, mapM f l = Ok ys ->
  exists l', Permutation l l' /\ mapM f l' = Ok ys'.
Proof.
  induction 1 as [|x ys ys' P IH|x y ys|ys ys' ys'' P1 IH1 P2 IH2];
    intros l H.
  - apply mapM_nil_inv in H. subst. exists []. split; [constructor | reflexivity].
  - apply mapM_cons_inv in H. destruct H as [a [l1 [-> [Ha Hl]]]].
    destruct (IH l1 Hl) as [l2 [P2 H2]].
    exists (a :: l2). split; [apply perm_skip; exact P2|].
    apply mapM_cons; assumption.
  - apply mapM_cons_inv in H. destruct H as [a [l1 [-> [Ha Hl]]]].
    apply mapM_cons_inv in Hl. destruct Hl as [b [l2 [-> [Hb Hl]]]].
    exists (b :: a :: l2). split; [apply perm_swap|].
    apply mapM_cons; [exact Hb|]. apply mapM_cons; assumption.
  - destruct (IH1 l H) as [l1 [Q1 H1]].
    destruct (IH2 l1 H1) as [l2 [Q2 H2]].
    exists l2. split; [etransitivity; eassumption | exact H2].
Qed.

Lemma mapM_all_Ok (l : list A) :
  (forall x, In x l -> exists y, f x = Ok y) -> exists ys, mapM f l = Ok ys.
Proof.
  induction l as [|x l IH]; intros H; [exists []; reflexivity|].
  destruct (H x (or_introl eq_refl)) as [y Hy].
  destruct IH as [ys Hys]; [intros x' Hx'; apply H; right; exact Hx'|].
  exists (y :: ys). apply mapM_cons; assumption.
Qed.

Lemma mapM_pointwise (l l' : list A) :
  Forall2 (fun a b => f a = f b) l l' -> mapM f l = mapM f l'.
Proof.
  induction 1 as [|a b l l' H1 H2 IH]; [reflexivity|].
  simpl. rewrite H1, IH. reflexivity.
Qed.

End MapFacts.

Section Unpack.
Context {svc : Services}.
Variable m' : str.
Variable c : ascii.
Variable sep : str.
Variable decode : str -> result Zettel.
Hypothesis c_nonspace : PyStr.isspace c = false.
Hypothesis sep_nonempty : sep <> [].
Hypothesis sep_one_line : forallb (fun c => negb (Ascii.eqb c NL)) sep = true.
Hypothesis no_file :
  forall p, PyStr.contains p (m' ++ [c]) = true -> os_path_exists p = false.
Hypothesis no_file_empty : os_path_exists "" = false.
Hypothesis decode_strip :
  forall a b, input_text a = Ok a -> input_text b = Ok b ->
              PyStr.strip a = PyStr.strip b -> decode a = decode b.

Lemma input_marker (p : str) :
  PyStr.contains p (m' ++ [c]) = true -> input_text p = Ok p.
Proof. intros H. unfold input_text. rewrite (no_file _ H). reflexivity. Qed.

Lemma contains_app_l (a t m : str) :
  PyStr.contains t m = true -> PyStr.contains (a ++ t) m = true.
Proof.
  rewrite !contains_iff. intros [x [y ->]]. exists (a ++ x), y.
  rewrite <- app_assoc. reflexivity.
Qed.

Lemma contains_app_r (t a m : str) :
  PyStr.contains t m = true -> PyStr.contains (t ++ a) m = true.
Proof.
  rewrite !contains_iff. intros [x [y ->]]. exists x, (y ++ a).
  rewrite <- !app_assoc. reflexivity.
Qed.

Lemma decode_piece (ws1 t ws2 : str) :
  forallb PyStr.isspace ws1 = true -> forallb PyStr.isspace ws2 = true ->
  framed (m' ++ [c]) t ->
  decode (ws1 ++ t ++ ws2) = decode t.
Proof.
  intros H1 H2 Hf. pose proof (@framed_contains _ _ Hf) as Hc.
  apply decode_strip.
  - apply input_marker, contains_app_l, contains_app_r, Hc.
  - apply input_marker, Hc.
  - apply strip_frame; assumption.
Qed.

Lemma decode_pieces (texts : list str) :
  forall prefix,
    forallb PyStr.isspace prefix = true ->
    (forall t, In t texts -> framed (m' ++ [c]) t) ->
    mapM decode (pieces_from prefix texts) = mapM decode texts.
Proof.
  induction texts as [|t texts IH]; intros prefix Hp Hf; [reflexivity|].
  destruct texts as [|t2 texts].
  - cbn [pieces_from mapM].
    rewrite <- (app_nil_r (prefix ++ t)), <- app_assoc.
    rewrite (@decode_piece prefix t [] Hp eq_refl (Hf t (or_introl eq_refl))).
    reflexivity.
  - change (pieces_from prefix (t :: t2 :: texts))
      with ((prefix ++ t ++ "\n") :: pieces_from "\n\n\n" (t2 :: texts)).
    cbn [mapM].
    rewrite (@decode_piece prefix t "\n" Hp eq_refl (Hf t (or_introl eq_refl))).
    rewrite (IH "\n\n\n" eq_refl); [reflexivity|].
    intros u Hu. apply Hf. right. exact Hu.
Qed.

Lemma last_pieces (texts : list str) :
  forall prefix,
    (forall t, In t texts -> t <> []) -> texts <> [] ->
    last (pieces_from prefix texts) "" <> [].
Proof.
  induction texts as [|t texts IH]; intros prefix Hne H0; [congruence|].
  destruct texts as [|t2 texts].
  - simpl. intros E. apply app_eq_nil in E.
    apply (Hne t (or_introl eq_refl)), E.
  - change (pieces_from prefix (t :: t2 :: texts))
      with ((prefix ++ t ++ "\n") :: pieces_from "\n\n\n" (t2 :: texts)).
    rewrite last_cons.
    + apply IH; [|discriminate]. intros u Hu. apply Hne. right. exact Hu.
    + destruct texts; discriminate.
Qed.

Lemma framed_nonempty (t : str) : framed (m' ++ [c]) t -> t <> [].
Proof.
  intros H E. apply (@framed_first _ _) in H. rewrite E in H. discriminate.
Qed.

(** Unpacking the join of framed texts decodes each of them. *)
Lemma unpack_texts (texts : list str) :
  (forall t, In t texts ->
     framed (m' ++ [c]) t /\ PyStr.contains t sep = false) ->
  (text <- input_text (PyStr.join ("\n" ++ sep ++ "\n\n\n") texts) ;;
   match PyStr.strip text with
   | [] => Ok []
   | x :: r => mapM decode (chunks (x :: r) sep)
   end)
  = mapM decode texts.
Proof.
  intros H.
  destruct (exists_last_or_nil texts) as [-> | [init [tn E]]].
  - simpl. rewrite (@input_text_empty svc no_file_empty). reflexivity.
  - set (glue := "\n" ++ sep ++ "\n\n\n").
    destruct (H tn) as [Fn Cn]; [rewrite E; apply in_or_app; right; left; reflexivity|].
    assert (Hi : forall t, In t init ->
                   framed (m' ++ [c]) t /\ PyStr.contains t sep = false).
    { intros t Ht. apply H. rewrite E. apply in_or_app. left. exact Ht. }
    assert (W : PyStr.join glue texts
                = concat (map (fun e => e ++ glue) init) ++ tn).
    { rewrite E. apply (@join_app_cons glue init tn []). }
    assert (First : starts_nonspace (PyStr.join glue texts) = true).
    { rewrite E. destruct init as [|t1 init].
      - simpl. apply (@framed_first _ _ Fn).
      - change ((t1 :: init) ++ [tn]) with (t1 :: (init ++ [tn])).
        rewrite join_cons by (destruct init; discriminate).
        apply starts_nonspace_app.
        apply (@framed_first _ _ (proj1 (Hi t1 (or_introl eq_refl)))). }
    assert (In1 : input_text (PyStr.join glue texts)
                  = Ok (PyStr.join glue texts)).
    { apply input_marker. rewrite W. apply contains_app_l.
      apply (@framed_contains _ _ Fn). }
    rewrite In1. cbn [bind].
    assert (S : PyStr.strip (PyStr.join glue texts)
                = PyStr.join glue (init ++ [PyStr.rstrip tn])).
    { unfold PyStr.strip. rewrite (@starts_nonspace_lstrip _ First).
      rewrite W, (@rstrip_app_framed m' c _ tn c_nonspace Fn).
      symmetry. apply (@join_app_cons glue init (PyStr.rstrip tn) []). }
    rewrite S.
    pose proof (@framed_rstrip m' c tn c_nonspace Fn) as Fr.
    assert (Hall : forall t, In t (init ++ [PyStr.rstrip tn]) ->
                     framed (m' ++ [c]) t /\ PyStr.contains t sep = false).
    { intros t Ht. apply in_app_or in Ht. destruct Ht as [Ht | [<- | []]].
      - apply Hi, Ht.
      - split; [exact Fr|].
        destruct (rstrip_prefix tn) as [w Hw].
        apply (@contains_app_false _ w). rewrite <- Hw. exact Cn. }
    assert (P : PyStr.split (PyStr.join glue (init ++ [PyStr.rstrip tn])) sep
                = pieces_from "" (init ++ [PyStr.rstrip tn])).
    { apply (@split_pieces sep sep_nonempty sep_one_line _ "").
      - destruct init; discriminate.
      - intros t Ht. exact Ht.
      - intros t Ht. apply (Hall t Ht). }
    assert (L : last (pieces_from "" (init ++ [PyStr.rstrip tn])) "" <> []).
    { apply last_pieces; [|destruct init; discriminate].
      intros t Ht. apply framed_nonempty. apply (Hall t Ht). }
    destruct (PyStr.join glue (init ++ [PyStr.rstrip tn])) as [|x r] eqn:J.
    + exfalso. apply L. rewrite <- P. reflexivity.
    + unfold chunks. rewrite P.
      destruct (last (pieces_from "" (init ++ [PyStr.rstrip tn])) "")
        as [|y l] eqn:La; [congruence|].
      rewrite (@decode_pieces _ "" eq_refl (fun t Ht => proj1 (Hall t Ht))).
      rewrite E. apply mapM_pointwise.
      apply Forall2_app; [|constructor; [|constructor]].
      * clear. induction init; constructor; auto.
      * rewrite <- (app_nil_r (PyStr.rstrip tn)).
        change (PyStr.rstrip tn ++ []) with ([] ++ PyStr.rstrip tn ++ []).
        rewrite (@decode_piece [] _ [] eq_refl eq_refl Fr).
        apply decode_strip.
        -- apply input_marker, (@framed_contains _ _ Fr).
        -- apply input_marker, (@framed_contains _ _ Fn).
        -- apply strip_rstrip.
Qed.

End Unpack.
Section PackUnpack.
Context {svc : Services}.
Variable m' : str.
Variable c : ascii.
Variable sep : str.
Variable encode : Zettel -> result str.
Variable decode : str -> result Zettel.
Variable good : Zettel -> Prop.
Hypothesis c_nonspace : PyStr.isspace c = false.
Hypothesis sep_nonempty : sep <> [].
Hypothesis sep_one_line : forallb (fun c => negb (Ascii.eqb c NL)) sep = true.
Hypothesis no_file :
  forall p, PyStr.contains p (m' ++ [c]) = true -> os_path_exists p = false.
Hypothesis no_file_empty : os_path_exists "" = false.
Hypothesis decode_strip :
  forall a b, input_text a = Ok a -> input_text b = Ok b ->
              PyStr.strip a = PyStr.strip b -> decode a = decode b.
Hypothesis good_round_trip :
  forall z, good z ->
    exists t, encode z = Ok t
      /\ framed (m' ++ [c]) t /\ PyStr.contains t sep = false
      /\ exists z', decode t = Ok z' /\ same_zettel z z'.

Lemma decode_encoded (p : list Zettel) :
  forall ts, mapM encode p = Ok ts -> (forall z, In z p -> good z) ->
  (forall t, In t ts ->
     framed (m' ++ [c]) t /\ PyStr.contains t sep = false)
  /\ exists zs', mapM decode ts = Ok zs' /\ Forall2 same_zettel p zs'.
Proof.
  induction p as [|z p IH]; intros ts H G.
  - simpl in H. injection H as <-. split; [intros t []|].
    exists []. split; [reflexivity | constructor].
  - simpl in H. destruct (encode z) as [t|] eqn:Ez; cbn [bind] in H;
      [|discriminate].
    destruct (mapM encode p) as [ts1|] eqn:Ep; cbn [bind] in H; [|discriminate].
    injection H as <-.
    destruct (@good_round_trip z (G z (or_introl eq_refl)))
      as [t0 [E0 [F0 [C0 [z' [D0 S0]]]]]].
    rewrite Ez in E0. injection E0 as <-.
    destruct (IH ts1 eq_refl (fun x Hx => G x (or_intror Hx)))
      as [A [zs' [Hd Hs]]].
    split.
    + intros u [<- | Hu]; [split; assumption | apply A, Hu].
    + exists (z' :: zs'). split; [apply mapM_cons; assumption|].
      constructor; assumption.
Qed.

Lemma pack_unpack (zs : list Zettel) :
  (forall z, In z zs -> good z) ->
  exists texts zs' p,
    mapM encode zs = Ok texts
    /\ (text <- input_text (PyStr.join ("\n" ++ sep ++ "\n\n\n")
                              (PyStr.sorted texts)) ;;
        match PyStr.strip text with
        | [] => Ok []
        | x :: r => mapM decode (chunks (x :: r) sep)
        end) = Ok zs'
    /\ Permutation zs p /\ Forall2 same_zettel p zs'.
Proof.
  intros G.
  destruct (@mapM_all_Ok _ _ encode zs) as [texts Ht].
  { intros z Hz. destruct (@good_round_trip z (G z Hz)) as [t [E _]]. eauto. }
  destruct (@mapM_Permutation_back _ _ encode texts (PyStr.sorted texts)
              (sorted_perm texts) zs Ht) as [p [Pp Hp]].
  destruct (@decode_encoded p (PyStr.sorted texts) Hp) as [A [zs' [Hd Hs]]].
  { intros z Hz. apply G. apply (Permutation_in _ (Permutation_sym Pp) Hz). }
  exists texts, zs', p. split; [exact Ht|]. split; [|split; assumption].
  rewrite (@unpack_texts svc m' c sep decode c_nonspace sep_nonempty
             sep_one_line no_file no_file_empty decode_strip _ A).
  exact Hd.
Qed.

End PackUnpack.

Section DecodeStrip.
Context {svc : Services}.

Lemma createFromMd_strip (a b : str) :
  input_text a = Ok a -> input_text b = Ok b ->
  PyStr.strip a = PyStr.strip b -> createFromMd a = createFromMd b.
Proof.
  intros Ha Hb E. unfold createFromMd. rewrite Ha, Hb. cbn [bind].
  cbv zeta. rewrite E. reflexivity.
Qed.

Lemma createFromRst_strip (a b : str) :
  input_text a = Ok a -> input_text b = Ok b ->
  PyStr.strip a = PyStr.strip b -> createFromRst a = createFromRst b.
Proof.
  intros Ha Hb E. unfold createFromRst. rewrite Ha, Hb. cbn [bind].
  cbv zeta. rewrite E. reflexivity.
Qed.

Lemma str_to_zettels_md (t : str) :
  str_to_zettels t "md"
  = (text <- input_text t ;;
     match PyStr.strip text with
     | [] => Ok []
     | x :: r => mapM createFromMd (chunks (x :: r) md_sep)
     end).
Proof.
  unfold str_to_zettels. simpl PyStr.eqb. cbv iota.
  unfold get_zettels_from_md. destruct (input_text t) as [text|]; cbn [bind];
    [|reflexivity].
  cbv zeta. destruct (PyStr.strip text); reflexivity.
Qed.

Lemma str_to_zettels_rst (t : str) :
  str_to_zettels t "rst"
  = (text <- input_text t ;;
     match PyStr.strip text with
     | [] => Ok []
     | x :: r => mapM createFromRst (chunks (x :: r) rst_sep)
     end).
Proof.
  unfold str_to_zettels. simpl PyStr.eqb. cbv iota.
  unfold get_zettels_from_rst. destruct (input_text t) as [text|]; cbn [bind];
    [|reflexivity].
  cbv zeta. destruct (PyStr.strip text); reflexivity.
Qed.

Lemma md_framed (z : Zettel) (t : str) :
  md_canonical z -> getMd z None = Ok t -> framed "<!--- attributes --->" t.
Proof.
  intros Hc H. pose proof Hc as [Hh _ _].
  destruct (@getMd_shape svc z None t H) as [_ [a [Ha _]]].
  rewrite (@getMd_canonical svc _ _ z Hh a Ha) in H. injection H as <-.
  exists (concat (map (fun e => e ++ "\n") (md_elems z))),
         (attribute_tail [] a).
  split; [apply md_text_shape|].
  apply starts_nonspace_elems; [reflexivity | apply (@md_elems_start z Hc)].
Qed.

Lemma rst_framed (z : Zettel) (t : str) :
  rst_canonical z -> getRst z None = Ok t -> framed ".. attributes\n::" t.
Proof.
  intros Hc H. pose proof Hc as [Hh _ _].
  destruct (@getRst_shape svc z None t H) as [_ [a [Ha _]]].
  rewrite (@getRst_canonical svc _ _ z Hh a Ha) in H. injection H as <-.
  exists (concat (map (fun e => e ++ "\n") (rst_elems z))),
         (attribute_tail [""] a).
  split; [apply rst_text_shape|].
  apply starts_nonspace_elems; [reflexivity | apply (@rst_elems_start z Hc)].
Qed.

End DecodeStrip.

(** X12.  Unpacking what [zettels_to_str] packs, Markdown: the Zettels come
    back, in some order.  The Zettels are in canonical form with readable
    attributes, no encoding contains the sentinel [md_sep], and neither
    the empty path nor a path that contains the attribute marker names a
    file. *)
Theorem md_pack_unpack :
  forall (svc : Services) (zettels : list Zettel),
    (forall p, PyStr.contains p "<!--- attributes --->" = true ->
               os_path_exists p = false) ->
    os_path_exists "" = false ->
    (forall z, In z zettels ->
       md_canonical z
       /\ attributes_readable "<!--- attributes --->" [] z
       /\ forall t, getMd z None = Ok t -> PyStr.contains t md_sep = false) ->
    exists text zettels' sorted_zettels,
      zettels_to_str zettels "md" None = Ok text
      /\ str_to_zettels text "md" = Ok zettels'
      /\ Permutation zettels sorted_zettels
      /\ Forall2 same_zettel sorted_zettels zettels'.
Proof.
  intros svc zs Hfs Hfs0 G.
  destruct (@pack_unpack svc "<!--- attributes ---" ">" md_sep
              (fun z => getMd z None) createFromMd
              (fun z => md_canonical z
                        /\ attributes_readable "<!--- attributes --->" [] z
                        /\ forall t, getMd z None = Ok t ->
                                     PyStr.contains t md_sep = false)
              eq_refl ltac:(discriminate) eq_refl Hfs Hfs0
              createFromMd_strip) with (zs := zs)
    as [texts [zs' [p [Ht [Hu [Pp Hs]]]]]].
  - intros z [Hc [Hr Hn]].
    destruct (@md_round_trip svc z Hc Hr) as [t [Et Hd]].
    pose proof (@md_framed svc z t Hc Et) as Hf.
    exists t. split; [exact Et|]. split; [exact Hf|].
    split; [apply Hn, Et|]. apply Hd.
    unfold input_text. rewrite (Hfs t (@framed_contains _ _ Hf)). reflexivity.
  - exact G.
  - exists (PyStr.join ("\n" ++ md_sep ++ "\n\n\n") (PyStr.sorted texts)), zs', p.
    split; [|split; [rewrite str_to_zettels_md; exact Hu | split; assumption]].
    rewrite (@zettels_to_str_texts svc "md" None zs
               (or_intror (or_introl eq_refl))).
    unfold encoder, sentinel. simpl PyStr.eqb. cbv iota.
    rewrite Ht. reflexivity.
Qed.

Lemma md_pack_unpack_witness :
  let A := {| title := "a";
              headings := [("_notes", "line1\n\nline2\n"); ("Head", "x")];
              attrs := [("creation_date", VDate (Date 2026 11 4));
                        ("zlinks", VDict [])] |} in
  let B := {| title := "b"; headings := [];
              attrs := [("creation_date", VDate (Date 2026 11 4));
                        ("greeting", VStr "hello"); ("zlinks", VDict [])] |} in
  exists text zettels' sorted_zettels,
    @zettels_to_str Ref.services [B; A] "md" None = Ok text
    /\ @str_to_zettels Ref.services text "md" = Ok zettels'
    /\ Permutation [B; A] sorted_zettels
    /\ Forall2 same_zettel sorted_zettels zettels'.
Proof.
  intros A B.
  apply (@md_pack_unpack Ref.services [B; A]).
  - intros p _. reflexivity.
  - reflexivity.
  - intros z [<- | [<- | []]].
    + split; [constructor; [headings_canonical_by_cases | reflexivity
                            | reflexivity]|].
      split.
      * attributes_readable_by_cases.
      * intros t H. vm_compute in H. injection H as <-. reflexivity.
    + split; [constructor; [headings_canonical_by_cases | reflexivity
                            | reflexivity]|].
      split.
      * attributes_readable_by_cases.
      * intros t H. vm_compute in H. injection H as <-. reflexivity.
Defined.

(** X13.  Unpacking what [zettels_to_str] packs, RST: as for Markdown, with the
    sentinel [rst_sep] and the RST attribute marker. *)
Theorem rst_pack_unpack :
  forall (svc : Services) (zettels : list Zettel),
    (forall p, PyStr.contains p ".. attributes\n::" = true ->
               os_path_exists p = false) ->
    os_path_exists "" = false ->
    (forall z, In z zettels ->
       rst_canonical z
       /\ attributes_readable ".. attributes\n::" [""] z
       /\ forall t, getRst z None = Ok t -> PyStr.contains t rst_sep = false) ->
    exists text zettels' sorted_zettels,
      zettels_to_str zettels "rst" None = Ok text
      /\ str_to_zettels text "rst" = Ok zettels'
      /\ Permutation zettels sorted_zettels
      /\ Forall2 same_zettel sorted_zettels zettels'.
Proof.
  intros svc zs Hfs Hfs0 G.
  destruct (@pack_unpack svc ".. attributes\n:" ":" rst_sep
              (fun z => getRst z None) createFromRst
              (fun z => rst_canonical z
                        /\ attributes_readable ".. attributes\n::" [""] z
                        /\ forall t, getRst z None = Ok t ->
                                     PyStr.contains t rst_sep = false)
              eq_refl ltac:(discriminate) eq_refl Hfs Hfs0
              createFromRst_strip) with (zs := zs)
    as [texts [zs' [p [Ht [Hu [Pp Hs]]]]]].
  - intros z [Hc [Hr Hn]].
    destruct (@rst_round_trip svc z Hc Hr) as [t [Et Hd]].
    pose proof (@rst_framed svc z t Hc Et) as Hf.
    exists t. split; [exact Et|]. split; [exact Hf|].
    split; [apply Hn, Et|]. apply Hd.
    unfold input_text. rewrite (Hfs t (@framed_contains _ _ Hf)). reflexivity.
  - exact G.
  - exists (PyStr.join ("\n" ++ rst_sep ++ "\n\n\n") (PyStr.sorted texts)), zs', p.
    split; [|split; [rewrite str_to_zettels_rst; exact Hu | split; assumption]].
    rewrite (@zettels_to_str_texts svc "rst" None zs (or_introl eq_refl)).
    unfold encoder, sentinel. simpl PyStr.eqb. cbv iota.
    rewrite Ht. reflexivity.
Qed.

Lemma rst_pack_unpack_witness :
  let A := {| title := "a";
              headings := [("_notes", "line1\n\nline2\n"); ("Head", "x")];
              attrs := [("creation_date", VDate (Date 2026 11 4));
                        ("zlinks", VDict [])] |} in
  let B := {| title := "b"; headings := [];
              attrs := [("creation_date", VDate (Date 2026 11 4));
                        ("greeting", VStr "hello"); ("zlinks", VDict [])] |} in
  exists text zettels' sorted_zettels,
    @zettels_to_str Ref.services [B; A] "rst" None = Ok text
    /\ @str_to_zettels Ref.services text "rst" = Ok zettels'
    /\ Permutation [B; A] sorted_zettels
    /\ Forall2 same_zettel sorted_zettels zettels'.
Proof.
  intros A B.
  apply (@rst_pack_unpack Ref.services [B; A]).
  - intros p _. reflexivity.
  - reflexivity.
  - intros z [<- | [<- | []]].
    + split; [constructor; [headings_canonical_by_cases | reflexivity
                            | reflexivity]|].
      split.
      * attributes_readable_by_cases.
      * intros t H. vm_compute in H. injection H as <-. reflexivity.
    + split; [constructor; [headings_canonical_by_cases | reflexivity
                            | reflexivity]|].
      split.
      * attributes_readable_by_cases.
      * intros t H. vm_compute in H. injection H as <-. reflexivity.
Defined.
(* ================================================================== *)
(** * The RST body, rule by rule *)
(* ================================================================== *)

Section RuleFacts.
Context {A : Type}.

Lemma index_last (l : list A) (d : A) :
  l <> [] -> index l (-1) = Ok (last l d).
Proof.
  intros H. unfold index.
  assert (L : 0 < length l) by (destruct l; [congruence | simpl; lia]).
  change (-1 <? 0)%Z with true. cbv iota.
  replace ((0 <=? -1 + Z.of_nat (length l))
           && (-1 + Z.of_nat (length l) <? Z.of_nat (length l)))%Z
    with true
    by (symmetry; apply andb_true_iff; split;
        [apply Z.leb_le | apply Z.ltb_lt]; lia).
  replace (Z.to_nat (-1 + Z.of_nat (length l))) with (length l - 1) by lia.
  destruct (exists_last H) as [l' [x ->]].
  rewrite length_app, last_last. simpl.
  rewrite nth_error_app2 by lia.
  replace (length l' + 1 - 1 - length l') with 0 by lia. reflexivity.
Qed.

Lemma index_before (pre rest : list A) (d : A) :
  pre <> [] ->
  index (pre ++ rest) (Z.of_nat (length pre) - 1) = Ok (last pre d).
Proof.
  intros H. destruct (exists_last H) as [l' [x ->]].
  rewrite length_app, last_last. simpl.
  replace (Z.of_nat (length l' + 1) - 1)%Z with (Z.of_nat (length l')) by lia.
  apply index_nth_error. rewrite <- app_assoc.
  rewrite nth_error_app2 by lia. rewrite Nat.sub_diag. reflexivity.
Qed.

Lemma slice_empty (l : list A) (a b : nat) :
  b <= a -> slice l (Z.of_nat a) (Z.of_nat b) = [].
Proof.
  intros H. unfold slice.
  assert (C : forall n i, clamp_index n (Z.of_nat i) = Z.min (Z.of_nat i) n).
  { intros n i. unfold clamp_index.
    destruct (Z.of_nat i <? 0)%Z eqn:E; [apply Z.ltb_lt in E; lia|].
    reflexivity. }
  rewrite !C.
  replace (Z.to_nat (Z.min (Z.of_nat b) (Z.of_nat (length l))
                     - Z.min (Z.of_nat a) (Z.of_nat (length l))))
    with 0 by lia.
  reflexivity.
Qed.

Lemma slice_all_but_last (l : list A) : slice l 0 (-1) = removelast l.
Proof.
  unfold slice. rewrite removelast_firstn_len.
  unfold clamp_index. change (0 <? 0)%Z with false.
  change (-1 <? 0)%Z with true. cbv iota.
  replace (Z.to_nat (Z.min 0 (Z.of_nat (length l)))) with 0 by lia.
  simpl skipn. f_equal. lia.
Qed.

Lemma slice_removelast (pre rest : list A) :
  pre <> [] ->
  slice (pre ++ rest) 0 (Z.of_nat (length pre) - 1) = removelast pre.
Proof.
  intros H. destruct (exists_last H) as [l' [x ->]].
  rewrite removelast_last, length_app. simpl.
  replace (Z.of_nat (length l' + 1) - 1)%Z with (Z.of_nat (length l')) by lia.
  rewrite <- app_assoc. apply slice_prefix.
Qed.

Lemma slice_whole (l : list A) : slice l 0 (Z.of_nat (length l)) = l.
Proof.
  rewrite <- (app_nil_r l) at 1. apply slice_prefix.
Qed.

Lemma last_default (c : list A) :
  forall x d, last (x :: c) d = last c x.
Proof.
  induction c as [|a c IH]; intros x d; [reflexivity|].
  change (last (x :: a :: c) d) with (last (a :: c) d).
  rewrite (IH a d), (IH a x). reflexivity.
Qed.

Lemma last_app_cons (pre : list A) (x : A) (c : list A) (d : A) :
  last (pre ++ x :: c) d = last c x.
Proof.
  induction pre as [|y pre IH]; [apply last_default|].
  simpl. destruct (pre ++ x :: c) eqn:E; [destruct pre; discriminate|].
  exact IH.
Qed.

End RuleFacts.

Section ScanRules.

Let set_entry (hs : PyDict.dict str) (e : str * str) : PyDict.dict str :=
  PyDict.set hs (fst e) (snd e).

Lemma scan_rules (gs : list (str * list str)) :
  forall (pre : list str) (pts : list Z) (j : nat) (acc : PyDict.dict str),
    (forall i, i < length gs ->
       nth_error pts (j + i)
       = Some (Z.of_nat (length pre + length (flat (firstn i gs))) - 1)%Z) ->
    nth_error pts (j + length gs)
    = Some (Z.of_nat (length (pre ++ flat gs))) ->
    foldM (fun hs ptr =>
             pt <- index pts (Z.of_nat ptr) ;;
             content_end <- index pts (Z.of_nat ptr + 1) ;;
             line <- index (pre ++ flat gs) pt ;;
             Ok (PyDict.set hs line
                   (PyStr.join "\n"
                      (slice (pre ++ flat gs) (pt + 2) content_end))))
          (seq j (length gs)) acc
    = Ok (fold_left set_entry
            (rst_entries (last pre (last (pre ++ flat gs) "")) gs) acc).
Proof.
  induction gs as [|g gs IH]; intros pre pts j acc Hp Hlast; [reflexivity|].
  cbn [length seq foldM rst_entries fold_left].
  pose proof (Hp 0 ltac:(simpl; lia)) as H0.
  rewrite Nat.add_0_r in H0.
  change (length (flat (firstn 0 (g :: gs)))) with 0 in H0.
  rewrite Nat.add_0_r in H0.
  rewrite (@index_nth_error _ _ _ _ H0). cbn [bind].
  replace (Z.of_nat j + 1)%Z with (Z.of_nat (S j)) by lia.
  assert (E : pre ++ flat (g :: gs)
              = (pre ++ [fst g]) ++ snd g ++ flat gs).
  { unfold flat. simpl. rewrite <- !app_assoc. reflexivity. }
  assert (Name : index (pre ++ flat (g :: gs)) (Z.of_nat (length pre) - 1)
                 = Ok (last pre (last (pre ++ flat (g :: gs)) ""))).
  { destruct pre as [|x pre].
    - cbn [app length last]. change (Z.of_nat 0 - 1)%Z with (-1)%Z.
      apply (@index_last _ (flat (g :: gs)) "").
      unfold flat. simpl. discriminate.
    - rewrite (@index_before _ (x :: pre) _ "") by discriminate.
      f_equal. rewrite !last_default. reflexivity. }
  assert (Next : last (pre ++ fst g :: snd g)
                      (last ((pre ++ fst g :: snd g) ++ flat gs) "")
                 = last (snd g) (fst g)).
  { apply last_app_cons. }
  assert (E2 : pre ++ flat (g :: gs) = (pre ++ fst g :: snd g) ++ flat gs).
  { unfold flat. simpl. rewrite <- !app_assoc. reflexivity. }
  assert (Rec : forall acc',
            foldM (fun hs ptr =>
                     pt <- index pts (Z.of_nat ptr) ;;
                     content_end <- index pts (Z.of_nat ptr + 1) ;;
                     line <- index (pre ++ flat (g :: gs)) pt ;;
                     Ok (PyDict.set hs line
                           (PyStr.join "\n"
                              (slice (pre ++ flat (g :: gs)) (pt + 2)
                                 content_end))))
                  (seq (S j) (length gs)) acc'
            = Ok (fold_left set_entry
                    (rst_entries (last (snd g) (fst g)) gs) acc')).
  { intros acc'. rewrite E2, <- Next.
    apply (IH (pre ++ fst g :: snd g) pts (S j) acc').
    - intros i Hi. specialize (Hp (S i) ltac:(simpl; lia)).
      replace (j + S i) with (S j + i) in Hp by lia.
      rewrite Hp. cbn [firstn]. rewrite length_flat_cons, length_app.
      simpl. f_equal. lia.
    - replace (S j + length gs) with (j + length (g :: gs))
        by (simpl; lia).
      rewrite Hlast, E2. reflexivity. }
  destruct gs as [|g2 gs].
  - (* the last rule: the content runs to the end of the text *)
    replace (j + length [g]) with (S j) in Hlast by (simpl; lia).
    rewrite (@index_nth_error _ _ _ _ Hlast). cbn [bind].
    rewrite Name. cbn [bind].
    replace (Z.of_nat (length pre) - 1 + 2)%Z
      with (Z.of_nat (length (pre ++ [fst g]) + 0))
      by (rewrite length_app; simpl; lia).
    assert (S1 : slice (pre ++ flat [g])
                   (Z.of_nat (length (pre ++ [fst g]) + 0))
                   (Z.of_nat (length (pre ++ flat [g])))
                 = snd g).
    { rewrite E.
      replace (length ((pre ++ [fst g]) ++ snd g ++ flat []))
        with (length (pre ++ [fst g]) + length (snd g))
        by (rewrite !length_app; simpl; lia).
      apply (@slice_middle _ (pre ++ [fst g]) (snd g) (flat []) 0).
      lia. }
    rewrite S1. apply Rec.
  - pose proof (Hp 1 ltac:(simpl; lia)) as H1.
    replace (j + 1) with (S j) in H1 by lia.
    change (firstn 1 (g :: g2 :: gs)) with [g] in H1.
    rewrite length_flat_cons in H1.
    change (length (flat [])) with 0 in H1. rewrite Nat.add_0_r in H1.
    rewrite (@index_nth_error _ _ _ _ H1). cbn [bind].
    rewrite Name. cbn [bind].
    assert (S1 : slice (pre ++ flat (g :: g2 :: gs))
                   (Z.of_nat (length pre) - 1 + 2)
                   (Z.of_nat (length pre + S (length (snd g))) - 1)
                 = removelast (snd g)).
    { rewrite E.
      destruct (exists_last_or_nil (snd g)) as [-> | [c' [x ->]]].
      - replace (Z.of_nat (length pre) - 1 + 2)%Z
          with (Z.of_nat (length pre + 1)) by lia.
        replace (Z.of_nat (length pre + S (length (@nil str))) - 1)%Z
          with (Z.of_nat (length pre)) by (simpl; lia).
        apply slice_empty. lia.
      - rewrite removelast_last.
        replace (Z.of_nat (length pre) - 1 + 2)%Z
          with (Z.of_nat (length (pre ++ [fst g]) + 0))
          by (rewrite length_app; simpl; lia).
        replace (Z.of_nat (length pre + S (length (c' ++ [x]))) - 1)%Z
          with (Z.of_nat (length (pre ++ [fst g]) + length c'))
          by (rewrite !length_app; simpl; lia).
        replace ((pre ++ [fst g]) ++ (c' ++ [x]) ++ flat (g2 :: gs))
          with ((pre ++ [fst g]) ++ c' ++ [x] ++ flat (g2 :: gs))
          by (rewrite <- !app_assoc; reflexivity).
        apply (@slice_middle _ (pre ++ [fst g]) c' ([x] ++ flat (g2 :: gs)) 0).
        lia. }
    rewrite S1. apply Rec.
Qed.

End ScanRules.
Lemma rst_rule_pts (rst : list str) :
  let pre := fst (sections _is_rst_heading rst) in
  let gs := snd (sections _is_rst_heading rst) in
  let pts :=
    map (fun xy => (fst xy - 1)%Z)
        (filter (fun xy : Z * str => _is_rst_heading (snd xy)) (enumerate rst))
    ++ [Z.of_nat (length rst)] in
  length pts - 1 = length gs
  /\ (forall i, i < length gs ->
        nth_error pts (0 + i)
        = Some (Z.of_nat (length pre + length (flat (firstn i gs))) - 1)%Z)
  /\ nth_error pts (0 + length gs) = Some (Z.of_nat (length rst)).
Proof.
  intros pre gs pts.
  assert (P : pts = map (fun x => (x - 1)%Z)
                        (map Z.of_nat (starts (length pre) gs))
                    ++ [Z.of_nat (length rst)]).
  { unfold pts, pre, gs. rewrite <- sections_heads. unfold heads_from.
    rewrite map_map. reflexivity. }
  assert (L : length (map (fun x => (x - 1)%Z)
                          (map Z.of_nat (starts (length pre) gs)))
              = length gs)
    by (rewrite !length_map; apply length_starts).
  rewrite P. split; [|split].
  - rewrite length_app, L. simpl. lia.
  - intros i Hi. simpl Nat.add.
    rewrite nth_error_app1 by (rewrite L; exact Hi).
    pose proof (@nth_error_starts gs (length pre) i ltac:(lia)) as N.
    rewrite nth_error_app1 in N
      by (rewrite length_map, length_starts; exact Hi).
    apply (map_nth_error (fun x => (x - 1)%Z)) in N. exact N.
  - simpl Nat.add. rewrite nth_error_app2 by (rewrite L; lia).
    rewrite L, Nat.sub_diag. reflexivity.
Qed.

Lemma rst_sections_read (t : str) (rst : list str) :
  (let heading_pts :=
     map (fun xy => (fst xy - 1)%Z)
         (filter (fun xy => _is_rst_heading (snd xy)) (enumerate rst))
     ++ [Z.of_nat (length rst)] in
   hs <- notes_headings rst heading_pts ;;
   hs <- scan_headings (fun line => line) 2 rst heading_pts hs ;;
   Ok (t, hs))
  = Ok (let (pre, gs) := sections _is_rst_heading rst in
        let notes :=
          PyStr.join "\n"
            (match gs with
             | [] => pre
             | _ => removelast (match pre with [] => rst | _ => pre end)
             end) in
        (t,
         PyDict.update
           (match notes with [] => [] | n => [("_notes", n)] end)
           (rst_entries (last pre (last rst "")) gs))).
Proof.
  cbv zeta.
  destruct (rst_rule_pts rst) as [L [Hp Hlast]].
  pose proof (sections_flat _is_rst_heading rst) as F.
  set (pts := map _ _ ++ _) in *.
  destruct (sections _is_rst_heading rst) as [pre gs]. cbn [fst snd] in *.
  (* the notes *)
  assert (N : notes_headings rst pts
              = Ok (match PyStr.join "\n"
                            (match gs with
                             | [] => pre
                             | _ => removelast
                                      (match pre with [] => rst | _ => pre end)
                             end) with
                    | [] => []
                    | n => [("_notes", n)]
                    end)).
  { unfold notes_headings. destruct gs as [|g gs].
    - simpl in Hlast. pose proof (@index_nth_error _ pts 0 _ Hlast) as I0.
      change (Z.of_nat 0) with 0%Z in I0. rewrite I0. cbn [bind].
      rewrite slice_whole.
      assert (rst = pre) by (rewrite F; unfold flat; simpl; apply app_nil_r).
      subst pre. destruct (PyStr.join "\n" rst); reflexivity.
    - pose proof (Hp 0 ltac:(simpl; lia)) as H0. simpl in H0.
      rewrite Nat.add_0_r in H0.
      pose proof (@index_nth_error _ pts 0 _ H0) as I0.
      change (Z.of_nat 0) with 0%Z in I0. rewrite I0. cbn [bind].
      destruct pre as [|x pre].
      + simpl. rewrite slice_all_but_last.
        destruct (PyStr.join "\n" (removelast rst)); reflexivity.
      + assert (Sl : slice rst 0 (Z.of_nat (length (x :: pre)) - 1)
                     = removelast (x :: pre)).
        { rewrite F. apply slice_removelast. discriminate. }
        rewrite Sl.
        destruct (PyStr.join "\n" (removelast (x :: pre))); reflexivity. }
  rewrite N. cbn [bind].
  unfold scan_headings. rewrite L.
  clearbody pts. subst rst.
  pose proof (@scan_rules gs pre pts 0) as S.
  cbv beta. rewrite S; [|exact Hp|exact Hlast].
  cbn [bind]. unfold PyDict.update.
  destruct (PyStr.join "\n" _); reflexivity.
Qed.

Lemma rst_body_read (rst : list str) : rst_body rst = Ok (rst_read rst).
Proof.
  unfold rst_body, rst_read.
  destruct rst as [|l0 [|l1 [|l2 rest]]];
    try apply (rst_sections_read "").
  destruct (_is_rst_heading l0 && _is_rst_heading l2).
  - apply rst_sections_read.
  - apply (rst_sections_read "").
Qed.
(** X14.  The RST body, for any list of lines: the decoder never fails on it.
    A heading is named by the line before its rule; its content is the
    lines after the rule, up to the line that names the next heading; the
    notes are the lines before the first name.  A rule on the first line
    of the body has no line before it: its heading is then named by the
    last line of the text, and the notes are all lines but the last. *)
Theorem rst_body_by_rules :
  forall rst : list str, rst_body rst = Ok (rst_read rst).
Proof. exact rst_body_read. Qed.

Section RstNormal.

Lemma forallb_removelast {A} (f : A -> bool) (l : list A) :
  forallb f l = true -> forallb f (removelast l) = true.
Proof.
  intros H. destruct (exists_last_or_nil l) as [-> | [ys [y ->]]];
    [reflexivity|].
  rewrite removelast_last. rewrite forallb_app in H.
  apply andb_true_iff in H. apply H.
Qed.

Lemma forallb_last {A} (f : A -> bool) (l : list A) (d : A) :
  forallb f l = true -> f d = true -> f (last l d) = true.
Proof.
  intros H Hd. destruct (exists_last_or_nil l) as [-> | [ys [y ->]]];
    [exact Hd|].
  rewrite last_last. rewrite forallb_app in H.
  apply andb_true_iff in H. destruct H as [_ H]. simpl in H.
  apply andb_true_iff in H. apply H.
Qed.

Lemma rst_entries_plain (gs : list (str * list str)) :
  forall prev,
    plain_line prev = true ->
    (forall g, In g gs ->
       plain_line (fst g) = true /\ forallb plain_line (snd g) = true) ->
    forall k c, In (k, c) (rst_entries prev gs) ->
      plain_line k = true /\ plain_text c = true.
Proof.
  induction gs as [|g gs IH]; intros prev Hp Hg k c; [contradiction|].
  destruct (Hg g (or_introl eq_refl)) as [G1 G2].
  cbn [rst_entries]. intros [E | Hin].
  - injection E as <- <-. split; [exact Hp|].
    apply join_lines_plain.
    destruct gs; [exact G2 | apply forallb_removelast; exact G2].
  - apply (IH (last (snd g) (fst g))); [| |exact Hin].
    + apply forallb_last; assumption.
    + intros g' Hg'. apply Hg. right. exact Hg'.
Qed.

Lemma sections_plain (is_heading : str -> bool) (lines : list str) :
  forallb plain_line lines = true ->
  forallb plain_line (fst (sections is_heading lines)) = true
  /\ forall g, In g (snd (sections is_heading lines)) ->
       plain_line (fst g) = true /\ forallb plain_line (snd g) = true.
Proof.
  intros H. rewrite forallb_forall in H.
  destruct (sections_lines is_heading lines) as [L1 L2]. split.
  - apply forallb_forall. intros x Hx. apply H, L1, Hx.
  - intros g Hg. destruct (L2 g Hg) as [G1 G2]. split; [apply H, G1|].
    apply forallb_forall. intros x Hx. apply H, G2, Hx.
Qed.

(** What [rst_read] returns is in normal form. *)
Lemma rst_read_normal (rst : list str) :
  forallb plain_line rst = true ->
  rst_title_ok (fst (rst_read rst)) = true
  /\ NoDup (PyDict.keys (snd (rst_read rst)))
  /\ forall k c, In (k, c) (snd (rst_read rst)) ->
       plain_line k = true /\ plain_text c = true.
Proof.
  intros Hp. unfold rst_read.
  set (tm := match rst with
             | l0 :: l1 :: l2 :: rest =>
                 if _is_rst_heading l0 && _is_rst_heading l2
                 then (PyStr.strip l1, rest)
                 else ("", rst)
             | _ => ("", rst)
             end).
  assert (T : rst_title_ok (fst tm) = true
              /\ forallb plain_line (snd tm) = true).
  { unfold tm. destruct rst as [|l0 [|l1 [|l2 rest]]];
      try (split; [reflexivity | exact Hp]).
    destruct (_is_rst_heading l0 && _is_rst_heading l2);
      [|split; [reflexivity | exact Hp]].
    simpl in Hp. rewrite !andb_true_iff in Hp.
    destruct Hp as [_ [H1 [_ Hr]]]. cbn [fst snd].
    split; [|exact Hr]. unfold rst_title_ok.
    rewrite strip_idem, eqb_refl. simpl.
    unfold plain_line. apply forallb_strip. exact H1. }
  destruct tm as [t lines]. cbn [fst snd] in T. destruct T as [Ht Hl].
  destruct (sections_plain _is_rst_heading lines Hl) as [Ppre Pgs].
  destruct (sections _is_rst_heading lines) as [pre gs]. cbn [fst snd] in *.
  split; [exact Ht|]. split.
  - apply NoDup_keys_update.
    destruct (PyStr.join "\n" _); repeat constructor. simpl. tauto.
  - intros k c Hin. apply In_update in Hin. destruct Hin as [Hin | Hin].
    + set (ls := match gs with
                 | [] => pre
                 | _ => removelast (match pre with [] => lines | _ => pre end)
                 end) in *.
      assert (Pls : forallb plain_line ls = true).
      { unfold ls. destruct gs; [exact Ppre|].
        apply forallb_removelast. destruct pre; assumption. }
      destruct (PyStr.join "\n" ls) as [|x n] eqn:E; [contradiction|].
      destruct Hin as [Hin | []]. injection Hin as <- <-.
      split; [reflexivity|]. rewrite <- E. apply join_lines_plain. exact Pls.
    + apply (@rst_entries_plain gs (last pre (last lines ""))); [| |exact Hin].
      * apply forallb_last; [exact Ppre|].
        apply forallb_last; [exact Hl | reflexivity].
      * exact Pgs.
Qed.

End RstNormal.

(** X15.  A Zettel decoded from RST is in normal form: its title has no white
    space around it and is on one line; no heading name is stored twice;
    a heading name is on one line; a content has no line boundary but the
    newline.  Its attribute map holds [creation_date] and [zlinks], and a
    [SuperDate] or a false value under every date key. *)
Theorem createFromRst_normal_form :
  forall (svc : Services) (arg : str) (z : Zettel),
    createFromRst arg = Ok z ->
    rst_title_ok (title z) = true
    /\ NoDup (PyDict.keys (headings z))
    /\ (forall k c, In (k, c) (headings z) ->
          plain_line k = true /\ plain_text c = true)
    /\ attrs_inv (attrs z)
    /\ PyDict.has (attrs z) "creation_date" = true
    /\ PyDict.has (attrs z) "zlinks" = true.
Proof.
  intros svc arg z. unfold createFromRst.
  destruct (input_text arg) as [text|]; cbn [bind]; [|discriminate].
  cbv zeta.
  assert (A : forall t hs v,
             Zettel_init t hs v = Ok z ->
             attrs_inv (attrs z)
             /\ PyDict.has (attrs z) "creation_date" = true
             /\ PyDict.has (attrs z) "zlinks" = true).
  { intros t hs v H.
    destruct (@Zettel_init_fields svc t hs v z H) as [_ [_ Ha]].
    destruct (@init_attrs_spec svc v (attrs z) Ha) as [H1 [H2 [H3 _]]].
    auto. }
  destruct (PyStr.strip text) as [|c0 t0].
  - intros H. destruct (A _ _ _ H) as [A1 [A2 A3]].
    destruct (@Zettel_init_fields svc _ _ _ z H) as [-> [-> _]].
    split; [reflexivity|]. split; [constructor|].
    split; [intros k c []|]. split; [exact A1|]. split; [exact A2 | exact A3].
  - destruct (split_attributes (c0 :: t0) ".. attributes\n::")
      as [body blob].
    destruct (yaml_safe_load (PyStr.strip blob)) as [v|]; cbn [bind];
      [|discriminate].
    rewrite rst_body_read. cbn [bind].
    intros H. destruct (A _ _ _ H) as [A1 [A2 A3]].
    destruct (@Zettel_init_fields svc _ _ _ z H) as [-> [-> _]].
    destruct (@rst_read_normal (PyStr.splitlines body)
                (splitlines_plain false body)) as [N1 [N2 N3]].
    rewrite (@of_items_NoDup _ _ N2).
    split; [exact N1|]. split; [exact N2|]. split; [exact N3|].
    split; [exact A1|]. split; [exact A2 | exact A3].
Qed.

Lemma createFromRst_normal_form_witness :
  exists z,
    @createFromRst Ref.services "=====\n  a  b \n=====\nn1\nn2\nHead\n====\nx\ny" = Ok z
    /\ title z = "a  b"
    /\ headings z = [("_notes", "n1\nn2"); ("Head", "x\ny")]
    /\ rst_title_ok (title z) = true.
Proof.
  eexists. split; [vm_compute; reflexivity|]. split; [reflexivity|].
  split; [reflexivity|].
  exact (proj1 (@createFromRst_normal_form Ref.services
                  "=====\n  a  b \n=====\nn1\nn2\nHead\n====\nx\ny" _ eq_refl)).
Defined.
(* ================================================================== *)
(** * Decoding, encoding and updating together *)
(* ================================================================== *)

Lemma Zettel_init_Raise {svc : Services} (t : str) (hs : PyDict.dict str)
  (v : PyValue) (e : exn) :
  Zettel_init t hs v = Raise e <-> init_attrs v = Raise e.
Proof.
  unfold Zettel_init. cbv zeta.
  destruct (init_attrs v) as [a|e0]; cbn [bind].
  - split; discriminate.
  - split; intros H; injection H as <-; reflexivity.
Qed.

(** X16.  A decoder fails exactly where one of three things fails, and
    with the exception of that failure: reading the file its argument
    names; the structured-data service on the attribute text of its
    input (what follows the last attribute marker); the construction of
    the attribute map from what that service loaded (of the empty mapping
    when the input is blank).  The body of the text never makes it
    fail. *)
Theorem decoders_raise_only :
  forall (svc : Services) (arg : str) (e : exn),
    (createFromMd arg = Raise e <->
     (input_text arg = Raise e
      \/ exists text,
           input_text arg = Ok text
           /\ match PyStr.strip text with
              | [] => init_attrs (VDict []) = Raise e
              | _ =>
                  let blob := attribute_blob "<!--- attributes --->" text in
                  yaml_safe_load blob = Raise e
                  \/ exists v, yaml_safe_load blob = Ok v
                               /\ init_attrs v = Raise e
              end))
    /\ (createFromRst arg = Raise e <->
        (input_text arg = Raise e
         \/ exists text,
              input_text arg = Ok text
              /\ match PyStr.strip text with
                 | [] => init_attrs (VDict []) = Raise e
                 | _ =>
                     let blob := attribute_blob ".. attributes\n::" text in
                     yaml_safe_load blob = Raise e
                     \/ exists v, yaml_safe_load blob = Ok v
                                  /\ init_attrs v = Raise e
                 end)).
Proof.
  intros svc arg e.
  unfold createFromMd, createFromRst, attribute_blob.
  destruct (input_text arg) as [text|e0]; cbn [bind].
  2:{ split; (split;
        [ intros H; injection H as <-; left; reflexivity
        | intros [H | [t [E _]]];
          [injection H as <-; reflexivity | discriminate E] ]). }
  cbv zeta. destruct (PyStr.strip text) as [|c0 t0] eqn:S.
  - split; (split;
      [ intros H; right; exists text; split; [reflexivity|];
        rewrite S; apply Zettel_init_Raise in H; exact H
      | intros [H | [t [E H]]]; [discriminate H|];
        injection E as <-; rewrite S in H;
        apply Zettel_init_Raise; exact H ]).
  - split.
    + destruct (split_attributes (c0 :: t0) "<!--- attributes --->")
        as [body blob] eqn:B.
      split.
      * intros H. right. exists text. split; [reflexivity|].
        rewrite S, B. cbn [snd].
        destruct (yaml_safe_load (PyStr.strip blob)) as [v|e0];
          cbn [bind] in H.
        -- rewrite md_body_read in H. cbn [bind] in H.
           apply Zettel_init_Raise in H. right. exists v. auto.
        -- injection H as <-. left. reflexivity.
      * intros [H | [t [E H]]]; [discriminate H|].
        injection E as <-. rewrite S, B in H. cbn [snd] in H.
        destruct H as [H | [v [Y H]]].
        -- rewrite H. reflexivity.
        -- rewrite Y. cbn [bind]. rewrite md_body_read. cbn [bind].
           apply Zettel_init_Raise. exact H.
    + destruct (split_attributes (c0 :: t0) ".. attributes\n::")
        as [body blob] eqn:B.
      split.
      * intros H. right. exists text. split; [reflexivity|].
        rewrite S, B. cbn [snd].
        destruct (yaml_safe_load (PyStr.strip blob)) as [v|e0];
          cbn [bind] in H.
        -- rewrite rst_body_read in H. cbn [bind] in H.
           apply Zettel_init_Raise in H. right. exists v. auto.
        -- injection H as <-. left. reflexivity.
      * intros [H | [t [E H]]]; [discriminate H|].
        injection E as <-. rewrite S, B in H. cbn [snd] in H.
        destruct H as [H | [v [Y H]]].
        -- rewrite H. reflexivity.
        -- rewrite Y. cbn [bind]. rewrite rst_body_read. cbn [bind].
           apply Zettel_init_Raise. exact H.
Qed.

Section Reencode.
Context {svc : Services}.

Lemma decoded_attrs (arg : str) (z : Zettel) :
  createFromMd arg = Ok z \/ createFromRst arg = Ok z ->
  attrs_inv (attrs z).
Proof.
  assert (A : forall t hs v, Zettel_init t hs v = Ok z -> attrs_inv (attrs z)).
  { intros t hs v H.
    destruct (@Zettel_init_fields svc t hs v z H) as [_ [_ Ha]].
    apply (@init_attrs_spec svc v (attrs z) Ha). }
  unfold createFromMd, createFromRst.
  destruct (input_text arg) as [text|]; cbn [bind];
    [|intros [H | H]; discriminate].
  cbv zeta. destruct (PyStr.strip text) as [|c0 t0].
  - intros [H | H]; apply (A _ _ _ H).
  - intros [H | H].
    + destruct (split_attributes (c0 :: t0) "<!--- attributes --->")
        as [body blob].
      destruct (yaml_safe_load (PyStr.strip blob)) as [v|];
        cbn [bind] in H; [|discriminate].
      rewrite md_body_read in H. cbn [bind] in H. apply (A _ _ _ H).
    + destruct (split_attributes (c0 :: t0) ".. attributes\n::")
        as [body blob].
      destruct (yaml_safe_load (PyStr.strip blob)) as [v|];
        cbn [bind] in H; [|discriminate].
      rewrite rst_body_read in H. cbn [bind] in H. apply (A _ _ _ H).
Qed.

Lemma notes_displayed (z : Zettel) :
  (forall k, In k (PyDict.keys (headings z)) ->
             PyStr.lower k = "_notes" -> k = "_notes") ->
  PyStr.mem "_notes" (display_names z None) = true ->
  PyDict.has (headings z) "_notes" = true.
Proof.
  intros Hk Hm. apply mem_In in Hm. unfold display_names in Hm.
  assert (Hm' : In "_notes" (map PyStr.lower (PyDict.keys (headings z)))).
  { destruct (PyDict.keys (headings z)); assumption. }
  apply in_map_iff in Hm'. destruct Hm' as [k [E Hin]].
  apply has_In. rewrite <- (Hk k Hin E). exact Hin.
Qed.

End Reencode.

(** X17.  A Zettel that a decoder returns can be encoded again, in either
    dialect, unless one of its heading names is a letter-case variant of
    [_notes]. *)
Theorem reencode_decoded :
  forall (svc : Services) (arg : str) (z : Zettel),
    createFromMd arg = Ok z \/ createFromRst arg = Ok z ->
    (forall k, In k (PyDict.keys (headings z)) ->
               PyStr.lower k = "_notes" -> k = "_notes") ->
    exists t t', getMd z None = Ok t /\ getRst z None = Ok t'.
Proof.
  intros svc arg z Hd Hk.
  pose proof (@decoded_attrs svc arg z Hd) as Ha.
  pose proof (@notes_displayed z Hk) as Hn.
  destruct (proj2 (@getMd_succeeds svc z None Ha) Hn) as [t Ht].
  destruct (proj2 (@getRst_succeeds svc z None Ha) Hn) as [t' Ht'].
  eauto.
Qed.

Lemma reencode_decoded_witness :
  exists z t t',
    @createFromMd Ref.services "# t\nnotes\n## Head\nx" = Ok z
    /\ @getMd Ref.services z None = Ok t
    /\ @getRst Ref.services z None = Ok t'.
Proof.
  assert (H : @createFromMd Ref.services "# t\nnotes\n## Head\nx"
              = Ok {| title := "t";
                      headings := [("_notes", "notes"); ("Head", "x")];
                      attrs := [("creation_date", VDate (Date 2026 11 4));
                                ("zlinks", VDict [])] |})
    by (vm_compute; reflexivity).
  destruct (@reencode_decoded Ref.services _ _ (or_introl H)) as [t [t' [H1 H2]]].
  - intros k Hin E. in_cases Hin; [reflexivity | discriminate E].
  - eexists. exists t, t'. split; [exact H|]. split; assumption.
Defined.
Section EditUnchanged.
Context {svc : Services}.
Hypothesis SuperDate_date : forall d, SuperDate (VDate d) = Ok d.

Lemma update_from_same (z z' : Zettel) (c : PyValue) :
  attrs_inv (attrs z) -> attrs_inv (attrs z') ->
  PyDict.get (attrs z) "creation_date" = Some c ->
  same_zettel z z' ->
  exists z'', Zettel_update z z' None = Ok z'' /\ same_zettel z z''.
Proof.
  intros Hz Hz' Hc [St [Sh Sa]]. unfold Zettel_update.
  rewrite (@Attributes_update_inv svc SuperDate_date _ Hz'). cbn [bind].
  unfold Attributes_getitem. rewrite Hc.
  rewrite (@setitem_inv svc SuperDate_date).
  2:{ intros Ht Hk. destruct Hz as [_ Hd].
      apply (Hd "creation_date" c); [apply get_In | |]; assumption. }
  cbn [bind]. eexists. split; [reflexivity|].
  split; [exact St|]. split; [exact Sh|].
  cbn [attrs]. intros k. destruct (PyStr.eqb k "creation_date") eqn:E.
  - apply eqb_eq in E. subst k. rewrite get_set_same. symmetry. exact Hc.
  - apply eqb_neq in E. rewrite get_set_other by exact E. apply Sa.
Qed.

End EditUnchanged.

(** X18.  An edit that changes nothing: encoding a Zettel, decoding the text
    and updating the Zettel from the result leaves it as it was, in
    either dialect, for a Zettel in the canonical form of the dialect
    with readable attributes, when the date service takes a [SuperDate]
    for what it is. *)
Theorem unchanged_edit :
  forall (svc : Services) (z : Zettel),
    (forall d, SuperDate (VDate d) = Ok d) ->
    (md_canonical z ->
     attributes_readable "<!--- attributes --->" [] z ->
     exists t,
       getMd z None = Ok t
       /\ (input_text t = Ok t ->
           exists z' z'',
             createFromMd t = Ok z'
             /\ Zettel_update z z' None = Ok z''
             /\ same_zettel z z''))
    /\ (rst_canonical z ->
        attributes_readable ".. attributes\n::" [""] z ->
        exists t,
          getRst z None = Ok t
          /\ (input_text t = Ok t ->
              exists z' z'',
                createFromRst t = Ok z'
                /\ Zettel_update z z' None = Ok z''
                /\ same_zettel z z'')).
Proof.
  intros svc z Hsd.
  assert (G : forall marker lead,
             attributes_readable marker lead z ->
             attrs_inv (attrs z)
             /\ exists c, PyDict.get (attrs z) "creation_date" = Some c).
  { intros marker lead (Ha & Hcd & _). split; [exact Ha|].
    unfold PyDict.has in Hcd.
    destruct (PyDict.get (attrs z) "creation_date") as [c|];
      [exists c; reflexivity | discriminate Hcd]. }
  split; intros Hcan Hr; destruct (G _ _ Hr) as [Ha [c Hc]].
  - destruct (@md_round_trip svc z Hcan Hr) as [t [Ht Hd]].
    exists t. split; [exact Ht|]. intros Hin.
    destruct (Hd Hin) as [z' [Hz' Hs]].
    destruct (@update_from_same svc Hsd z z' c Ha
                (@decoded_attrs svc t z' (or_introl Hz')) Hc Hs)
      as [z'' [Hu Hs'']].
    exists z', z''. auto.
  - destruct (@rst_round_trip svc z Hcan Hr) as [t [Ht Hd]].
    exists t. split; [exact Ht|]. intros Hin.
    destruct (Hd Hin) as [z' [Hz' Hs]].
    destruct (@update_from_same svc Hsd z z' c Ha
                (@decoded_attrs svc t z' (or_intror Hz')) Hc Hs)
      as [z'' [Hu Hs'']].
    exists z', z''. auto.
Qed.

Lemma unchanged_edit_witness :
  let z :=
    {| title := "My Title";
       headings := [("_notes", "line1\n\nline2\n"); ("Head A", "a\nb");
                    ("B", "")];
       attrs := [("creation_date", VDate (Date 2020 1 1));
                 ("greeting", VStr "hello"); ("zlinks", VDict [])] |} in
  exists t z' z'',
    @getMd Ref.services z None = Ok t
    /\ @createFromMd Ref.services t = Ok z'
    /\ @Zettel_update Ref.services z z' None = Ok z''
    /\ same_zettel z z''.
Proof.
  intros z.
  destruct (@unchanged_edit Ref.services z (fun d => eq_refl)) as [Hmd _].
  destruct Hmd as [t [Ht Hd]].
  - constructor; [headings_canonical_by_cases | reflexivity | reflexivity].
  - attributes_readable_by_cases.
  - destruct (Hd eq_refl) as [z' [z'' [H1 [H2 H3]]]].
    exists t, z', z''. auto.
Defined.
(* ================================================================== *)
(** * Loading a Zettel from a file *)
(* ================================================================== *)

(** X19.  [_load_zettel] takes the first Zettel of the file and can find none
    in a file that is empty or all white space, nor for a format that is
    neither [rst] nor [md]: it then raises [IndexError]. *)
Theorem load_nothing :
  forall (svc : Services) (path zettel_format text : str),
    read_file path = Ok text ->
    (forallb PyStr.isspace text = true /\ os_path_exists text = false
     /\ In zettel_format ["rst"; "md"])
    \/ ~ In zettel_format ["rst"; "md"] ->
    _load_zettel path zettel_format = Raise IndexError.
Proof.
  intros svc path fmt text Hr H. unfold _load_zettel. rewrite Hr. cbn [bind].
  assert (E : str_to_zettels text fmt = Ok []).
  { unfold str_to_zettels. destruct H as [[Hs [He Hf]] | Hn].
    - assert (I : input_text text = Ok text)
        by (unfold input_text; rewrite He; reflexivity).
      unfold get_zettels_from_rst, get_zettels_from_md. rewrite I.
      cbn [bind]. cbv zeta. rewrite (strip_all_space _ Hs).
      destruct (PyStr.eqb fmt "rst"); [reflexivity|].
      destruct (PyStr.eqb fmt "md"); reflexivity.
    - destruct (PyStr.eqb fmt "rst") eqn:E1.
      + apply eqb_eq in E1. exfalso. apply Hn. left. symmetry. exact E1.
      + destruct (PyStr.eqb fmt "md") eqn:E2; [|reflexivity].
        apply eqb_eq in E2. exfalso. apply Hn. right. left. symmetry.
        exact E2. }
  rewrite E. reflexivity.
Qed.
Lemma load_nothing_witness :
  @_load_zettel (services_with_file "blank.md" " \n") "blank.md" "md"
  = Raise IndexError.
Proof.
  apply (@load_nothing (services_with_file "blank.md" " \n")
           "blank.md" "md" " \n" eq_refl).
  left. split; [reflexivity|]. split; [reflexivity|].
  right. left. reflexivity.
Defined.

Section LoadEncoded.
Context {svc : Services}.
Variable m' : str.
Variable c : ascii.
Variable sep : str.
Variable decode : str -> result Zettel.
Hypothesis c_nonspace : PyStr.isspace c = false.
Hypothesis sep_nonempty : sep <> [].
Hypothesis sep_one_line : forallb (fun c => negb (Ascii.eqb c NL)) sep = true.
Hypothesis no_file :
  forall p, PyStr.contains p (m' ++ [c]) = true -> os_path_exists p = false.
Hypothesis no_file_empty : os_path_exists "" = false.
Hypothesis decode_strip :
  forall a b, input_text a = Ok a -> input_text b = Ok b ->
              PyStr.strip a = PyStr.strip b -> decode a = decode b.

(** Unpacking a single encoded text *)
Lemma unpack_one (t : str) :
  framed (m' ++ [c]) t -> PyStr.contains t sep = false ->
  (text <- input_text t ;;
   match PyStr.strip text with
   | [] => Ok []
   | x :: r => mapM decode (chunks (x :: r) sep)
   end)
  = (z <- decode t ;; Ok [z]).
Proof.
  intros Hf Hc.
  pose proof (@unpack_texts svc m' c sep decode c_nonspace sep_nonempty
                sep_one_line no_file no_file_empty decode_strip [t]) as U.
  cbn [PyStr.join mapM] in U. rewrite U.
  - destruct (decode t); reflexivity.
  - intros u [<- | []]. split; assumption.
Qed.

End LoadEncoded.

Section LoadedZettel.
Context {svc : Services}.

Lemma load_one (path zettel_format t : str) (z z' : Zettel) :
  read_file path = Ok t ->
  str_to_zettels t zettel_format = Ok [z'] ->
  same_zettel z z' ->
  exists z'',
    _load_zettel path zettel_format = Ok z''
    /\ title z'' = title z /\ headings z'' = headings z
    /\ PyDict.get (attrs z'') "_loadpath" = Some (VStr path)
    /\ forall k, k <> "_loadpath" ->
                 PyDict.get (attrs z'') k = PyDict.get (attrs z) k.
Proof.
  intros Hr Hs [St [Sh Sa]]. unfold _load_zettel.
  rewrite Hr. cbn [bind]. rewrite Hs. cbn [bind].
  change (index [z'] 0) with (Ok z'). cbn [bind].
  rewrite setitem_plain by (apply andb_false_intro2; reflexivity).
  cbn [bind].
  eexists. split; [reflexivity|]. cbn [title headings attrs].
  split; [exact St|]. split; [exact Sh|]. split; [apply get_set_same|].
  intros k Hk. rewrite get_set_other by exact Hk. apply Sa.
Qed.

End LoadedZettel.

(** X20.  Loading what was saved: when the file holds the text
    [zettels_to_str] makes of one Zettel, [_load_zettel] returns that
    Zettel with the path of the file under [_loadpath].  The Zettel is in
    the canonical form of the dialect with readable attributes, its text
    does not contain the sentinel of the dialect, and neither the empty
    path nor a path that contains the attribute marker names a file. *)
Theorem load_saved :
  forall (svc : Services) (path t : str) (z : Zettel),
    os_path_exists "" = false ->
    read_file path = Ok t ->
    (zettels_to_str [z] "md" None = Ok t ->
     (forall p, PyStr.contains p "<!--- attributes --->" = true ->
                os_path_exists p = false) ->
     md_canonical z ->
     attributes_readable "<!--- attributes --->" [] z ->
     PyStr.contains t md_sep = false ->
     exists z',
       _load_zettel path "md" = Ok z'
       /\ title z' = title z /\ headings z' = headings z
       /\ PyDict.get (attrs z') "_loadpath" = Some (VStr path)
       /\ forall k, k <> "_loadpath" ->
                    PyDict.get (attrs z') k = PyDict.get (attrs z) k)
    /\ (zettels_to_str [z] "rst" None = Ok t ->
        (forall p, PyStr.contains p ".. attributes\n::" = true ->
                   os_path_exists p = false) ->
        rst_canonical z ->
        attributes_readable ".. attributes\n::" [""] z ->
        PyStr.contains t rst_sep = false ->
        exists z',
          _load_zettel path "rst" = Ok z'
          /\ title z' = title z /\ headings z' = headings z
          /\ PyDict.get (attrs z') "_loadpath" = Some (VStr path)
          /\ forall k, k <> "_loadpath" ->
                       PyDict.get (attrs z') k = PyDict.get (attrs z) k).
Proof.
  intros svc path t z Hfs0 Hr. split; intros Hp Hfs Hc Ha Hn.
  - assert (Ht : getMd z None = Ok t).
    { rewrite (@zettels_to_str_texts svc "md" None [z]
                 (or_intror (or_introl eq_refl))) in Hp.
      unfold encoder in Hp. simpl in Hp.
      destruct (getMd z None); simpl in Hp; [|discriminate].
      injection Hp as <-. reflexivity. }
    pose proof (@md_framed svc z t Hc Ht) as Hf.
    destruct (@md_round_trip svc z Hc Ha) as [t0 [Et Hd]].
    rewrite Ht in Et. injection Et as <-.
    destruct Hd as [z' [Hz' Hs]].
    { unfold input_text. rewrite (Hfs t (@framed_contains _ _ Hf)).
      reflexivity. }
    apply (@load_one svc path "md" t z z' Hr); [|exact Hs].
    rewrite str_to_zettels_md.
    rewrite (@unpack_one svc "<!--- attributes ---" ">" md_sep createFromMd
               eq_refl ltac:(discriminate) eq_refl Hfs Hfs0
               createFromMd_strip t Hf Hn).
    rewrite Hz'. reflexivity.
  - assert (Ht : getRst z None = Ok t).
    { rewrite (@zettels_to_str_texts svc "rst" None [z]
                 (or_introl eq_refl)) in Hp.
      unfold encoder in Hp. simpl in Hp.
      destruct (getRst z None); simpl in Hp; [|discriminate].
      injection Hp as <-. reflexivity. }
    pose proof (@rst_framed svc z t Hc Ht) as Hf.
    destruct (@rst_round_trip svc z Hc Ha) as [t0 [Et Hd]].
    rewrite Ht in Et. injection Et as <-.
    destruct Hd as [z' [Hz' Hs]].
    { unfold input_text. rewrite (Hfs t (@framed_contains _ _ Hf)).
      reflexivity. }
    apply (@load_one svc path "rst" t z z' Hr); [|exact Hs].
    rewrite str_to_zettels_rst.
    rewrite (@unpack_one svc ".. attributes\n:" ":" rst_sep createFromRst
               eq_refl ltac:(discriminate) eq_refl Hfs Hfs0
               createFromRst_strip t Hf Hn).
    rewrite Hz'. reflexivity.
Qed.

Lemma load_saved_witness :
  let z := {| title := "a";
              headings := [("_notes", "line1\n\nline2\n"); ("Head", "x")];
              attrs := [("creation_date", VDate (Date 2026 11 4));
                        ("zlinks", VDict [])] |} in
  let t : str :=
    "# a\nline1\n\nline2\n\n## Head\nx\n<!--- attributes --->\n    ---\n    creation_date: 2026-11-04, Wed\n    zlinks: {}\n" in
  exists z',
    @_load_zettel (services_with_file "a.md" t) "a.md" "md" = Ok z'
    /\ title z' = "a"
    /\ headings z' = [("_notes", "line1\n\nline2\n"); ("Head", "x")]
    /\ PyDict.get (attrs z') "_loadpath" = Some (VStr "a.md").
Proof.
  intros z t.
  destruct (@load_saved (services_with_file "a.md" t) "a.md" t z
              eq_refl eq_refl) as [H _].
  destruct H as [z' [H1 [H2 [H3 [H4 _]]]]].
  - vm_compute. reflexivity.
  - intros p Hp. destruct (PyStr.eqb p "a.md") eqn:E; [|exact E].
    apply eqb_eq in E. subst p. discriminate Hp.
  - constructor; [headings_canonical_by_cases | reflexivity | reflexivity].
  - attributes_readable_by_cases.
  - reflexivity.
  - exists z'. split; [exact H1|]. split; [exact H2|]. split; [exact H3|].
    exact H4.
Defined.
(* ================================================================== *)
(** * Saving and deleting *)
(* ================================================================== *)

Section SaveFacts.
Context {svc : Services} {dsk : Disk}.

Lemma missing_none (zettels : list Zettel) :
  missing_loadpath zettels = false ->
  forall z, In z zettels -> PyDict.has (attrs z) "_loadpath" = true.
Proof.
  unfold missing_loadpath. intros H z Hz.
  destruct (PyDict.has (attrs z) "_loadpath") eqn:E; [reflexivity|].
  assert (F : existsb (fun z => negb (PyDict.has (attrs z) "_loadpath"))
                zettels = true).
  { apply existsb_exists. exists z. rewrite E. auto. }
  congruence.
Qed.

Lemma put_back (a : Attributes) :
  PyDict.has a "_loadpath" = true ->
  exists a',
    Attributes_setitem (PyDict.del a "_loadpath") "_loadpath"
      (Attributes_getitem a "_loadpath") = Ok a'
    /\ PyDict.equiv a' a.
Proof.
  intros H. rewrite setitem_plain by (apply andb_false_intro2; reflexivity).
  eexists. split; [reflexivity|]. intros k.
  destruct (PyStr.eqb k "_loadpath") eqn:E.
  - apply eqb_eq in E. subst k. rewrite get_set_same.
    unfold Attributes_getitem, PyDict.has in *.
    destruct (PyDict.get a "_loadpath"); [reflexivity | discriminate].
  - apply eqb_neq in E. rewrite get_set_other by exact E.
    apply get_del_other. exact E.
Qed.

Lemma save_one_keeps (zettel_format : str) (d d' : disk) (z z' : Zettel)
  (r : option exn) :
  PyDict.has (attrs z) "_loadpath" = true ->
  save_one zettel_format d z = (d', z', r) -> same_zettel z z'.
Proof.
  intros H. unfold save_one. cbn [attrs].
  destruct (put_back _ H) as [a' [-> Ha]].
  destruct (match disk_open_w d _ with (d0, Some e) => _ | (d0, None) => _ end)
    as [d1 r1].
  intros E. injection E as <- <- <-.
  split; [reflexivity|]. split; [reflexivity | exact Ha].
Qed.

Lemma save_all_keeps (zettel_format : str) (zettels : list Zettel) :
  forall d d' zettels' r,
    (forall z, In z zettels -> PyDict.has (attrs z) "_loadpath" = true) ->
    save_all zettel_format d zettels = (d', zettels', r) ->
    Forall2 same_zettel zettels zettels'.
Proof.
  induction zettels as [|z rest IH]; intros d d' zs' r H; cbn [save_all].
  - intros E. injection E as <- <- <-. constructor.
  - destruct (save_one zettel_format d z) as [[d1 z1] r1] eqn:S.
    pose proof (@save_one_keeps _ _ _ _ _ _ (H z (or_introl eq_refl)) S) as K.
    destruct r1 as [e|].
    + intros E. injection E as <- <- <-. constructor; [exact K|].
      clear. induction rest as [|x rest IHr]; constructor;
        [repeat split; try reflexivity; intros k; reflexivity | exact IHr].
    + destruct (save_all zettel_format d1 rest) as [[d2 rest2] r2] eqn:A.
      intros E. injection E as <- <- <-. constructor; [exact K|].
      apply (IH d1 d2 rest2 r2); [|exact A].
      intros x Hx. apply H. right. exact Hx.
Qed.

End SaveFacts.

(** X21.  [save_zettels] and [delete_zettels] check first that every Zettel
    has a [_loadpath]: when one has none they raise [KeyError] and leave
    the disk and the Zettels as they are.  And whatever happens in
    [save_zettels], the Zettels are left as they were: each one has its
    title, its headings, and an attribute map equal to the one it had,
    [_loadpath] included. *)
Theorem save_keeps_zettels :
  forall (svc : Services) (dsk : Disk) (d : disk) (zettels : list Zettel)
         (zettel_format : str),
    (missing_loadpath zettels = true ->
     save_zettels d zettels zettel_format = (d, zettels, Some KeyError)
     /\ delete_zettels d zettels = (d, Some KeyError))
    /\ forall d' zettels' r,
         save_zettels d zettels zettel_format = (d', zettels', r) ->
         Forall2 same_zettel zettels zettels'.
Proof.
  intros svc dsk d zs fmt. unfold save_zettels, delete_zettels. split.
  - intros ->. split; reflexivity.
  - intros d' zs' r.
    destruct (missing_loadpath zs) eqn:M.
    + intros E. injection E as <- <- <-.
      clear. induction zs as [|x rest IH]; constructor;
        [repeat split; try reflexivity; intros k; reflexivity | exact IH].
    + apply save_all_keeps. apply missing_none. exact M.
Qed.

Lemma save_keeps_zettels_witness :
  let z := {| title := "t"; headings := [("_notes", "n")];
              attrs := [("_loadpath", VStr "a.md");
                        ("greeting", VStr "hello")] |} in
  let z0 := {| title := "u"; headings := [];
               attrs := [("greeting", VStr "hello")] |} in
  let z' := {| title := "t"; headings := [("_notes", "n")];
               attrs := [("greeting", VStr "hello");
                         ("_loadpath", VStr "a.md")] |} in
  @save_zettels Ref.services log_disk [] [z; z0] "md"
  = ([], [z; z0], Some KeyError)
  /\ @save_zettels Ref.services log_disk [] [z] "md"
     = ([Opened (VStr "a.md");
         Written (VStr "a.md")
           "# t\nn\n<!--- attributes --->\n    ---\n    greeting: hello\n"],
        [z'], None)
  /\ Forall2 same_zettel [z] [z'].
Proof.
  intros z z0 z'.
  destruct (@save_keeps_zettels Ref.services log_disk [] [z; z0] "md")
    as [H1 _].
  destruct (@save_keeps_zettels Ref.services log_disk [] [z] "md")
    as [_ H2].
  split; [exact (proj1 (H1 eq_refl))|].
  assert (E : @save_zettels Ref.services log_disk [] [z] "md"
              = ([Opened (VStr "a.md");
                  Written (VStr "a.md")
                    "# t\nn\n<!--- attributes --->\n    ---\n    greeting: hello\n"],
                 [z'], None)) by reflexivity.
  split; [exact E | exact (H2 _ _ _ E)].
Defined.
